(** * Shinigami Eyes ML service: classification and multi-signal aggregation

    A shallow embedding of the classification engine of the ML service:
    - [ContentAnalyzer] (src/ml_service/utils/content_analyzer.py):
      [analyze_with_ollama], [analyze_with_patterns], [analyze_text],
      [analyze_profile];
    - [CommonCrawlAnalyzer] (src/ml_service/utils/common_crawl.py):
      [_get_domain_from_url], [_check_known_domain_stance],
      [_analyze_domain_content], [analyze_single_url], [analyze_links];
    - the adjustment rule of the [/analyze/profile] and [/analyze/url]
      handlers (src/ml_service/app.py), and the request layer around it:
      the four handlers, the analysis cache and its sweep, the rate
      limiter and its sweep;
    - [WebAnalyzer] (src/ml_service/utils/web_analyzer.py):
      [is_bad_identifier], [_cached_request], [fetch_url_content],
      [_extract_links_from_html], [_fetch_generic_data],
      [_detect_platform].

    Conventions of the embedding.
    - A Python [float] is an exact rational ([Q]); equalities between
      computed confidences are stated with [==].
    - A Python [str] is a [string] whose characters are the code points
      below 256.
    - A result dictionary is a [Verdict] record; the keys ["method"],
      ["error"] and ["source"] are gathered in the field [tag].
    - Library code and the network (re, requests, spaCy, BeautifulSoup,
      numpy's square root, the archive index, the iteration order of a
      set) is a field of the record [World]; the code of the repository
      that calls it is written out.
    - The module [Binary64] repeats the scalar formulas and the weighted
      mean on binary64 numbers, to check the values the properties single
      out as Python computes them, and records two inputs on a threshold
      where the rounding decides the side. *)

From Stdlib Require Import ZArith QArith Qminmax String Ascii List Bool Lia Lqa.
From Stdlib Require Import Floats.
From stdpp Require Import gmap strings.
Import ListNotations.

Open Scope Q_scope.

(* ===================================================================== *)
(** ** Python strings *)
(* ===================================================================== *)

Module PyStr.

Definition code (c : ascii) : nat := nat_of_ascii c.

(** [str.isspace] on one character, for the code points below 256. *)
Definition isspace (c : ascii) : bool :=
  let n := code c in
  ((9 <=? n) && (n <=? 13) || (28 <=? n) && (n <=? 32)
   || (n =? 133) || (n =? 160))%nat.

Fixpoint lstrip (s : string) : string :=
  match s with
  | EmptyString => EmptyString
  | String c s' => if isspace c then lstrip s' else s
  end.

Fixpoint rstrip (s : string) : string :=
  match s with
  | EmptyString => EmptyString
  | String c s' =>
      match rstrip s' with
      | EmptyString => if isspace c then EmptyString else String c EmptyString
      | r => String c r
      end
  end.

(** [s.strip()] *)
Definition strip (s : string) : string := rstrip (lstrip s).

(** [str.lower] on one character: A-Z, and the upper-case letters of
    Latin-1 (0xC0-0xDE without the multiplication sign 0xD7). *)
Definition lower_char (c : ascii) : ascii :=
  let n := code c in
  if ((65 <=? n) && (n <=? 90)
      || (192 <=? n) && (n <=? 222) && negb (n =? 215))%nat
  then ascii_of_nat (n + 32) else c.

Fixpoint lower (s : string) : string :=
  match s with
  | EmptyString => EmptyString
  | String c s' => String (lower_char c) (lower s')
  end.

(** [s.startswith(p)] *)
Fixpoint startswith (p s : string) {struct p} : bool :=
  match p with
  | EmptyString => true
  | String a p' =>
      match s with
      | EmptyString => false
      | String b s' => Ascii.eqb a b && startswith p' s'
      end
  end.

(** [s[:n]] *)
Fixpoint take (n : N) (s : string) : string :=
  match s with
  | EmptyString => EmptyString
  | String c s' =>
      if (n =? 0)%N then EmptyString else String c (take (N.pred n) s')
  end.

(** [s[n:]] *)
Fixpoint drop (n : nat) (s : string) : string :=
  match n, s with
  | O, _ => s
  | S n', String _ s' => drop n' s'
  | S _, EmptyString => EmptyString
  end.

(** [c in s] *)
Fixpoint contains (c : ascii) (s : string) : bool :=
  match s with
  | EmptyString => false
  | String c' s' => Ascii.eqb c c' || contains c s'
  end.

(** [sep.join(parts)] *)
Fixpoint join (sep : string) (parts : list string) : string :=
  match parts with
  | [] => EmptyString
  | [p] => p
  | p :: rest => (p ++ sep ++ join sep rest)%string
  end.

(** [bool(s)]: a string is true when it is not empty. *)
Definition truthy (s : string) : bool :=
  match s with EmptyString => false | _ => true end.

(** Number of characters of [s] that are not white space. *)
Fixpoint count_nonspace (s : string) : nat :=
  match s with
  | EmptyString => O
  | String c s' => ((if isspace c then 0 else 1) + count_nonspace s')%nat
  end.

End PyStr.

(* ===================================================================== *)
(** ** Python numbers *)
(* ===================================================================== *)

(** [x < y] as a test. *)
Definition Qltb (x y : Q) : bool := negb (Qle_bool y x).

(** [min(a, b)]: the first argument unless the second is smaller. *)
Definition py_min (a b : Q) : Q := if Qltb b a then b else a.

Definition Qnat (n : nat) : Q := inject_Z (Z.of_nat n).

(** [sum(xs)] *)
Definition Qsum (xs : list Q) : Q := fold_right Qplus 0 xs.

(* ===================================================================== *)
(** ** Result dictionaries *)
(* ===================================================================== *)

(** The value found under ["method"], ["error"] or ["source"]; the
    aggregate of [analyze_links] carries none of these keys. *)
Inductive Tag : Set :=
| insufficient_text
| ollama
| pattern_matching
| no_posts
| profile_analysis
| known_transphobic_domain
| known_transfriendly_domain
| no_cc_data
| no_content_extracted
| pattern_analysis
| no_links
| no_valid_domains
| no_analysis_results
| links_aggregate.

Record DomainResult := {
  dr_domain : string;
  dr_classification : Z;
  dr_confidence : Q
}.

Inductive Detail :=
| NoDetail
| PatternStats (transphobic_matches friendly_matches : nat)
| ProfileStats (sample_size : nat) (consistency : Q)
               (transphobic gray_area friendly : Q)
| LinkStats (weighted_avg : Q) (domains_analyzed : nat)
            (domain_results : list DomainResult).

Record Verdict := {
  classification : Z;
  confidence : Q;
  tag : Tag;
  detail : Detail
}.

(* ===================================================================== *)
(** ** The world outside the repository *)
(* ===================================================================== *)

(** What [requests.post(.../api/generate)] and the decoding of its body
    give inside the [try] block of [analyze_with_ollama]. *)
Inductive ollama_reply :=
| Raises
    (* an exception: no connection, a body that is not JSON, a value
       under "response" that is not a string *)
| Status (status_code : Z) (response : option string)
    (* the status code and the value under "response" of the JSON body,
       [None] when the key is absent *).

(** A token of a spaCy document. *)
Record Token := {
  lemma_ : string;
  is_stop : bool;
  is_punct : bool
}.

(** A record of the archive index (one JSON line). *)
Record CCRecord := {
  cc_filename : option string;
  cc_offset : Z;
  cc_length : Z
}.

Record World := {
  (** [len(re.findall(pattern, text))] *)
  re_findall_count : string -> string -> nat;
  (** [re.sub(pattern, repl, text)] *)
  re_sub : string -> string -> string -> string;
  (** the answer of the generate endpoint of the inference backend to a
      model and a prompt *)
  ollama_generate : string -> string -> ollama_reply;
  (** the square root that [np.std] takes of the mean squared deviation *)
  np_sqrt : Q -> Q;
  (** the validation of a bracketed host by [urlsplit] (Python 3.11.4 and
      later; constantly true before) *)
  bracketed_host_ok : string -> bool;
  (** the parsed lines of the archive index for a domain, empty when the
      query fails *)
  cc_index_lines : string -> list CCRecord;
  (** the bytes that the range request for [offset, offset+length-1] of
      a file of the archive answers with status 206, [None] when it
      answers with another status or raises *)
  warc_range : string -> Z -> Z -> option string;
  (** [_extract_text_from_html]: the visible text that BeautifulSoup
      extracts, [""] on failure *)
  html_text : string -> string;
  (** the order in which a [set] built from these elements is iterated *)
  set_order : list string -> list string
}.

(** The attributes of a [ContentAnalyzer] set by [__init__]. *)
Record ContentAnalyzer := {
  model_name : string;
  nlp : option (string -> list Token);
  ollama_available : bool
}.

(* ===================================================================== *)
(** ** Calls made during an analysis *)
(* ===================================================================== *)

Inductive Call :=
| CallOllama (text : string)
| CallPatterns (text : string).

Definition Traced (A : Type) : Type := (A * list Call)%type.

Definition ret {A} (a : A) : Traced A := (a, []).

Definition bind {A B} (m : Traced A) (k : A -> Traced B) : Traced B :=
  let (a, t1) := m in
  let (b, t2) := k a in
  (b, (t1 ++ t2)%list).

Definition invoke {A} (c : Call) (r : A) : Traced A := (r, [c]).

Notation "'let*' x ':=' m 'in' k" := (bind m (fun x => k))
  (at level 10, x name, m at level 100, k at level 200).

Fixpoint mapT {A B} (f : A -> Traced B) (l : list A) : Traced (list B) :=
  match l with
  | [] => ret []
  | x :: l' =>
      let* y := f x in
      let* ys := mapT f l' in
      ret (y :: ys)
  end.

(* ===================================================================== *)
(** ** ContentAnalyzer *)
(* ===================================================================== *)

Definition nl : string := String (ascii_of_nat 10) EmptyString.

(** [self.transphobic_patterns] *)
Definition transphobic_patterns : list string :=
  [ "\b(only\s+two\s+genders|attack\s+helicopter|basic\s+biology|genital\s+mutilation)\b";
    "\b(trans\s*cult|trans\s*ideology|tr[a@]nn[y!ie]|alphabet\s+mafia|lgb\s*drop\s*the\s*t)\b";
    "\b(gender\s*confused|gender\s*delusion|transgenderism|gender\s*ideology|woke\s*gender)\b" ]%string.

(** [self.friendly_patterns] *)
Definition friendly_patterns : list string :=
  [ "\b(trans\s*rights|trans\s*women\s*are\s*women|trans\s*men\s*are\s*men|protect\s*trans\s*kids)\b";
    "\b(gender\s*affirming|respect\s*pronouns|transgender\s*visibility|support\s*trans)\b";
    "\b(gender\s*expression|gender\s*identity|nonbinary\s*rights|trans\s*healthcare|gender\s*euphoria)\b" ]%string.

(** [re.search(r'[0-2]', s)] followed by [int(match.group(0))]. *)
Fixpoint search_digit_0_2 (s : string) : option Z :=
  match s with
  | EmptyString => None
  | String c s' =>
      let n := PyStr.code c in
      if ((48 <=? n) && (n <=? 50))%nat then Some (Z.of_nat (n - 48))
      else search_digit_0_2 s'
  end.

(** The verdict of the pattern matcher from the two match counts
    (the part of [analyze_with_patterns] after the counting). *)
Definition pattern_verdict (transphobic_count friendly_count : nat) : Verdict :=
  let total_matches := (transphobic_count + friendly_count)%nat in
  if (total_matches =? 0)%nat then
    {| classification := 1; confidence := 0.3; tag := pattern_matching;
       detail := NoDetail |}
  else
    let transphobic_score :=
      if (0 <? total_matches)%nat
      then Qnat transphobic_count / Qnat total_matches else 0 in
    let '(classification, confidence) :=
      if Qltb 0.7 transphobic_score then
        (2%Z, 0.5 + (transphobic_score - 0.7) * 1.5)
      else if Qltb transphobic_score 0.3 then
        (0%Z, 0.5 + (0.3 - transphobic_score) * 1.5)
      else (1%Z, 0.3) in
    {| classification := classification;
       confidence := py_min confidence 0.95;
       tag := pattern_matching;
       detail := PatternStats transphobic_count friendly_count |}.

(** The confidence-weighted mean of the classifications, as
    [analyze_profile] and [analyze_links] both compute it, in exact
    arithmetic: where the exact mean is on a threshold of
    [threshold_classification], the binary64 mean can fall on either side
    of it ([Binary64Checks.mean_of_one_in_five]), and nothing is proved
    there. *)
Definition weighted_average (classifications : list Z) (confidences : list Q) : Q :=
  let weighted :=
    map (fun '(c, conf) => inject_Z c * conf)
        (combine classifications confidences) in
  let total_confidence := Qsum confidences in
  if Qltb 0 total_confidence then Qsum weighted / total_confidence
  else 1.

(** The final classification from the weighted mean, as both compute it. *)
Definition threshold_classification (weighted_avg : Q) : Z :=
  if Qltb 1.6 weighted_avg then 2%Z
  else if Qltb weighted_avg 0.4 then 0%Z
  else 1%Z.

Section ContentAnalyzer.

Context (W : World) (self : ContentAnalyzer).

(** [sum(len(re.findall(pattern, text)) for pattern in patterns)] *)
Definition count_matches (patterns : list string) (text : string) : nat :=
  list_sum (map (fun pattern => re_findall_count W pattern text) patterns).

Definition preprocess_text (text : string) : string :=
  if negb (PyStr.truthy text) then ""%string
  else
    let text := re_sub W "https?://\S+" "" text in
    let text := re_sub W "[^\w\s.,!?]" " " text in
    let text := PyStr.strip (re_sub W "\s+" " " text) in
    match nlp self with
    | Some pipeline =>
        let doc := pipeline (PyStr.take 100000 text) in
        let tokens :=
          map lemma_
              (List.filter (fun token => negb (is_stop token) && negb (is_punct token))
                      doc) in
        PyStr.join " " tokens
    | None => text
    end.

Definition ollama_prompt (text : string) : string :=
  ("Analyze this content and determine if it's transphobic or trans-friendly. Respond with only the number:"
   ++ nl ++ "0 = trans-friendly"
   ++ nl ++ "1 = unclear or needs more context"
   ++ nl ++ "2 = transphobic"
   ++ nl ++ nl ++ "Content: " ++ text)%string.

(** [None] is Python's [None]. *)
Definition analyze_with_ollama (text : string) : option Verdict :=
  match ollama_generate W (model_name self) (ollama_prompt text) with
  | Status status_code response =>
      if (status_code =? 200)%Z then
        let classification_text :=
          PyStr.strip (match response with Some r => r | None => "1"%string end) in
        let classification :=
          match search_digit_0_2 classification_text with
          | Some d => d
          | None => 1%Z
          end in
        Some {| classification := classification; confidence := 0.8;
                tag := ollama; detail := NoDetail |}
      else None
  | Raises => None
  end.

Definition analyze_with_patterns (text : string) : Verdict :=
  let text := PyStr.lower text in
  let transphobic_count := count_matches transphobic_patterns text in
  let friendly_count := count_matches friendly_patterns text in
  pattern_verdict transphobic_count friendly_count.

Definition insufficient_text_verdict : Verdict :=
  {| classification := 1; confidence := 0.1; tag := insufficient_text;
     detail := NoDetail |}.

Definition analyze_text (text : string) : Traced Verdict :=
  if negb (PyStr.truthy text) || (String.length (PyStr.strip text) <? 5)%nat
  then ret insufficient_text_verdict
  else
    let processed_text := preprocess_text text in
    let fall_back :=
      invoke (CallPatterns processed_text)
             (analyze_with_patterns processed_text) in
    if ollama_available self then
      let input := PyStr.take 8000 processed_text in
      let* ollama_result :=
        invoke (CallOllama input) (analyze_with_ollama input) in
      match ollama_result with
      | Some result => ret result
      | None => fall_back
      end
    else fall_back.

(** [np.std(xs)]: the square root of the mean squared deviation from
    the mean. *)
Definition np_mean (xs : list Q) : Q := Qsum xs / Qnat (List.length xs).

Definition np_std (xs : list Q) : Q :=
  let arrmean := np_mean xs in
  np_sqrt W (np_mean (map (fun x => (x - arrmean) * (x - arrmean)) xs)).

(** [1.0 - (np.std(classifications) / 2.0)] *)
Definition consistency_of (classifications : list Z) : Q :=
  1 - np_std (map inject_Z classifications) / 2.

(** [min(1.0, len(posts) / 10.0)] *)
Definition sample_confidence_of (posts : list string) : Q :=
  py_min 1 (Qnat (List.length posts) / 10).

(** [classifications.count(c) / len(classifications)] *)
Definition share (c : Z) (classifications : list Z) : Q :=
  Qnat (count_occ Z.eq_dec classifications c)
  / Qnat (List.length classifications).

Definition no_posts_verdict : Verdict :=
  {| classification := 1; confidence := 0.1; tag := no_posts;
     detail := NoDetail |}.

Definition analyze_profile (posts : list string) : Traced Verdict :=
  match posts with
  | [] => ret no_posts_verdict
  | _ =>
      let* results := mapT analyze_text (firstn 20 posts) in
      let classifications := map classification results in
      let confidences := map confidence results in
      let weighted_avg := weighted_average classifications confidences in
      let final_classification := threshold_classification weighted_avg in
      let consistency := consistency_of classifications in
      let sample_confidence := sample_confidence_of posts in
      let final_confidence := (consistency + sample_confidence) / 2 in
      let final_confidence := py_min 0.95 final_confidence in
      ret {| classification := final_classification;
             confidence := final_confidence;
             tag := profile_analysis;
             detail := ProfileStats (List.length posts) consistency
                         (share 2 classifications)
                         (share 1 classifications)
                         (share 0 classifications) |}
  end.

End ContentAnalyzer.

(* ===================================================================== *)
(** ** urllib.parse: the network location of a URL *)
(* ===================================================================== *)

Module Urllib.

(** [url.lstrip(_WHATWG_C0_CONTROL_OR_SPACE)] *)
Fixpoint lstrip_c0 (s : string) : string :=
  match s with
  | EmptyString => EmptyString
  | String c s' => if (PyStr.code c <=? 32)%nat then lstrip_c0 s' else s
  end.

(** Tab, carriage return and line feed are removed wherever they are. *)
Definition unsafe (c : ascii) : bool :=
  let n := PyStr.code c in ((n =? 9) || (n =? 10) || (n =? 13))%nat.

Fixpoint remove_unsafe (s : string) : string :=
  match s with
  | EmptyString => EmptyString
  | String c s' =>
      if unsafe c then remove_unsafe s' else String c (remove_unsafe s')
  end.

Definition ascii_alpha (c : ascii) : bool :=
  let n := PyStr.code c in
  ((65 <=? n) && (n <=? 90) || (97 <=? n) && (n <=? 122))%nat.

(** [scheme_chars]: letters, digits, [+], [-] and [.]. *)
Definition scheme_char (c : ascii) : bool :=
  let n := PyStr.code c in
  (ascii_alpha c || (48 <=? n) && (n <=? 57)
   || (n =? 43) || (n =? 45) || (n =? 46))%nat.

(** [url.find(c)] *)
Fixpoint find (c : ascii) (s : string) : option nat :=
  match s with
  | EmptyString => None
  | String c' s' =>
      if Ascii.eqb c c' then Some O else option_map S (find c s')
  end.

Fixpoint all_chars (p : ascii -> bool) (s : string) : bool :=
  match s with
  | EmptyString => true
  | String c s' => p c && all_chars p s'
  end.

(** The URL after its scheme, when it has one. *)
Definition after_scheme (url : string) : string :=
  match find ":" url, url with
  | Some i, String c0 _ =>
      if (0 <? i)%nat && ascii_alpha c0
         && all_chars scheme_char (PyStr.take (N.of_nat i) url)
      then PyStr.drop (i + 1) url
      else url
  | _, _ => url
  end.

Definition delimiter (c : ascii) : bool :=
  (Ascii.eqb c "/" || Ascii.eqb c "?" || Ascii.eqb c "#")%char.

(** [_splitnetloc]: up to the first of [/], [?] and [#]. *)
Fixpoint until_delimiter (s : string) : string :=
  match s with
  | EmptyString => EmptyString
  | String c s' =>
      if delimiter c then EmptyString else String c (until_delimiter s')
  end.

(** [s.partition(c)[2]] *)
Fixpoint after_char (c : ascii) (s : string) : string :=
  match s with
  | EmptyString => EmptyString
  | String c' s' => if Ascii.eqb c c' then s' else after_char c s'
  end.

(** [s.partition(c)[0]] *)
Fixpoint before_char (c : ascii) (s : string) : string :=
  match s with
  | EmptyString => EmptyString
  | String c' s' =>
      if Ascii.eqb c c' then EmptyString else String c' (before_char c s')
  end.

(** [urlparse(url).netloc] as of CPython 3.12; [None] when [urlsplit]
    raises [ValueError]. The check of the network location under NFKC
    normalisation never fails for code points below 256. *)
Definition netloc (bracketed_ok : string -> bool) (url : string) : option string :=
  let url := remove_unsafe (lstrip_c0 url) in
  let url := after_scheme url in
  if PyStr.startswith "//" url then
    let netloc := until_delimiter (PyStr.drop 2 url) in
    let has_open := PyStr.contains "[" netloc in
    let has_close := PyStr.contains "]" netloc in
    if has_open && negb has_close || has_close && negb has_open then None
    else if has_open && has_close then
      if bracketed_ok (before_char "]" (after_char "[" netloc))
      then Some netloc else None
    else Some netloc
  else Some ""%string.

End Urllib.

(* ===================================================================== *)
(** ** CommonCrawlAnalyzer *)
(* ===================================================================== *)

(** [self.known_transphobic_domains] *)
Definition known_transphobic_domains : list string :=
  [ "kiwifarms.net"; "ovarit.com"; "rodeoh.com"; "familyresearchcouncil.org";
    "heritage.org"; "breitbart.com"; "dailywire.com"; "thefederalist.com";
    "lifesitenews.com"; "womenspaceinternational.org"; "womenarexx.org";
    "standingforsex.org"; "womenarehuman.com"; "fairplayforwomen.com";
    "womensdeclaration.com"; "detransvoices.org"; "terfisaslur.com";
    "genspect.org"; "transgender-trend.com"; "pitt.substack.com";
    "jessesingal.substack.com"; "grahamlinehan.substack.com";
    "fencesitterz.substack.com"; "abigailshrier.substack.com";
    "pduffy.substack.com"; "michaelshellenberger.substack.com";
    "thepostmillennial.com"; "fpiw.org" ]%string.

(** [self.known_transfriendly_domains] *)
Definition known_transfriendly_domains : list string :=
  [ "glaad.org"; "transequality.org"; "thetrevorproject.org"; "glsen.org";
    "pflag.org"; "mermaidsuk.org.uk"; "tgeu.org"; "transhub.org.au";
    "genderspectrum.org"; "transathlete.com"; "transpulseproject.ca";
    "translawcenter.org"; "transmascnetwork.org"; "translifeline.org";
    "itgetsbetter.org"; "gender.wikia.org"; "transadvocate.com";
    "transjournalists.org"; "juliaserano.com"; "transstudent.org";
    "transyouthequality.org"; "point5cc.com"; "genderanalysis.net";
    "translash.org"; "autostraddle.com"; "them.us"; "bitchmedia.org";
    "everydayfeminism.com" ]%string.

(** [domain in domains] *)
Definition member (domain : string) (domains : list string) : bool :=
  existsb (String.eqb domain) domains.

Definition _check_known_domain_stance (domain : string) : option Verdict :=
  if member domain known_transphobic_domains then
    Some {| classification := 2; confidence := 0.85;
            tag := known_transphobic_domain; detail := NoDetail |}
  else if member domain known_transfriendly_domains then
    Some {| classification := 0; confidence := 0.85;
            tag := known_transfriendly_domain; detail := NoDetail |}
  else None.

(** The verdict of [_analyze_domain_content] from the two match counts
    (the part after the counting), in exact arithmetic. No run of the
    function reaches it ([collect_contents] gives no text, see
    [_fetch_warc_record]). *)
Definition domain_pattern_verdict (transphobic_count friendly_count : nat) : Verdict :=
  let total_matches := (transphobic_count + friendly_count)%nat in
  if (total_matches =? 0)%nat then
    {| classification := 1; confidence := 0.3; tag := pattern_analysis;
       detail := PatternStats 0 0 |}
  else
    let transphobic_ratio := Qnat transphobic_count / Qnat total_matches in
    let '(classification, confidence) :=
      if Qltb 0.7 transphobic_ratio then
        (2%Z, 0.5 + py_min 0.4 (transphobic_ratio - 0.7))
      else if Qltb transphobic_ratio 0.3 then
        (0%Z, 0.5 + py_min 0.4 (0.3 - transphobic_ratio))
      else (1%Z, 0.3) in
    {| classification := classification;
       confidence := confidence;
       tag := pattern_analysis;
       detail := PatternStats transphobic_count friendly_count |}.

Definition no_cc_data_verdict : Verdict :=
  {| classification := 1; confidence := 0.1; tag := no_cc_data;
     detail := NoDetail |}.

Definition no_content_extracted_verdict : Verdict :=
  {| classification := 1; confidence := 0.1; tag := no_content_extracted;
     detail := NoDetail |}.

Definition no_links_verdict : Verdict :=
  {| classification := 1; confidence := 0.1; tag := no_links;
     detail := NoDetail |}.

Definition no_valid_domains_verdict : Verdict :=
  {| classification := 1; confidence := 0.1; tag := no_valid_domains;
     detail := NoDetail |}.

Definition no_analysis_results_verdict : Verdict :=
  {| classification := 1; confidence := 0.1; tag := no_analysis_results;
     detail := NoDetail |}.

(** [f"domain:{domain}"] *)
Definition cache_key (domain : string) : string := ("domain:" ++ domain)%string.

Section CommonCrawlAnalyzer.

Context (W : World).

Definition _get_domain_from_url (url : string) : string :=
  let target :=
    if PyStr.startswith "http" url then url else ("https://" ++ url)%string in
  match Urllib.netloc (bracketed_host_ok W) target with
  | Some netloc =>
      let domain := PyStr.lower netloc in
      if PyStr.startswith "www." domain then PyStr.drop 4 domain else domain
  | None => PyStr.lower url
  end.

Definition _fetch_cc_records_for_domain (domain : string) : list CCRecord :=
  firstn 10 (cc_index_lines W domain).

(** [_fetch_warc_record]. The answer of the range request is parsed
    inside a [try] whose [except] clause is bare: the bytes of the answer
    are handed as they are to warcio's [BufferedReader], which reads from
    a stream, and the [ArchiveIterator] built on it is used as a context
    manager, which it is not. The block raises before a record is read,
    [content] keeps its initial [None], and that is what is returned. *)
Definition _fetch_warc_record (record : CCRecord) : option string :=
  match cc_filename record with
  | None => None
  | Some filename =>
      if negb (PyStr.truthy filename)
         || (cc_offset record <? 0)%Z || (cc_length record <=? 0)%Z
      then None
      else
        match warc_range W filename (cc_offset record) (cc_length record) with
        | None => None
        | Some response_content =>
            let content : option string := None in
            content
        end
  end.

Definition _extract_text_from_html (html : string) : string := html_text W html.

(** The loop of [_analyze_domain_content] that collects the texts. *)
Fixpoint collect_contents (records : list CCRecord) : list string :=
  match records with
  | [] => []
  | record :: rest =>
      match _fetch_warc_record record with
      | Some content =>
          if PyStr.truthy content then
            let text := _extract_text_from_html content in
            if PyStr.truthy text
            then PyStr.take 10000 text :: collect_contents rest
            else collect_contents rest
          else collect_contents rest
      | None => collect_contents rest
      end
  end.

(** The loop of [_analyze_domain_content] that counts the matches of a
    list of patterns over the lower-cased contents. *)
Definition count_in_contents (patterns contents : list string) : nat :=
  list_sum (map (fun content => count_matches W patterns (PyStr.lower content))
                contents).

Definition _analyze_domain_content (domain : string) : Verdict :=
  match _check_known_domain_stance domain with
  | Some known_stance => known_stance
  | None =>
      match _fetch_cc_records_for_domain domain with
      | [] => no_cc_data_verdict
      | records =>
          match collect_contents (firstn 3 records) with
          | [] => no_content_extracted_verdict
          | contents =>
              domain_pattern_verdict
                (count_in_contents transphobic_patterns contents)
                (count_in_contents friendly_patterns contents)
          end
      end
  end.

(** [self.link_analysis_cache] is passed in and out. *)
Definition analyze_single_url (url : string) (link_analysis_cache : gmap string Verdict)
  : Verdict * gmap string Verdict :=
  let domain := _get_domain_from_url url in
  match link_analysis_cache !! cache_key domain with
  | Some cached => (cached, link_analysis_cache)
  | None =>
      let result := _analyze_domain_content domain in
      (result, <[cache_key domain := result]> link_analysis_cache)
  end.

(** One turn of the loop of [analyze_links] over the domains. *)
Definition visit_domain (state : list (string * Verdict) * gmap string Verdict)
    (domain : string) : list (string * Verdict) * gmap string Verdict :=
  let '(results, link_analysis_cache) := state in
  match _check_known_domain_stance domain with
  | Some known_stance =>
      ((results ++ [(domain, known_stance)])%list, link_analysis_cache)
  | None =>
      if (5 <=? List.length results)%nat then state
      else
        match link_analysis_cache !! cache_key domain with
        | Some cached =>
            ((results ++ [(domain, cached)])%list, link_analysis_cache)
        | None =>
            let result := _analyze_domain_content domain in
            ((results ++ [(domain, result)])%list,
             <[cache_key domain := result]> link_analysis_cache)
        end
  end.

Definition visit_domains (domains : list string)
    (state : list (string * Verdict) * gmap string Verdict)
  : list (string * Verdict) * gmap string Verdict :=
  fold_left visit_domain domains state.

(** The aggregate that [analyze_links] builds from the results. *)
Definition aggregate_results (results : list (string * Verdict)) : Verdict :=
  match results with
  | [] => no_analysis_results_verdict
  | _ =>
      let classifications := map (fun r => classification (snd r)) results in
      let confidences := map (fun r => confidence (snd r)) results in
      let weighted_avg := weighted_average classifications confidences in
      let final_classification := threshold_classification weighted_avg in
      let overall_confidence :=
        Qsum confidences / Qnat (List.length confidences) in
      {| classification := final_classification;
         confidence := overall_confidence;
         tag := links_aggregate;
         detail :=
           LinkStats weighted_avg (List.length results)
             (map (fun r => {| dr_domain := fst r;
                               dr_classification := classification (snd r);
                               dr_confidence := confidence (snd r) |})
                  results) |}
  end.

(** The domains of the links, empty ones left out, in the order in which
    they are added to the set. *)
Definition link_domains (links : list string) : list string :=
  List.filter PyStr.truthy (map _get_domain_from_url links).

Definition analyze_links (links : list string) (link_analysis_cache : gmap string Verdict)
  : Verdict * gmap string Verdict :=
  match links with
  | [] => (no_links_verdict, link_analysis_cache)
  | _ =>
      match link_domains links with
      | [] => (no_valid_domains_verdict, link_analysis_cache)
      | added =>
          let domains := set_order W added in
          let '(results, link_analysis_cache) :=
            visit_domains domains ([], link_analysis_cache) in
          (aggregate_results results, link_analysis_cache)
      end
  end.

End CommonCrawlAnalyzer.

(* ===================================================================== *)
(** ** The adjustment by a second signal (app.py) *)
(* ===================================================================== *)

(** The response of a handler: the result dictionary and the two keys
    the handlers add to it. *)
Record Response := {
  result : Verdict;
  second_analysis : option Verdict;
  classification_adjusted_by : option string
}.

(** The adjustment of [analyze_profile] (by ["linked_sites"]) and of
    [analyze_url] (by ["common_crawl"]): the same rule with another
    name. *)
Definition adjust (name : string) (primary secondary : Verdict) : Response :=
  if Qltb (confidence primary) 0.6 && Qltb 0.7 (confidence secondary) then
    {| result :=
         {| classification := classification secondary;
            confidence := (confidence primary + confidence secondary) / 2;
            tag := tag primary;
            detail := detail primary |};
       second_analysis := Some secondary;
       classification_adjusted_by := Some name |}
  else
    {| result := primary;
       second_analysis := Some secondary;
       classification_adjusted_by := None |}.

(** [analyze_profile] of app.py, after the posts are analysed: the links
    are analysed only when there are some. *)
Definition reconcile_profile (W : World) (primary : Verdict) (links : list string)
    (link_analysis_cache : gmap string Verdict) : Response * gmap string Verdict :=
  match links with
  | [] =>
      ({| result := primary; second_analysis := None;
          classification_adjusted_by := None |}, link_analysis_cache)
  | _ =>
      let '(cc_results, link_analysis_cache) :=
        analyze_links W links link_analysis_cache in
      (adjust "linked_sites" primary cc_results, link_analysis_cache)
  end.

(** [analyze_url] of app.py, after the text is analysed. *)
Definition reconcile_url (W : World) (primary : Verdict) (url : string)
    (link_analysis_cache : gmap string Verdict) : Response * gmap string Verdict :=
  let '(cc_result, link_analysis_cache) :=
    analyze_single_url W url link_analysis_cache in
  (adjust "common_crawl" primary cc_result, link_analysis_cache).

(* ===================================================================== *)
(** ** The request layer (app.py) *)
(* ===================================================================== *)

(** What a call of a collaborator gives: an exception or a value. *)
Inductive Fetched (A : Type) :=
| Raised (message : string)
| Returned (value : A).

Arguments Raised {A} message.
Arguments Returned {A} value.

(** What [fetch_profile_data] returns, read as the handlers read it:
    [.get('posts', [])] and [.get('links', [])]. *)
Record ProfileData := {
  pd_posts : list string;
  pd_links : list string
}.

(** The collaborators of the handlers. *)
Record Web := {
  (** [web_analyzer.fetch_profile_data(identifier, platform)] *)
  fetch_profile_data : string -> string -> Fetched ProfileData;
  (** [web_analyzer.fetch_url_content(url)] *)
  fetch_url_content : string -> Fetched (option string);
  (** [web_analyzer.is_bad_identifier(identifier)]; [None] when it
      raises *)
  is_bad_identifier : string -> option bool;
  (** [str(hash(text))] *)
  hash_text : string -> string
}.

(** The analyses of [ContentAnalyzer], as the handlers of the same name
    call them. *)
Definition ml_analyze_text := analyze_text.
Definition ml_analyze_profile := analyze_profile.

Module App.

(** [CACHE_EXPIRY], [RATE_LIMIT_WINDOW], [RATE_LIMIT_MAX] *)
Definition CACHE_EXPIRY : Q := 24 * 60 * 60.
Definition RATE_LIMIT_WINDOW : Q := 60.
Definition RATE_LIMIT_MAX : Z := 60.

(** A value of [analysis_cache]: a result dictionary, with its
    ['timestamp'] when it has one. *)
Record Cached := {
  cached_response : Response;
  cached_timestamp : option Q
}.

(** [value.get('timestamp', 0)] *)
Definition timestamp_or_0 (value : Cached) : Q :=
  match cached_timestamp value with
  | Some t => t
  | None => 0
  end.

(** What a handler answers. *)
Inductive Reply :=
| BadRequest (error : string)
    (* 400 *)
| InsufficientData (error : string)
    (* 200, with classification 1 and confidence 0.1 *)
| Analysis (response : Response) (timestamp : option Q)
    (* 200, the result dictionary *)
| AnalysisFailed (error : string)
    (* 500, with classification 1 and confidence 0.1 *).

(** The handler of [/analyze/text]; [text] is [None] when the request
    has no JSON body or no ['text']. *)
Definition analyze_text (W : World) (B : Web) (content_analyzer : ContentAnalyzer)
    (text : option string) (analysis_cache : gmap string Cached)
  : Reply * gmap string Cached :=
  match text with
  | None => (BadRequest "No text provided", analysis_cache)
  | Some text =>
      let cache_key := ("text:" ++ hash_text B text)%string in
      match analysis_cache !! cache_key with
      | Some cached =>
          (Analysis (cached_response cached) (cached_timestamp cached),
           analysis_cache)
      | None =>
          let result := fst (ml_analyze_text W content_analyzer text) in
          let response :=
            {| result := result; second_analysis := None;
               classification_adjusted_by := None |} in
          (Analysis response None,
           <[cache_key := {| cached_response := response;
                             cached_timestamp := None |}]> analysis_cache)
      end
  end.

(** The handler of [/analyze/profile]; the clock is read once for the
    test of the cached entry and once for the stamp of the new one. *)
Definition analyze_profile (W : World) (B : Web) (content_analyzer : ContentAnalyzer)
    (identifier platform : option string) (checked_at stamped_at : Q)
    (analysis_cache : gmap string Cached)
    (link_analysis_cache : gmap string Verdict)
  : Reply * gmap string Cached * gmap string Verdict :=
  match identifier, platform with
  | Some identifier, Some platform =>
      let cache_key := ("profile:" ++ platform ++ ":" ++ identifier)%string in
      let fresh :=
        match analysis_cache !! cache_key with
        | Some cached =>
            if Qltb (checked_at - CACHE_EXPIRY) (timestamp_or_0 cached)
            then Some cached else None
        | None => None
        end in
      match fresh with
      | Some cached =>
          (Analysis (cached_response cached) (cached_timestamp cached),
           analysis_cache, link_analysis_cache)
      | None =>
          match fetch_profile_data B identifier platform with
          | Raised message =>
              (AnalysisFailed ("Analysis failed: " ++ message),
               analysis_cache, link_analysis_cache)
          | Returned profile_data =>
              match pd_posts profile_data with
              | [] =>
                  (InsufficientData "Could not fetch sufficient data from profile",
                   analysis_cache, link_analysis_cache)
              | posts =>
                  let result := fst (ml_analyze_profile W content_analyzer posts) in
                  let '(response, link_analysis_cache) :=
                    reconcile_profile W result (pd_links profile_data)
                                      link_analysis_cache in
                  (Analysis response (Some stamped_at),
                   <[cache_key := {| cached_response := response;
                                     cached_timestamp := Some stamped_at |}]>
                     analysis_cache,
                   link_analysis_cache)
              end
          end
      end
  | _, _ =>
      (BadRequest "Missing identifier or platform",
       analysis_cache, link_analysis_cache)
  end.

(** The handler of [/analyze/url]. *)
Definition analyze_url (W : World) (B : Web) (content_analyzer : ContentAnalyzer)
    (url : option string) (analysis_cache : gmap string Cached)
    (link_analysis_cache : gmap string Verdict)
  : Reply * gmap string Cached * gmap string Verdict :=
  match url with
  | None => (BadRequest "No URL provided", analysis_cache, link_analysis_cache)
  | Some url =>
      let cache_key := ("url:" ++ url)%string in
      match analysis_cache !! cache_key with
      | Some cached =>
          (Analysis (cached_response cached) (cached_timestamp cached),
           analysis_cache, link_analysis_cache)
      | None =>
          match fetch_url_content B url with
          | Raised message =>
              (AnalysisFailed ("Analysis failed: " ++ message),
               analysis_cache, link_analysis_cache)
          | Returned content =>
              match content with
              | Some (String c rest) =>
                  let content := String c rest in
                  let result := fst (ml_analyze_text W content_analyzer content) in
                  let '(response, link_analysis_cache) :=
                    reconcile_url W result url link_analysis_cache in
                  (Analysis response None,
                   <[cache_key := {| cached_response := response;
                                     cached_timestamp := None |}]>
                     analysis_cache,
                   link_analysis_cache)
              | _ =>
                  (InsufficientData "Could not fetch content from URL",
                   analysis_cache, link_analysis_cache)
              end
          end
      end
  end.

(** One pass of the loop of [clear_expired_cache]. *)
Definition clear_expired_cache (current_time : Q) (analysis_cache : gmap string Cached)
  : gmap string Cached :=
  filter (fun entry : string * Cached =>
            negb (Qltb (timestamp_or_0 (snd entry)) (current_time - CACHE_EXPIRY)))
         analysis_cache.

(** What [verify_submission] answers. *)
Inductive Verification :=
| VerifyBadRequest
    (* 400 *)
| VerifyRefused (reason recommendation : string)
    (* verified False, with a reason *)
| VerifyFailed (reason : string)
    (* 500, verified False, recommendation gray_area *)
| Unhandled
    (* an exception leaves the handler *)
| Verified (verified : bool) (confidence : Q) (ml_recommended_label : string)
           (recommendation : string).

(** [label_map.get(classification, 'gray-area')] *)
Definition label_map (classification : Z) : string :=
  match classification with
  | 0%Z => "t-friendly"
  | 1%Z => "gray-area"
  | 2%Z => "transphobic"
  | _ => "gray-area"
  end.

(** The handler of [/verify/submission]; [platform] is [None] when the
    request has no ['platform']. *)
Definition verify_submission (W : World) (B : Web) (content_analyzer : ContentAnalyzer)
    (identifier proposed_label platform : option string) : Verification :=
  match identifier, proposed_label with
  | Some identifier, Some proposed_label =>
      let platform :=
        match platform with Some p => p | None => "unknown"%string end in
      match is_bad_identifier B identifier with
      | None => Unhandled
      | Some true => VerifyRefused "bad_identifier" "reject"
      | Some false =>
          match fetch_profile_data B identifier platform with
          | Raised message => VerifyFailed ("verification_error: " ++ message)
          | Returned profile_data =>
              match pd_posts profile_data with
              | [] => VerifyRefused "insufficient_data" "gray_area"
              | posts =>
                  let result :=
                    fst (ml_analyze_profile W content_analyzer posts) in
                  let recommended_label := label_map (classification result) in
                  let verified := String.eqb recommended_label proposed_label in
                  let recommendation :=
                    if negb verified && Qltb 0.8 (confidence result) then "reject"
                    else if negb verified && Qltb 0.5 (confidence result)
                         then "gray_area"
                    else "accept" in
                  Verified verified (confidence result) recommended_label
                           recommendation
              end
          end
      end
  | _, _ => VerifyBadRequest
  end%string.

(** The address and the header of a request that [rate_limit] reads. *)
Record Request := {
  remote_addr : option string;
  x_client_id : option string
}.

(** A value of [rate_limit_cache]. *)
Record Window := {
  timestamp : Q;
  count : Z
}.

(** What [rate_limit] returns: [None], or the 429 response. *)
Inductive Admission :=
| Passed
| RateLimitExceeded (retry_after : Z).

(** [int(x)] of a float: the integer part, towards zero. *)
Definition py_int (x : Q) : Z := (Qnum x ÷ Z.pos (Qden x))%Z.

(** The key under which a request is counted; [uuid4] is the identifier
    drawn when none is given. *)
Definition client_key (request : Request) (uuid4 : string) : string :=
  let generated :=
    match x_client_id request with Some id => id | None => uuid4 end in
  match remote_addr request with
  | Some ip =>
      if negb (PyStr.truthy ip) || String.eqb ip "127.0.0.1" then generated
      else ip
  | None => generated
  end.

Definition rate_limit (request : Request) (uuid4 : string) (now : Q)
    (rate_limit_cache : gmap string Window)
  : Admission * gmap string Window :=
  let ip := client_key request uuid4 in
  match rate_limit_cache !! ip with
  | None =>
      (Passed, <[ip := {| timestamp := now; count := 1 |}]> rate_limit_cache)
  | Some window =>
      if Qltb RATE_LIMIT_WINDOW (now - timestamp window) then
        (Passed, <[ip := {| timestamp := now; count := 1 |}]> rate_limit_cache)
      else
        let window :=
          {| timestamp := timestamp window; count := count window + 1 |} in
        let rate_limit_cache := <[ip := window]> rate_limit_cache in
        if (RATE_LIMIT_MAX <? count window)%Z then
          (RateLimitExceeded
             (py_int (RATE_LIMIT_WINDOW - (now - timestamp window))),
           rate_limit_cache)
        else (Passed, rate_limit_cache)
  end.

(** The endpoints named by the loop that registers [rate_limit]. *)
Definition rate_limited_endpoints : list string :=
  [ "/analyze/text"; "/analyze/profile"; "/analyze/url";
    "/verify/submission" ]%string.

(** [app.before_request_funcs[None]] after that loop: [rate_limit] is
    appended once for each endpoint named. *)
Definition before_request_funcs
  : list (Request -> string -> Q -> gmap string Window
          -> Admission * gmap string Window) :=
  map (fun _ => rate_limit) rate_limited_endpoints.

(** Flask's [preprocess_request]: the functions registered for the
    application run before every request, in order, until one returns a
    response; the [i]-th call reads the clock and draws its identifier as
    [readings i] gives them. *)
Fixpoint preprocess_request
    (funcs : list (Request -> string -> Q -> gmap string Window
                   -> Admission * gmap string Window))
    (request : Request) (readings : nat -> string * Q) (i : nat)
    (rate_limit_cache : gmap string Window)
  : Admission * gmap string Window :=
  match funcs with
  | [] => (Passed, rate_limit_cache)
  | before_func :: rest =>
      match before_func request (fst (readings i)) (snd (readings i))
                        rate_limit_cache with
      | (Passed, rate_limit_cache) =>
          preprocess_request rest request readings (S i) rate_limit_cache
      | refused => refused
      end
  end.

(** Requests served one after the other. *)
Fixpoint serve (requests : list (Request * (nat -> string * Q)))
    (rate_limit_cache : gmap string Window)
  : list Admission * gmap string Window :=
  match requests with
  | [] => ([], rate_limit_cache)
  | (request, readings) :: rest =>
      let '(admission, rate_limit_cache) :=
        preprocess_request before_request_funcs request readings 0
                           rate_limit_cache in
      let '(admissions, rate_limit_cache) := serve rest rate_limit_cache in
      (admission :: admissions, rate_limit_cache)
  end.

(** One pass of the loop of [clear_expired_rate_limits]. *)
Definition clear_expired_rate_limits (now : Q) (rate_limit_cache : gmap string Window)
  : gmap string Window :=
  filter (fun entry : string * Window =>
            negb (Qltb RATE_LIMIT_WINDOW (now - timestamp (snd entry))))
         rate_limit_cache.

End App.

(* ===================================================================== *)
(** ** WebAnalyzer (web_analyzer.py) *)
(* ===================================================================== *)

(** The string methods that the cleaning of a page uses. *)
Module PyText.

(** The line boundaries of [str.splitlines] below 256: LF, VT, FF, CR,
    FS, GS, RS and NEL. *)
Definition linebreak (c : ascii) : bool :=
  let n := PyStr.code c in
  ((10 <=? n) && (n <=? 13) || (28 <=? n) && (n <=? 30) || (n =? 133))%nat.

Definition is_cr (c : ascii) : bool := (PyStr.code c =? 13)%nat.
Definition is_lf (c : ascii) : bool := (PyStr.code c =? 10)%nat.

(** The line that begins where [s] begins and the lines after it; a
    carriage return followed by a line feed is one boundary, and no line
    begins at the end of the string. *)
Fixpoint read_lines (s : string) : string * list string :=
  match s with
  | EmptyString => (EmptyString, [])
  | String c s' =>
      if linebreak c then
        (EmptyString,
         match s' with
         | EmptyString => []
         | String c' s'' =>
             if is_cr c && is_lf c' then
               match s'' with
               | EmptyString => []
               | _ => let r := read_lines s'' in fst r :: snd r
               end
             else let r := read_lines s' in fst r :: snd r
         end)
      else let r := read_lines s' in (String c (fst r), snd r)
  end.

(** [s.splitlines()] *)
Definition splitlines (s : string) : list string :=
  match s with
  | EmptyString => []
  | _ => let r := read_lines s in fst r :: snd r
  end.

(** The piece before the first separator and the pieces after it, for
    the separator made of the two characters [a] and [b]. *)
Fixpoint pieces2 (a b : ascii) (s : string) : string * list string :=
  match s with
  | EmptyString => (EmptyString, [])
  | String c s' =>
      match s' with
      | EmptyString => (String c EmptyString, [])
      | String c' s'' =>
          if Ascii.eqb c a && Ascii.eqb c' b then
            let r := pieces2 a b s'' in (EmptyString, fst r :: snd r)
          else let r := pieces2 a b s' in (String c (fst r), snd r)
      end
  end.

(** [s.split(sep)] for a separator of two characters *)
Definition split2 (a b : ascii) (s : string) : list string :=
  let r := pieces2 a b s in fst r :: snd r.

(** The same for a separator of one character. *)
Fixpoint pieces1 (a : ascii) (s : string) : string * list string :=
  match s with
  | EmptyString => (EmptyString, [])
  | String c s' =>
      let r := pieces1 a s' in
      if Ascii.eqb c a then (EmptyString, fst r :: snd r)
      else (String c (fst r), snd r)
  end.

(** [s.split(sep)] for a separator of one character *)
Definition split1 (a : ascii) (s : string) : list string :=
  let r := pieces1 a s in fst r :: snd r.

(** [needle in s] *)
Fixpoint infix (needle s : string) : bool :=
  PyStr.startswith needle s
  || match s with
     | EmptyString => false
     | String _ s' => infix needle s'
     end.

End PyText.

Module WebAnalyzer.

(** [self.cache_expiry] *)
Definition cache_expiry : Q := 60 * 60.

(** [self.user_agent] *)
Definition user_agent : string :=
  "Mozilla/5.0 (Windows NT 10.0; Win64; x64) AppleWebKit/537.36 (KHTML, like Gecko) Chrome/91.0.4472.124 Safari/537.36".

(** What the analyzer reads of a [requests.Response]. *)
Record HttpResponse := {
  status_code : Z;
  content : string;
  text : string
}.

(** What the analyzer reaches through requests, BeautifulSoup and
    urllib. *)
Record Net := {
  (** [requests.get(url, headers=headers, timeout=10)] *)
  requests_get : string -> list (string * string) -> Fetched HttpResponse;
  (** the text of a page parsed by [html.parser], its [script] and
      [style] elements taken out: [soup.get_text(separator=' ')] *)
  soup_text : string -> Fetched string;
  (** the [href] of every [a] element that has one *)
  soup_hrefs : string -> Fetched (list string);
  (** the test that [urlsplit] makes of a host between brackets *)
  bracketed_ok : string -> bool
}.

Section WebAnalyzer.

Context (N : Net).

(** [self.bad_identifiers] is a dictionary used as a set. *)
Definition is_bad_identifier (bad_identifiers : gset string) (identifier : string)
  : option bool :=
  if PyStr.contains "/" identifier then
    let target :=
      if PyStr.startswith "http" identifier then identifier
      else ("https://" ++ identifier)%string in
    match Urllib.netloc (bracketed_ok N) target with
    | None => None
    | Some domain =>
        let domain :=
          if PyStr.startswith "www." domain then PyStr.drop 4 domain
          else domain in
        Some (bool_decide (domain ∈ bad_identifiers))
    end
  else Some (bool_decide (identifier ∈ bad_identifiers)).

(** [_cached_request]; [headers] is [None] when the argument is left
    out. A response is returned only with status 200, and such a
    response is true. *)
Definition _cached_request (url : string) (headers : option (list (string * string)))
    (now : Q) (request_cache : gmap string (Q * HttpResponse))
  : option HttpResponse * gmap string (Q * HttpResponse) :=
  let cached :=
    match request_cache !! url with
    | Some (cache_time, response) =>
        if Qltb (now - cache_time) cache_expiry then Some response else None
    | None => None
    end in
  match cached with
  | Some response => (Some response, request_cache)
  | None =>
      let headers :=
        match headers with
        | Some (header :: others) => header :: others
        | _ => [("User-Agent", user_agent)]%string
        end in
      match requests_get N url headers with
      | Returned response =>
          if (status_code response =? 200)%Z then
            (Some response, <[url := (now, response)]> request_cache)
          else (None, request_cache)
      | Raised _ => (None, request_cache)
      end
  end.

(** The cleaning of the text of a page, in [fetch_url_content] and in
    [_fetch_generic_data]. *)
Definition clean_text (text : string) : string :=
  let lines := map PyStr.strip (PyText.splitlines text) in
  let chunks :=
    flat_map (fun line => map PyStr.strip (PyText.split2 " " " " line)) lines in
  PyStr.join " " (List.filter PyStr.truthy chunks).

Definition fetch_url_content (url : string) (now : Q)
    (request_cache : gmap string (Q * HttpResponse))
  : option string * gmap string (Q * HttpResponse) :=
  let '(response, request_cache) := _cached_request url None now request_cache in
  match response with
  | None => (None, request_cache)
  | Some response =>
      match soup_text N (content response) with
      | Returned page => (Some (clean_text page), request_cache)
      | Raised _ => (None, request_cache)
      end
  end.

Definition _extract_links_from_html (html : string) : list string :=
  match soup_hrefs N html with
  | Returned hrefs => List.filter (PyStr.startswith "http") hrefs
  | Raised _ => []
  end.

(** One turn of the loop of [_fetch_generic_data] over the paragraphs. *)
Definition add_paragraph (state : list string * string) (paragraph : string)
  : list string * string :=
  let '(chunks, current_chunk) := state in
  if (String.length current_chunk + String.length paragraph <? 2000)%nat then
    (chunks, (current_chunk ++ paragraph ++ " ")%string)
  else
    ((if PyStr.truthy current_chunk then chunks ++ [PyStr.strip current_chunk]
      else chunks),
     (paragraph ++ " ")%string).

(** The posts that [_fetch_generic_data] makes of the cleaned text. *)
Definition chunks_of (text : string) : list string :=
  let '(chunks, current_chunk) :=
    fold_left add_paragraph (PyText.split1 (ascii_of_nat 10) text)
              ([], EmptyString) in
  if PyStr.truthy current_chunk then chunks ++ [PyStr.strip current_chunk]
  else chunks.

(** [_fetch_generic_data]; a dictionary that has only ["error"] is read
    as one without posts and links; an exception of the parser leaves
    the function. *)
Definition _fetch_generic_data (identifier : string) (now : Q)
    (request_cache : gmap string (Q * HttpResponse))
  : Fetched ProfileData * gmap string (Q * HttpResponse) :=
  let identifier :=
    if PyStr.startswith "http" identifier then identifier
    else ("https://" ++ identifier)%string in
  let '(response, request_cache) :=
    _cached_request identifier None now request_cache in
  match response with
  | None => (Returned {| pd_posts := []; pd_links := [] |}, request_cache)
  | Some response =>
      match soup_text N (content response) with
      | Raised message => (Raised message, request_cache)
      | Returned page =>
          let cleaned := clean_text page in
          (Returned {| pd_posts := firstn 20 (chunks_of cleaned);
                       pd_links := _extract_links_from_html (text response) |},
           request_cache)
      end
  end.

End WebAnalyzer.

Definition _detect_platform (identifier : string) : string :=
  let lower_id := PyStr.lower identifier in
  if PyText.infix "twitter.com" lower_id || PyText.infix "x.com" lower_id
  then "twitter"
  else if PyText.infix "facebook.com" lower_id then "facebook"
  else if PyText.infix "reddit.com" lower_id then "reddit"
  else if PyText.infix "youtube.com" lower_id then "youtube"
  else if PyText.infix ".bsky.app" lower_id || PyText.infix "bsky.app" lower_id
  then "bsky"
  else if PyText.infix "medium.com" lower_id then "medium"
  else if existsb (fun domain => PyText.infix domain lower_id)
                  ["mastodon.social"; "mastodon.online"; "masto.ai"]%string
  then "mastodon"
  else "unknown".

End WebAnalyzer.

(* ===================================================================== *)
(** ** The scalar formulas on binary64 numbers *)
(* ===================================================================== *)

Module Binary64.

#[local] Set Warnings "-inexact-float".
#[local] Open Scope float_scope.

(** [min(a, b)] *)
Definition min (a b : float) : float := if b <? a then b else a.

(** The confidence of [analyze_with_patterns] for a positive total. *)
Definition text_confidence (transphobic_count total_matches : float) : float :=
  let transphobic_score := transphobic_count / total_matches in
  let confidence :=
    if 0.7 <? transphobic_score then 0.5 + (transphobic_score - 0.7) * 1.5
    else if transphobic_score <? 0.3 then 0.5 + (0.3 - transphobic_score) * 1.5
    else 0.3 in
  min confidence 0.95.

(** The confidence of [_analyze_domain_content] for a positive total. *)
Definition domain_confidence (transphobic_count total_matches : float) : float :=
  let transphobic_ratio := transphobic_count / total_matches in
  if 0.7 <? transphobic_ratio then 0.5 + min 0.4 (transphobic_ratio - 0.7)
  else if transphobic_ratio <? 0.3 then 0.5 + min 0.4 (0.3 - transphobic_ratio)
  else 0.3.

(** The test and the confidence of the adjustment in app.py. *)
Definition overrides (primary secondary : float) : bool :=
  (primary <? 0.6) && (0.7 <? secondary).

Definition adjusted_confidence (primary secondary : float) : float :=
  (primary + secondary) / 2.

(** The confidence of [analyze_profile] from the consistency and the
    number of posts. *)
Definition profile_confidence (consistency posts : float) : float :=
  let sample_confidence := min 1.0 (posts / 10.0) in
  let final_confidence := (consistency + sample_confidence) / 2.0 in
  min 0.95 final_confidence.

(** [sum(xs)]: one rounded addition after the other. *)
Definition sum (xs : list float) : float := fold_left PrimFloat.add xs 0.

(** The weighted mean of [analyze_profile] and of [analyze_links]. *)
Definition weighted_average (classifications confidences : list float) : float :=
  let weighted :=
    map (fun '(c, conf) => c * conf) (combine classifications confidences) in
  let total_confidence := sum confidences in
  if 0 <? total_confidence then sum weighted / total_confidence else 1.

End Binary64.

(* ===================================================================== *)
(** ** Concrete worlds *)
(* ===================================================================== *)

(** A rational square root, rounded down to 30 binary digits. *)
Definition sqrt_down (x : Q) : Q :=
  Z.sqrt (Qnum x * Z.pos (Qden x) * 2 ^ 60) # (Qden x * 2 ^ 30).

(** A world in which nothing matches, no backend answers and the archive
    is empty; a set is iterated in the order of first insertion. *)
Definition quiet_world : World :=
  {| re_findall_count := fun _ _ => O;
     re_sub := fun _ _ text => text;
     ollama_generate := fun _ _ => Raises;
     np_sqrt := sqrt_down;
     bracketed_host_ok := fun _ => true;
     cc_index_lines := fun _ => [];
     warc_range := fun _ _ _ => None;
     html_text := fun _ => ""%string;
     set_order := fun added => rev (nodup string_dec (rev added)) |}.

(** The quiet world with a backend that answers every prompt with the
    given status and text. *)
Definition answering_world (status_code : Z) (response : string) : World :=
  {| re_findall_count := re_findall_count quiet_world;
     re_sub := re_sub quiet_world;
     ollama_generate := fun _ _ => Status status_code (Some response);
     np_sqrt := np_sqrt quiet_world;
     bracketed_host_ok := bracketed_host_ok quiet_world;
     cc_index_lines := cc_index_lines quiet_world;
     warc_range := warc_range quiet_world;
     html_text := html_text quiet_world;
     set_order := set_order quiet_world |}.

(** The quiet world with an archive that holds one page for every
    domain, in which the first transphobic pattern matches [t] times and
    the first friendly pattern [f] times. *)
Definition archive_world (t f : nat) : World :=
  {| re_findall_count := fun pattern _ =>
       if String.eqb pattern (hd ""%string transphobic_patterns) then t
       else if String.eqb pattern (hd ""%string friendly_patterns) then f
       else O;
     re_sub := re_sub quiet_world;
     ollama_generate := ollama_generate quiet_world;
     np_sqrt := np_sqrt quiet_world;
     bracketed_host_ok := bracketed_host_ok quiet_world;
     cc_index_lines := fun _ =>
       [ {| cc_filename := Some "crawl-data/segment.warc.gz"%string;
            cc_offset := 0; cc_length := 1024 |} ];
     warc_range := fun _ _ _ => Some "<html><body>page</body></html>"%string;
     html_text := fun _ => "page"%string;
     set_order := set_order quiet_world |}.

Definition analyzer_without_ollama : ContentAnalyzer :=
  {| model_name := "transphobia-detector"; nlp := None;
     ollama_available := false |}.

Definition analyzer_with_ollama : ContentAnalyzer :=
  {| model_name := "transphobia-detector"; nlp := None;
     ollama_available := true |}.

(** A web analyzer that gives the same posts and links for every
    profile and the same content for every page, and knows no bad
    identifier. *)
Definition canned_web (posts links : list string) (page : option string) : Web :=
  {| fetch_profile_data :=
       fun _ _ => Returned {| pd_posts := posts; pd_links := links |};
     fetch_url_content := fun _ => Returned page;
     is_bad_identifier := fun _ => Some false;
     hash_text := fun text => text |}.

(** A network that answers every request with the same page, whose text
    is its content and which has no link. *)
Definition canned_net (status : Z) (page : string) : WebAnalyzer.Net :=
  {| WebAnalyzer.requests_get :=
       fun _ _ => Returned {| WebAnalyzer.status_code := status;
                              WebAnalyzer.content := page;
                              WebAnalyzer.text := page |};
     WebAnalyzer.soup_text := fun content => Returned content;
     WebAnalyzer.soup_hrefs := fun _ => Returned [];
     WebAnalyzer.bracketed_ok := fun _ => false |}.

(** The collaborators of the handlers, with the test of identifiers of
    a web analyzer that has loaded the identifiers [bad]. *)
Definition web_with (N : WebAnalyzer.Net) (bad : gset string)
    (posts links : list string) (page : option string) : Web :=
  {| fetch_profile_data :=
       fun _ _ => Returned {| pd_posts := posts; pd_links := links |};
     fetch_url_content := fun _ => Returned page;
     is_bad_identifier := WebAnalyzer.is_bad_identifier N bad;
     hash_text := fun text => text |}.

(** The collaborators of the handlers when the web analyzer has an
    empty request cache at the time [now], has loaded no bad identifier,
    and fetches every profile as one of an unknown platform. *)
Definition generic_web (N : WebAnalyzer.Net) (now : Q) : Web :=
  {| fetch_profile_data :=
       fun identifier _ =>
         fst (WebAnalyzer._fetch_generic_data N identifier now ∅);
     fetch_url_content :=
       fun url => Returned (fst (WebAnalyzer.fetch_url_content N url now ∅));
     is_bad_identifier := WebAnalyzer.is_bad_identifier N ∅;
     hash_text := fun text => text |}.

(** A network that cannot be reached. *)
Definition no_net : WebAnalyzer.Net :=
  {| WebAnalyzer.requests_get := fun _ _ => Raised "unreachable";
     WebAnalyzer.soup_text := fun content => Returned content;
     WebAnalyzer.soup_hrefs := fun _ => Returned [];
     WebAnalyzer.bracketed_ok := fun _ => false |}.

(* ===================================================================== *)
(** ** Properties: what is checked of a verdict *)
(* ===================================================================== *)

(** The calls recorded for an analysis. *)
Definition calls {A} (m : Traced A) : list Call := snd m.

(** The verdict of an analysis. *)
Definition verdict_of {A} (m : Traced A) : A := fst m.

Definition is_class (c : Z) : Prop := c = 0%Z \/ c = 1%Z \/ c = 2%Z.

(** The tags of the verdicts returned for want of data. *)
Definition no_data (t : Tag) : bool :=
  match t with
  | insufficient_text | no_posts | no_cc_data | no_content_extracted
  | no_links | no_valid_domains | no_analysis_results => true
  | _ => false
  end.

Definition well_formed (v : Verdict) : Prop :=
  is_class (classification v)
  /\ 0 <= confidence v <= 1
  /\ (no_data (tag v) = true -> confidence v <= 0.1).

(** What is assumed of the square root of [np.std]: it is not negative,
    it is zero at zero and at most one up to one. *)
Definition sqrt_sound (W : World) : Prop :=
  forall x, 0 <= x ->
    0 <= np_sqrt W x
    /\ (x == 0 -> np_sqrt W x == 0)
    /\ (x <= 1 -> np_sqrt W x <= 1).

(** The consistency that a profile verdict reports. *)
Definition reported_consistency (v : Verdict) : option Q :=
  match detail v with
  | ProfileStats _ consistency _ _ _ => Some consistency
  | _ => None
  end.

(** The domains that a link verdict lists. *)
Definition analyzed_domains (v : Verdict) : list string :=
  match detail v with
  | LinkStats _ _ domain_results => map dr_domain domain_results
  | _ => []
  end.

Definition is_known (domain : string) : bool :=
  match _check_known_domain_stance domain with
  | Some _ => true
  | None => false
  end.

(** A string in the form [_get_domain_from_url] gives a host name:
    lower case, no leading [www.], and nothing that [urlparse] reads as
    structure; a leading [http] is excluded because the function takes
    it for a scheme. *)
Definition plain_char (c : ascii) : bool :=
  negb (Urllib.unsafe c) && negb (Urllib.delimiter c)
  && negb (Ascii.eqb c "[") && negb (Ascii.eqb c "]")
  && Ascii.eqb (PyStr.lower_char c) c.

Definition normal_domain (d : string) : bool :=
  Urllib.all_chars plain_char d
  && negb (PyStr.startswith "www." d)
  && negb (PyStr.startswith "http" d).

(** The labels and the confidences of the posts that are analysed. *)
Definition post_verdicts (W : World) (self : ContentAnalyzer) (posts : list string)
  : list Verdict :=
  map (fun post => verdict_of (analyze_text W self post)) (firstn 20 posts).

Definition post_labels (W : World) (self : ContentAnalyzer) (posts : list string)
  : list Z :=
  map classification (post_verdicts W self posts).

(** Every verdict kept in [link_analysis_cache] is well formed. *)
Definition cache_ok (cache : gmap string Verdict) : Prop :=
  map_Forall (fun _ v => well_formed v) cache.

(** What one turn of the loop appends to the results. *)
Definition appended (W : World) (state : list (string * Verdict) * gmap string Verdict)
    (domain : string) : list (string * Verdict) :=
  match _check_known_domain_stance domain with
  | Some known_stance => [(domain, known_stance)]
  | None =>
      if (5 <=? List.length (fst state))%nat then []
      else
        match snd state !! cache_key domain with
        | Some cached => [(domain, cached)]
        | None => [(domain, _analyze_domain_content W domain)]
        end
  end.

(** Five links to listed sites followed by a link to an unlisted one. *)
Definition five_listed_and_one : list string :=
  [ "https://glaad.org/about"; "https://www.pflag.org/"; "tgeu.org";
    "https://glsen.org/resources"; "https://www.them.us/story";
    "https://example.org/blog" ]%string.

(** The texts sent to the model, and those given to the pattern matcher,
    among the calls of an analysis. *)
Definition model_inputs (cs : list Call) : list string :=
  flat_map (fun c => match c with CallOllama t => [t] | CallPatterns _ => [] end) cs.

Definition pattern_inputs (cs : list Call) : list string :=
  flat_map (fun c => match c with CallPatterns t => [t] | CallOllama _ => [] end) cs.

(** The results of [analyze_links] for domains outside the lists. *)
Definition unlisted_results (results : list (string * Verdict)) : list (string * Verdict) :=
  List.filter (fun r => negb (is_known (fst r))) results.

(** The domains of a list that are on the transphobic list. *)
Definition listed_transphobic (domains : list string) : list string :=
  List.filter (fun d => member d known_transphobic_domains) domains.

(** The verdict of a listed domain. *)
Definition listed_verdict (d : string) : Verdict :=
  if member d known_transphobic_domains
  then {| classification := 2; confidence := 0.85;
          tag := known_transphobic_domain; detail := NoDetail |}
  else {| classification := 0; confidence := 0.85;
          tag := known_transfriendly_domain; detail := NoDetail |}.

(* ===================================================================== *)
(** The classification and the confidence in the body of a reply. *)
Definition reply_verdict (reply : App.Reply) : option (Z * Q) :=
  match reply with
  | App.BadRequest _ => None
  | App.InsufficientData _ | App.AnalysisFailed _ => Some (1%Z, 0.1)
  | App.Analysis response _ =>
      Some (classification (result response), confidence (result response))
  end.

Definition response_in_range (response : Response) : Prop :=
  is_class (classification (result response))
  /\ 0 <= confidence (result response) <= 1.

Definition reply_in_range (reply : App.Reply) : Prop :=
  match reply_verdict reply with
  | Some (c, q) => is_class c /\ 0 <= q <= 1
  | None => True
  end.

(** The analysis cache holds responses in range. *)
Definition analysis_cache_ok (cache : gmap string App.Cached) : Prop :=
  map_Forall (fun _ cached => response_in_range (App.cached_response cached)) cache.

(** The keys of the analysis cache. *)
Definition text_key (B : Web) (text : string) : string :=
  ("text:" ++ hash_text B text)%string.

Definition profile_key (platform identifier : string) : string :=
  ("profile:" ++ platform ++ ":" ++ identifier)%string.

Definition url_key (url : string) : string := ("url:" ++ url)%string.

(** Whether a reply carries the result of an analysis. *)
Definition is_analysis (reply : App.Reply) : bool :=
  match reply with
  | App.Analysis _ _ => true
  | _ => false
  end.

(** What a request may change in the analysis cache: its own entry,
    which then holds the reply, and only when the reply carries an
    analysis. *)
Definition cached_as (reply : App.Reply) (key : string)
    (before after : gmap string App.Cached) : Prop :=
  match reply with
  | App.Analysis response ts =>
      after !! key = Some {| App.cached_response := response;
                             App.cached_timestamp := ts |}
      /\ forall other, other <> key -> after !! other = before !! other
  | _ => after = before
  end.

(** The three labels of the extension. *)
Definition labels : list string := ["t-friendly"; "gray-area"; "transphobic"]%string.

(** The request cache holds responses of status 200. *)
Definition request_cache_ok
    (cache : gmap string (Q * WebAnalyzer.HttpResponse)) : Prop :=
  map_Forall (fun _ entry => WebAnalyzer.status_code (snd entry) = 200%Z) cache.

(** [s] does not begin with white space. *)
Definition starts_clean (s : string) : bool :=
  match s with
  | EmptyString => true
  | String c _ => negb (PyStr.isspace c)
  end.

(** [s] does not end with white space. *)
Fixpoint ends_clean (s : string) : bool :=
  match s with
  | EmptyString => true
  | String c s' =>
      match s' with
      | EmptyString => negb (PyStr.isspace c)
      | _ => ends_clean s'
      end
  end.

(** No two spaces follow each other in [s]. *)
Fixpoint no_double_space (s : string) : bool :=
  match s with
  | EmptyString => true
  | String c s' =>
      match s' with
      | EmptyString => true
      | String c' _ =>
          negb (Ascii.eqb c " " && Ascii.eqb c' " ") && no_double_space s'
      end
  end.

(** No line boundary is in [s]. *)
Definition no_linebreak (s : string) : bool :=
  Urllib.all_chars (fun c => negb (PyText.linebreak c)) s.

(** A text in the form that the cleaning gives: one line, without white
    space at its ends and without two spaces in a row. *)
Definition cleaned (s : string) : bool :=
  starts_clean s && ends_clean s && no_double_space s && no_linebreak s.

(** ** Arithmetic of the embedding *)
(* ===================================================================== *)

Lemma Qltb_true x y : Qltb x y = true <-> x < y.
Proof.
  unfold Qltb. rewrite negb_true_iff.
  split; intro H.
  - apply Qnot_le_lt. intro Hle. apply Qle_bool_iff in Hle. congruence.
  - apply not_true_is_false. intro Hle. apply Qle_bool_iff in Hle.
    apply (Qlt_not_le _ _ H Hle).
Qed.

Lemma Qltb_false x y : Qltb x y = false <-> y <= x.
Proof.
  unfold Qltb. rewrite negb_false_iff. apply Qle_bool_iff.
Qed.

Lemma Qltb_cases x y : (Qltb x y = true /\ x < y) \/ (Qltb x y = false /\ y <= x).
Proof.
  destruct (Qltb x y) eqn:E; [left | right]; split; trivial.
  - now apply Qltb_true.
  - now apply Qltb_false.
Qed.

Lemma py_min_Qmin a b : py_min a b == Qmin a b.
Proof.
  unfold py_min.
  destruct (Qltb_cases b a) as [[-> H] | [-> H]].
  - symmetry. apply Q.min_r. now apply Qlt_le_weak.
  - symmetry. now apply Q.min_l.
Qed.

Lemma py_min_le_l a b : py_min a b <= a.
Proof. rewrite py_min_Qmin. apply Q.le_min_l. Qed.

Lemma py_min_le_r a b : py_min a b <= b.
Proof. rewrite py_min_Qmin. apply Q.le_min_r. Qed.

Lemma py_min_glb a b c : c <= a -> c <= b -> c <= py_min a b.
Proof. intros. rewrite py_min_Qmin. now apply Q.min_glb. Qed.

Lemma Qnat_nonneg n : 0 <= Qnat n.
Proof. unfold Qnat, Qle. simpl. lia. Qed.

Lemma Qnat_pos n : (0 < n)%nat -> 0 < Qnat n.
Proof. unfold Qnat, Qlt. simpl. lia. Qed.

Lemma Qnat_le n m : (n <= m)%nat -> Qnat n <= Qnat m.
Proof. unfold Qnat, Qle. simpl. lia. Qed.

Lemma Qnat_plus n m : Qnat (n + m) == Qnat n + Qnat m.
Proof. unfold Qnat. rewrite Nat2Z.inj_add, inject_Z_plus. reflexivity. Qed.

(** Halving, in the form that linear arithmetic reads. *)
Lemma Qhalf x : x / 2 == x * (1 # 2).
Proof. field. Qed.

(** A share of a positive total lies between zero and one. *)
Lemma ratio_bounds t f :
  (0 < t + f)%nat ->
  0 <= Qnat t / Qnat (t + f) <= 1.
Proof.
  intro H. pose proof (Qnat_pos _ H) as Hpos.
  pose proof (Qnat_nonneg t) as Ht.
  pose proof (Qnat_le t (t + f) ltac:(lia)) as Hle.
  split.
  - apply Qle_shift_div_l; [assumption | lra].
  - apply Qle_shift_div_r; [assumption | lra].
Qed.

(* ===================================================================== *)
(** ** The pattern matcher *)
(* ===================================================================== *)

Lemma Qmin_py_min_swap a b x : x == a -> py_min a b == Qmin b x.
Proof.
  intro H. rewrite py_min_Qmin, Q.min_comm.
  destruct (Qlt_le_dec b a) as [Hlt | Hle].
  - rewrite !Q.min_l by lra. reflexivity.
  - rewrite !Q.min_r by lra. lra.
Qed.

Lemma total_zero_test t f : (t + f =? 0)%nat = false -> (0 < t + f)%nat.
Proof. intro H. apply Nat.eqb_neq in H. lia. Qed.

(** The verdict of the text-level shaping, case by case. *)
Lemma pattern_verdict_cases t f :
  let ratio := Qnat t / Qnat (t + f) in
  ((t + f = 0)%nat ->
     pattern_verdict t f =
       {| classification := 1; confidence := 0.3; tag := pattern_matching;
          detail := NoDetail |})
  /\ ((0 < t + f)%nat -> 0.7 < ratio ->
        classification (pattern_verdict t f) = 2%Z
        /\ confidence (pattern_verdict t f)
           == Qmin 0.95 (0.5 + 1.5 * (ratio - 0.7)))
  /\ ((0 < t + f)%nat -> ratio < 0.3 ->
        classification (pattern_verdict t f) = 0%Z
        /\ confidence (pattern_verdict t f)
           == Qmin 0.95 (0.5 + 1.5 * (0.3 - ratio)))
  /\ ((0 < t + f)%nat -> 0.3 <= ratio <= 0.7 ->
        classification (pattern_verdict t f) = 1%Z
        /\ confidence (pattern_verdict t f) == 0.3).
Proof.
  intro ratio. unfold pattern_verdict.
  repeat split.
  - intro H. rewrite H. reflexivity.
  - destruct (t + f =? 0)%nat eqn:E; [apply Nat.eqb_eq in E; lia |].
    apply Nat.ltb_lt in H. rewrite H. fold ratio.
    apply Qltb_true in H0. rewrite H0. reflexivity.
  - destruct (t + f =? 0)%nat eqn:E; [apply Nat.eqb_eq in E; lia |].
    apply Nat.ltb_lt in H. rewrite H. fold ratio.
    apply Qltb_true in H0. rewrite H0. simpl.
    apply Qmin_py_min_swap. ring.
  - destruct (t + f =? 0)%nat eqn:E; [apply Nat.eqb_eq in E; lia |].
    apply Nat.ltb_lt in H. rewrite H. fold ratio.
    assert (Qltb 0.7 ratio = false) as -> by (apply Qltb_false; lra).
    apply Qltb_true in H0. rewrite H0. reflexivity.
  - destruct (t + f =? 0)%nat eqn:E; [apply Nat.eqb_eq in E; lia |].
    apply Nat.ltb_lt in H. rewrite H. fold ratio.
    assert (Qltb 0.7 ratio = false) as -> by (apply Qltb_false; lra).
    apply Qltb_true in H0. rewrite H0. simpl.
    apply Qmin_py_min_swap. ring.
  - destruct (t + f =? 0)%nat eqn:E; [apply Nat.eqb_eq in E; lia |].
    apply Nat.ltb_lt in H. rewrite H. fold ratio. destruct H0.
    assert (Qltb 0.7 ratio = false) as -> by (apply Qltb_false; lra).
    assert (Qltb ratio 0.3 = false) as -> by (apply Qltb_false; lra).
    reflexivity.
  - destruct (t + f =? 0)%nat eqn:E; [apply Nat.eqb_eq in E; lia |].
    apply Nat.ltb_lt in H. rewrite H. fold ratio. destruct H0.
    assert (Qltb 0.7 ratio = false) as -> by (apply Qltb_false; lra).
    assert (Qltb ratio 0.3 = false) as -> by (apply Qltb_false; lra).
    reflexivity.
Qed.

Lemma pattern_verdict_tag t f : tag (pattern_verdict t f) = pattern_matching.
Proof.
  unfold pattern_verdict.
  destruct (t + f =? 0)%nat; [reflexivity |].
  destruct (0 <? t + f)%nat;
    destruct (Qltb 0.7 _); try reflexivity;
    destruct (Qltb _ 0.3); reflexivity.
Qed.

(** The confidence of the text-level shaping is 0.3 or lies between
    0.5 and 0.95. *)
Lemma pattern_verdict_bounds t f :
  is_class (classification (pattern_verdict t f))
  /\ 0.3 <= confidence (pattern_verdict t f) <= 0.95.
Proof.
  destruct (pattern_verdict_cases t f) as (H0 & H2 & Hf & H1).
  destruct (Nat.eq_dec (t + f)%nat 0%nat) as [E | E].
  - rewrite (H0 E). unfold is_class. simpl. split; [auto | lra].
  - assert (0 < t + f)%nat as Hpos by lia.
    pose proof (ratio_bounds t f Hpos) as [Hlo Hhi].
    set (ratio := Qnat t / Qnat (t + f)) in *.
    destruct (Qlt_le_dec 0.7 ratio) as [Hgt | Hle].
    + destruct (H2 Hpos Hgt) as [-> ->]. unfold is_class.
      split; [auto |]. split.
      * apply Q.min_glb; lra.
      * apply Q.le_min_l.
    + destruct (Qlt_le_dec ratio 0.3) as [Hlt | Hge].
      * destruct (Hf Hpos Hlt) as [-> ->]. unfold is_class.
        split; [auto |]. split.
        -- apply Q.min_glb; lra.
        -- apply Q.le_min_l.
      * destruct (H1 Hpos (conj Hge Hle)) as [-> ->]. unfold is_class.
        split; [auto | lra].
Qed.

(** C5. For every text, with [t] and [f] the match counts of the two
    pattern lists on the lower-cased text: no match gives gray_area with
    confidence 0.3; otherwise, with ratio = t/(t+f), a ratio above 0.7
    gives transphobic with confidence min(0.95, 0.5 + 1.5*(ratio-0.7)),
    a ratio below 0.3 gives friendly with confidence
    min(0.95, 0.5 + 1.5*(0.3-ratio)), and every ratio from 0.3 to 0.7,
    the two boundary values included, gives gray_area with confidence
    0.3. *)
Theorem pattern_matcher_verdict (W : World) (text : string) :
  let t := count_matches W transphobic_patterns (PyStr.lower text) in
  let f := count_matches W friendly_patterns (PyStr.lower text) in
  let ratio := Qnat t / Qnat (t + f) in
  let v := analyze_with_patterns W text in
  tag v = pattern_matching
  /\ ((t + f = 0)%nat -> classification v = 1%Z /\ confidence v == 0.3)
  /\ ((0 < t + f)%nat -> 0.7 < ratio ->
        classification v = 2%Z
        /\ confidence v == Qmin 0.95 (0.5 + 1.5 * (ratio - 0.7)))
  /\ ((0 < t + f)%nat -> ratio < 0.3 ->
        classification v = 0%Z
        /\ confidence v == Qmin 0.95 (0.5 + 1.5 * (0.3 - ratio)))
  /\ ((0 < t + f)%nat -> 0.3 <= ratio <= 0.7 ->
        classification v = 1%Z /\ confidence v == 0.3)
  /\ ((0 < t + f)%nat -> ratio == 0.7 \/ ratio == 0.3 ->
        classification v = 1%Z /\ confidence v == 0.3).
Proof.
  intros t f ratio v.
  destruct (pattern_verdict_cases t f) as (H0 & H2 & Hf & H1).
  unfold v, analyze_with_patterns. fold t f.
  split; [apply pattern_verdict_tag |].
  split; [intro E; rewrite (H0 E); split; reflexivity |].
  split; [exact H2 |].
  split; [exact Hf |].
  split; [exact H1 |].
  intros Hpos [E | E]; apply (H1 Hpos); fold ratio; rewrite E; split; lra.
Qed.

(* ===================================================================== *)
(** ** The text classifier *)
(* ===================================================================== *)

Lemma search_digit_0_2_class s d : search_digit_0_2 s = Some d -> is_class d.
Proof.
  induction s as [| c s IH]; cbn [search_digit_0_2]; [discriminate |].
  destruct ((48 <=? PyStr.code c) && (PyStr.code c <=? 50))%nat eqn:E; [| exact IH].
  intro H. injection H as <-.
  apply andb_true_iff in E. destruct E as [E1 E2].
  apply Nat.leb_le in E1, E2. unfold is_class. lia.
Qed.

(** The text passes the length test of [analyze_text]. *)
Lemma long_enough text :
  (5 <= String.length (PyStr.strip text))%nat ->
  negb (PyStr.truthy text) || (String.length (PyStr.strip text) <? 5)%nat = false.
Proof.
  intro H. apply orb_false_iff. split.
  - destruct text; [simpl in H; lia | reflexivity].
  - now apply Nat.ltb_ge.
Qed.

(** What the model path answers when it answers. *)
Lemma analyze_with_ollama_some W self text v :
  analyze_with_ollama W self text = Some v ->
  is_class (classification v) /\ confidence v = 0.8 /\ tag v = ollama.
Proof.
  unfold analyze_with_ollama.
  destruct (ollama_generate W (model_name self) (ollama_prompt text))
    as [| status_code response]; [discriminate |].
  destruct (status_code =? 200)%Z; [| discriminate].
  intro H. injection H as <-. simpl. repeat split.
  destruct (search_digit_0_2 _) eqn:E.
  - now apply search_digit_0_2_class in E.
  - unfold is_class. auto.
Qed.

(** The three ways out of [analyze_text]. *)
Lemma analyze_text_cases W self text :
  let v := verdict_of (analyze_text W self text) in
  v = insufficient_text_verdict
  \/ (is_class (classification v) /\ confidence v = 0.8 /\ tag v = ollama)
  \/ v = analyze_with_patterns W (preprocess_text W self text).
Proof.
  unfold analyze_text, verdict_of.
  destruct (negb (PyStr.truthy text) || _); [left; reflexivity |].
  right.
  destruct (ollama_available self); [| right; reflexivity].
  unfold bind, invoke, ret.
  destruct (analyze_with_ollama W self _) as [v' |] eqn:E.
  - left. simpl. now apply analyze_with_ollama_some in E.
  - right. reflexivity.
Qed.

Lemma analyze_text_well_formed W self text :
  well_formed (verdict_of (analyze_text W self text)).
Proof.
  destruct (analyze_text_cases W self text) as [-> | [(Hc & Hq & Ht) | ->]].
  - unfold well_formed, is_class. simpl. repeat split; auto; lra.
  - unfold well_formed. rewrite Hq, Ht. simpl. repeat split; auto; try lra; try discriminate.
  - unfold well_formed, analyze_with_patterns.
    destruct (pattern_verdict_bounds
                (count_matches W transphobic_patterns
                   (PyStr.lower (preprocess_text W self text)))
                (count_matches W friendly_patterns
                   (PyStr.lower (preprocess_text W self text))))
      as (Hc & Hlo & Hhi).
    rewrite pattern_verdict_tag. simpl. repeat split; auto; try lra; try discriminate.
Qed.

(** Every verdict of [analyze_text] has a confidence of at least 0.1. *)
Lemma analyze_text_confidence_pos W self text :
  0.1 <= confidence (verdict_of (analyze_text W self text)).
Proof.
  destruct (analyze_text_cases W self text) as [-> | [(Hc & Hq & Ht) | ->]].
  - simpl. lra.
  - rewrite Hq. lra.
  - unfold analyze_with_patterns.
    destruct (pattern_verdict_bounds
                (count_matches W transphobic_patterns
                   (PyStr.lower (preprocess_text W self text)))
                (count_matches W friendly_patterns
                   (PyStr.lower (preprocess_text W self text))))
      as (Hc & Hlo & Hhi).
    lra.
Qed.

(** C2, as amended. For every text whose length, once leading and
    trailing white space is stripped, is below 5, [analyze_text] returns
    gray_area with confidence exactly 0.1 and the tag insufficient_text,
    and calls neither the model nor the pattern matcher. *)
Theorem short_text_is_insufficient (W : World) (self : ContentAnalyzer) (text : string) :
  (String.length (PyStr.strip text) < 5)%nat ->
  let r := analyze_text W self text in
  classification (verdict_of r) = 1%Z
  /\ confidence (verdict_of r) = 0.1
  /\ tag (verdict_of r) = insufficient_text
  /\ calls r = [].
Proof.
  intros H r. unfold r, analyze_text.
  apply Nat.ltb_lt in H. rewrite H, orb_true_r.
  repeat split.
Qed.

Lemma short_text_is_insufficient_witness :
  let r := analyze_text quiet_world analyzer_without_ollama " abc  " in
  classification (verdict_of r) = 1%Z
  /\ confidence (verdict_of r) = 0.1
  /\ tag (verdict_of r) = insufficient_text
  /\ calls r = [].
Proof.
  apply (short_text_is_insufficient quiet_world analyzer_without_ollama " abc  ").
  vm_compute. lia.
Defined.

(** C2, the claim as stated fails: a text of three letters separated by
    spaces has fewer than 5 characters that are not white space, yet it
    reaches the pattern matcher and gets confidence 0.3. *)
Lemma short_text_with_inner_spaces :
  (PyStr.count_nonspace "a b c" < 5)%nat
  /\ analyze_text quiet_world analyzer_without_ollama "a b c"
     = ({| classification := 1; confidence := 0.3; tag := pattern_matching;
           detail := NoDetail |},
        [CallPatterns "a b c"]).
Proof. split; [vm_compute; lia | reflexivity]. Qed.

(** C1, as amended. When the model is available and the text long
    enough: a reply with status 200 whose text holds no digit 0-2 gives
    the verdict of the model path, gray_area with confidence 0.8 and the
    tag ollama, and the pattern matcher is not called; a digit gives its
    class with the same confidence; an exception or another status gives
    the verdict of the pattern matcher, called after the model. *)
Theorem unparseable_reply_is_model_verdict (W : World) (self : ContentAnalyzer) (text : string) :
  ollama_available self = true ->
  (5 <= String.length (PyStr.strip text))%nat ->
  let processed := preprocess_text W self text in
  let input := PyStr.take 8000 processed in
  let reply := ollama_generate W (model_name self) (ollama_prompt input) in
  let said response :=
    PyStr.strip (match response with Some r => r | None => "1"%string end) in
  let r := analyze_text W self text in
  (forall response,
      reply = Status 200 response ->
      search_digit_0_2 (said response) = None ->
      verdict_of r = {| classification := 1; confidence := 0.8; tag := ollama;
                        detail := NoDetail |}
      /\ calls r = [CallOllama input])
  /\ (forall response d,
        reply = Status 200 response ->
        search_digit_0_2 (said response) = Some d ->
        verdict_of r = {| classification := d; confidence := 0.8; tag := ollama;
                          detail := NoDetail |}
        /\ calls r = [CallOllama input])
  /\ (reply = Raises
      \/ (exists status_code response,
             reply = Status status_code response /\ status_code <> 200%Z) ->
      verdict_of r = analyze_with_patterns W processed
      /\ calls r = [CallOllama input; CallPatterns processed]).
Proof.
  intros Hav Hlen processed input reply said r.
  unfold r, analyze_text. rewrite (long_enough _ Hlen), Hav.
  fold processed. fold input.
  unfold bind, invoke, ret, analyze_with_ollama. fold reply.
  repeat split.
  - rewrite H. simpl. fold (said response). rewrite H0. reflexivity.
  - rewrite H. reflexivity.
  - rewrite H. simpl. fold (said response). rewrite H0. reflexivity.
  - rewrite H. reflexivity.
  - destruct H as [-> | (status_code & response & -> & Hne)]; [reflexivity |].
    apply Z.eqb_neq in Hne. rewrite Hne. reflexivity.
  - destruct H as [-> | (status_code & response & -> & Hne)]; [reflexivity |].
    apply Z.eqb_neq in Hne. rewrite Hne. reflexivity.
Qed.

Lemma unparseable_reply_is_model_verdict_witness :
  let r := analyze_text (answering_world 200 "unclear") analyzer_with_ollama
                        "hello world" in
  verdict_of r = {| classification := 1; confidence := 0.8; tag := ollama;
                    detail := NoDetail |}
  /\ calls r = [CallOllama "hello world"].
Proof.
  apply (proj1 (unparseable_reply_is_model_verdict
                  (answering_world 200 "unclear") analyzer_with_ollama
                  "hello world" eq_refl ltac:(vm_compute; lia))
               (Some "unclear"%string)).
  - reflexivity.
  - reflexivity.
Defined.

(** C1, the claim as stated fails: the backend answers 200 with a text
    that holds no digit 0-2, and [analyze_text] returns a verdict tagged
    ollama without calling the pattern matcher. *)
Lemma unparseable_reply_no_fallback :
  search_digit_0_2 (PyStr.strip "unclear") = None
  /\ analyze_text (answering_world 200 "unclear") analyzer_with_ollama
                  "hello world"
     = ({| classification := 1; confidence := 0.8; tag := ollama;
           detail := NoDetail |},
        [CallOllama "hello world"]).
Proof. split; reflexivity. Qed.

(* ===================================================================== *)
(** ** The adjustment by a second signal *)
(* ===================================================================== *)

Lemma adjust_overrides name primary secondary :
  confidence primary < 0.6 -> 0.7 < confidence secondary ->
  adjust name primary secondary =
    {| result :=
         {| classification := classification secondary;
            confidence := (confidence primary + confidence secondary) / 2;
            tag := tag primary;
            detail := detail primary |};
       second_analysis := Some secondary;
       classification_adjusted_by := Some name |}.
Proof.
  intros H1 H2. unfold adjust.
  apply Qltb_true in H1, H2. rewrite H1, H2. reflexivity.
Qed.

Lemma adjust_keeps name primary secondary :
  0.6 <= confidence primary \/ confidence secondary <= 0.7 ->
  adjust name primary secondary =
    {| result := primary;
       second_analysis := Some secondary;
       classification_adjusted_by := None |}.
Proof.
  intros H. unfold adjust.
  destruct H as [H | H]; apply Qltb_false in H; rewrite H;
    [| rewrite andb_false_r]; reflexivity.
Qed.

(** C3. The adjustment replaces the classification of the primary
    verdict by the secondary's and sets the confidence to their mean
    exactly when the primary confidence is below 0.6 and the secondary
    above 0.7; in every other case, a primary confidence of 0.6 against
    a secondary of 0.95 included, the primary verdict is returned as it
    is. Both handlers apply this rule. *)
Theorem adjustment_rule (name : string) (primary secondary : Verdict) :
  let r := adjust name primary secondary in
  (confidence primary < 0.6 /\ 0.7 < confidence secondary ->
     classification (result r) = classification secondary
     /\ confidence (result r)
        == (confidence primary + confidence secondary) / 2
     /\ classification_adjusted_by r = Some name)
  /\ (0.6 <= confidence primary \/ confidence secondary <= 0.7 ->
        result r = primary /\ classification_adjusted_by r = None)
  /\ (confidence (result r) == confidence primary
        <-> (0.6 <= confidence primary \/ confidence secondary <= 0.7))
  /\ (confidence primary == 0.6 -> confidence secondary == 0.95 ->
        result r = primary)
  /\ (forall W url cache,
        fst (reconcile_url W primary url cache)
        = adjust "common_crawl" primary (fst (analyze_single_url W url cache)))
  /\ (forall W links cache, links <> [] ->
        fst (reconcile_profile W primary links cache)
        = adjust "linked_sites" primary (fst (analyze_links W links cache))).
Proof.
  intro r. unfold r.
  split; [| split; [| split; [| split; [| split]]]].
  - intros [H1 H2]. rewrite (adjust_overrides _ _ _ H1 H2). simpl.
    repeat split; reflexivity.
  - intro H. rewrite (adjust_keeps _ _ _ H). split; reflexivity.
  - split.
    + intro E.
      destruct (Qlt_le_dec (confidence primary) 0.6) as [H1 | H1]; [| now left].
      destruct (Qlt_le_dec 0.7 (confidence secondary)) as [H2 | H2]; [| now right].
      rewrite (adjust_overrides _ _ _ H1 H2) in E.
      cbn [result confidence] in E. rewrite Qhalf in E. exfalso. lra.
    + intro H. rewrite (adjust_keeps _ _ _ H). reflexivity.
  - intros H1 H2. rewrite adjust_keeps; [reflexivity | left; lra].
  - intros W url cache. unfold reconcile_url.
    destruct (analyze_single_url W url cache). reflexivity.
  - intros W links cache Hne. unfold reconcile_profile.
    destruct links; [congruence |].
    destruct (analyze_links W (s :: links) cache). reflexivity.
Qed.

(* ===================================================================== *)
(** ** The site resolver *)
(* ===================================================================== *)

(** The verdict of the domain-level shaping, case by case. *)
Lemma domain_pattern_verdict_cases t f :
  let ratio := Qnat t / Qnat (t + f) in
  ((t + f = 0)%nat ->
     domain_pattern_verdict t f =
       {| classification := 1; confidence := 0.3; tag := pattern_analysis;
          detail := PatternStats 0 0 |})
  /\ ((0 < t + f)%nat -> 0.7 < ratio ->
        classification (domain_pattern_verdict t f) = 2%Z
        /\ confidence (domain_pattern_verdict t f)
           == 0.5 + Qmin 0.4 (ratio - 0.7))
  /\ ((0 < t + f)%nat -> ratio < 0.3 ->
        classification (domain_pattern_verdict t f) = 0%Z
        /\ confidence (domain_pattern_verdict t f)
           == 0.5 + Qmin 0.4 (0.3 - ratio))
  /\ ((0 < t + f)%nat -> 0.3 <= ratio <= 0.7 ->
        classification (domain_pattern_verdict t f) = 1%Z
        /\ confidence (domain_pattern_verdict t f) == 0.3).
Proof.
  intro ratio. unfold domain_pattern_verdict. fold ratio.
  split; [intro H; rewrite H; reflexivity |].
  split; [| split]; intros Hpos H;
    (destruct (t + f =? 0)%nat eqn:E; [apply Nat.eqb_eq in E; lia |]).
  - apply Qltb_true in H. rewrite H. cbn [classification confidence].
    split; [reflexivity |]. rewrite py_min_Qmin. reflexivity.
  - assert (Qltb 0.7 ratio = false) as -> by (apply Qltb_false; lra).
    apply Qltb_true in H. rewrite H. cbn [classification confidence].
    split; [reflexivity |]. rewrite py_min_Qmin. reflexivity.
  - destruct H.
    assert (Qltb 0.7 ratio = false) as -> by (apply Qltb_false; lra).
    assert (Qltb ratio 0.3 = false) as -> by (apply Qltb_false; lra).
    split; reflexivity.
Qed.

Lemma domain_pattern_verdict_tag t f :
  tag (domain_pattern_verdict t f) = pattern_analysis.
Proof.
  unfold domain_pattern_verdict.
  destruct (t + f =? 0)%nat; [reflexivity |].
  destruct (Qltb 0.7 _); [reflexivity |].
  destruct (Qltb _ 0.3); reflexivity.
Qed.

(** The confidence of the domain-level shaping is 0.3 or lies between
    0.5 and 0.8. *)
Lemma domain_pattern_verdict_bounds t f :
  is_class (classification (domain_pattern_verdict t f))
  /\ 0.3 <= confidence (domain_pattern_verdict t f) <= 0.8.
Proof.
  destruct (domain_pattern_verdict_cases t f) as (H0 & H2 & Hf & H1).
  destruct (Nat.eq_dec (t + f)%nat 0%nat) as [E | E].
  - rewrite (H0 E). unfold is_class. simpl. split; [auto | lra].
  - assert (0 < t + f)%nat as Hpos by lia.
    pose proof (ratio_bounds t f Hpos) as [Hlo Hhi].
    set (ratio := Qnat t / Qnat (t + f)) in *.
    destruct (Qlt_le_dec 0.7 ratio) as [Hgt | Hle].
    + destruct (H2 Hpos Hgt) as [-> ->]. unfold is_class.
      split; [auto |]. rewrite Q.min_r by lra. lra.
    + destruct (Qlt_le_dec ratio 0.3) as [Hlt | Hge].
      * destruct (Hf Hpos Hlt) as [-> ->]. unfold is_class.
        split; [auto |]. rewrite Q.min_r by lra. lra.
      * destruct (H1 Hpos (conj Hge Hle)) as [-> ->]. unfold is_class.
        split; [auto | lra].
Qed.

(** The parse of the answer of the archive gives no page. *)
Lemma _fetch_warc_record_none W record : _fetch_warc_record W record = None.
Proof.
  unfold _fetch_warc_record.
  destruct (cc_filename record) as [filename |]; [| reflexivity].
  destruct (negb (PyStr.truthy filename) || (cc_offset record <? 0)%Z
            || (cc_length record <=? 0)%Z); [reflexivity |].
  destruct (warc_range W filename (cc_offset record) (cc_length record));
    reflexivity.
Qed.

Lemma collect_contents_nil W records : collect_contents W records = [].
Proof.
  induction records as [| record rest IH]; [reflexivity |].
  cbn [collect_contents]. rewrite _fetch_warc_record_none. exact IH.
Qed.

(** A domain that is not in the lists is answered for want of data. *)
Lemma _analyze_domain_content_unlisted W domain :
  _check_known_domain_stance domain = None ->
  _analyze_domain_content W domain
  = match _fetch_cc_records_for_domain W domain with
    | [] => no_cc_data_verdict
    | _ => no_content_extracted_verdict
    end.
Proof.
  intros Hk. unfold _analyze_domain_content. rewrite Hk.
  destruct (_fetch_cc_records_for_domain W domain) as [| r rs]; [reflexivity |].
  rewrite collect_contents_nil. reflexivity.
Qed.

(** C7. The shaping of the claim is not reached. Take the archive that
    holds, for every domain, one page in which a transphobic pattern
    matches once and no friendly pattern matches: the ratio is 1, for
    which the shaping of [_analyze_domain_content] gives transphobic with
    confidence 0.8. The domain is outside the lists, the index has a
    valid record for it and the range request answers with the page; but
    [_fetch_warc_record] returns no content, and the function answers
    gray area with confidence 0.1 and the source no_content_extracted. *)
Theorem site_shaping_is_not_reached :
  let W := archive_world 1 0 in
  let record :=
    {| cc_filename := Some "crawl-data/segment.warc.gz"%string;
       cc_offset := 0; cc_length := 1024 |} in
  let page := "<html><body>page</body></html>"%string in
  _check_known_domain_stance "example.org" = None
  /\ _fetch_cc_records_for_domain W "example.org" = [record]
  /\ warc_range W "crawl-data/segment.warc.gz" 0 1024 = Some page
  /\ count_in_contents W transphobic_patterns [_extract_text_from_html W page]
     = 1%nat
  /\ count_in_contents W friendly_patterns [_extract_text_from_html W page]
     = 0%nat
  /\ classification (domain_pattern_verdict 1 0) = 2%Z
  /\ confidence (domain_pattern_verdict 1 0) == 0.8
  /\ _fetch_warc_record W record = None
  /\ _analyze_domain_content W "example.org" = no_content_extracted_verdict.
Proof.
  cbv zeta. repeat split; reflexivity.
Qed.

(* ===================================================================== *)
(** ** The profile aggregator: the spread of the labels *)
(* ===================================================================== *)

Lemma Qnat_S n : Qnat (S n) == Qnat n + 1.
Proof.
  unfold Qnat. rewrite Nat2Z.inj_succ. unfold Z.succ.
  rewrite inject_Z_plus. reflexivity.
Qed.

Lemma Qsquare_nonneg (x : Q) : 0 <= x * x.
Proof. nra. Qed.

Lemma Qsum_cons x xs : Qsum (x :: xs) = x + Qsum xs.
Proof. reflexivity. Qed.

(** The sum of the squared deviations from any centre. *)
Lemma sum_sq_dev_expand (c : Q) (xs : list Q) :
  Qsum (map (fun x => (x - c) * (x - c)) xs)
  == Qsum (map (fun x => x * x) xs) - 2 * c * Qsum xs
     + Qnat (List.length xs) * c * c.
Proof.
  induction xs as [| x xs IH].
  - simpl. unfold Qnat. simpl. ring.
  - cbn [map List.length]. rewrite !Qsum_cons, IH, Qnat_S. ring.
Qed.

Lemma sum_sq_dev_nonneg (c : Q) (xs : list Q) :
  0 <= Qsum (map (fun x => (x - c) * (x - c)) xs).
Proof.
  induction xs as [| x xs IH].
  - simpl. lra.
  - cbn [map]. rewrite Qsum_cons.
    pose proof (Qsquare_nonneg (x - c)). lra.
Qed.

(** For labels 0, 1 and 2 the sum of the squares is at most twice the
    sum. *)
Lemma sum_sq_labels (labels : list Z) :
  Forall is_class labels ->
  Qsum (map (fun x => x * x) (map inject_Z labels))
  <= 2 * Qsum (map inject_Z labels).
Proof.
  induction 1 as [| c cs Hc _ IH].
  - simpl. lra.
  - cbn [map]. rewrite !Qsum_cons.
    assert (inject_Z c * inject_Z c <= 2 * inject_Z c) as Hsq.
    { destruct Hc as [-> | [-> | ->]]; vm_compute; discriminate. }
    lra.
Qed.

(** The mean squared deviation of labels 0, 1 and 2 lies between 0 and
    1. *)
Lemma labels_variance_bounds (labels : list Z) :
  labels <> [] -> Forall is_class labels ->
  let xs := map inject_Z labels in
  let arrmean := np_mean xs in
  0 <= np_mean (map (fun x => (x - arrmean) * (x - arrmean)) xs) <= 1.
Proof.
  intros Hne Hall xs arrmean.
  assert (0 < Qnat (List.length xs)) as Hn.
  { apply Qnat_pos. unfold xs. rewrite length_map.
    destruct labels; [congruence | simpl; lia]. }
  unfold np_mean. rewrite length_map.
  pose proof (sum_sq_dev_nonneg arrmean xs) as Hlo.
  pose proof (sum_sq_dev_expand arrmean xs) as Hexp.
  pose proof (sum_sq_labels labels Hall) as Hsq. fold xs in Hsq.
  assert (arrmean * Qnat (List.length xs) == Qsum xs) as Hmean.
  { unfold arrmean, np_mean. field. lra. }
  set (n := Qnat (List.length xs)) in *.
  set (D := Qsum (map (fun x => (x - arrmean) * (x - arrmean)) xs)) in *.
  set (SS := Qsum (map (fun x => x * x) xs)) in *.
  set (S := Qsum xs) in *.
  split.
  - apply Qle_shift_div_l; [assumption | lra].
  - apply Qle_shift_div_r; [assumption |].
    assert (0 <= n * ((1 - arrmean) * (1 - arrmean))) as Hsquare.
    { apply Qmult_le_0_compat; [lra | apply Qsquare_nonneg]. }
    assert (D == SS - n * arrmean * arrmean) as HD.
    { rewrite Hexp, <- Hmean. ring. }
    rewrite <- Hmean in Hsq.
    assert (n * ((1 - arrmean) * (1 - arrmean))
            == n - 2 * (arrmean * n) + n * arrmean * arrmean) as Hring by ring.
    rewrite Hring in Hsquare.
    lra.
Qed.

Section Spread.

Context (W : World) (Hsqrt : sqrt_sound W).

(** With a sound square root, the standard deviation of labels 0, 1 and
    2 lies between 0 and 1. *)
Lemma labels_std_bounds (labels : list Z) :
  labels <> [] -> Forall is_class labels ->
  0 <= np_std W (map inject_Z labels) <= 1.
Proof.
  intros Hne Hall.
  destruct (labels_variance_bounds labels Hne Hall) as [Hlo Hhi].
  unfold np_std.
  destruct (Hsqrt _ Hlo) as (H0 & _ & H1).
  split; [exact H0 | exact (H1 Hhi)].
Qed.

(** The consistency of labels 0, 1 and 2 lies between one half and
    one. *)
Lemma consistency_bounds (labels : list Z) :
  labels <> [] -> Forall is_class labels ->
  (1 # 2) <= consistency_of W labels <= 1.
Proof.
  intros Hne Hall.
  destruct (labels_std_bounds labels Hne Hall) as [Hlo Hhi].
  unfold consistency_of. rewrite Qhalf. lra.
Qed.

(** The consistency of a single label is one. *)
Lemma consistency_single (c : Z) : consistency_of W [c] == 1.
Proof.
  unfold consistency_of, np_std.
  set (xs := map inject_Z [c]).
  set (v := np_mean (map (fun x => (x - np_mean xs) * (x - np_mean xs)) xs)).
  assert (v == 0) as Hv.
  { unfold v, xs, np_mean. cbn [map List.length Qsum fold_right].
    unfold Qnat. simpl Z.of_nat. field. }
  assert (0 <= v) as Hlo by lra.
  destruct (Hsqrt _ Hlo) as (_ & H0 & _).
  rewrite (H0 Hv). field.
Qed.

End Spread.

(** The rounded-down square root is sound. *)
Lemma sqrt_down_sound : sqrt_sound quiet_world.
Proof.
  intros [n d] Hx. cbn [np_sqrt quiet_world]. unfold sqrt_down. cbn [Qnum Qden].
  assert (0 <= n)%Z as Hn by (unfold Qle in Hx; simpl in Hx; lia).
  repeat split.
  - unfold Qle. cbn [Qnum Qden]. pose proof (Z.sqrt_nonneg (n * Z.pos d * 2 ^ 60)). lia.
  - intro H0. unfold Qeq in H0 |- *. cbn [Qnum Qden] in *.
    assert (n = 0)%Z as -> by lia. reflexivity.
  - intro H1. unfold Qle in H1 |- *. cbn [Qnum Qden] in *.
    rewrite Z.mul_1_r, Z.mul_1_l in *. rewrite Pos2Z.inj_mul.
    assert (n * Z.pos d * 2 ^ 60 <= (Z.pos d * 2 ^ 30) * (Z.pos d * 2 ^ 30))%Z as Hle.
    { replace (2 ^ 60)%Z with (2 ^ 30 * 2 ^ 30)%Z by reflexivity. nia. }
    apply Z.sqrt_le_mono in Hle.
    rewrite Z.sqrt_square in Hle by lia.
    exact Hle.
Qed.

(* ===================================================================== *)
(** ** The profile aggregator *)
(* ===================================================================== *)

Lemma verdict_of_bind {A B} (m : Traced A) (k : A -> Traced B) :
  verdict_of (bind m k) = verdict_of (k (verdict_of m)).
Proof.
  unfold bind, verdict_of. destruct m as [a t1]. simpl.
  destruct (k a). reflexivity.
Qed.

Lemma calls_bind {A B} (m : Traced A) (k : A -> Traced B) :
  calls (bind m k) = (calls m ++ calls (k (verdict_of m)))%list.
Proof.
  unfold bind, calls, verdict_of. destruct m as [a t1]. simpl.
  destruct (k a). reflexivity.
Qed.

Lemma verdict_of_mapT {A B} (f : A -> Traced B) (l : list A) :
  verdict_of (mapT f l) = map (fun x => verdict_of (f x)) l.
Proof.
  induction l as [| x l IH]; [reflexivity |].
  cbn [mapT map]. rewrite !verdict_of_bind. cbn [ret verdict_of fst].
  f_equal. exact IH.
Qed.

Lemma calls_mapT {A B} (f : A -> Traced B) (l : list A) :
  calls (mapT f l) = flat_map (fun x => calls (f x)) l.
Proof.
  induction l as [| x l IH]; [reflexivity |].
  cbn [mapT flat_map]. rewrite !calls_bind. cbn [ret calls snd].
  rewrite app_nil_r. f_equal. exact IH.
Qed.

(** The verdict of [analyze_profile] on a list that is not empty. *)
Lemma analyze_profile_nonempty W self posts :
  posts <> [] ->
  verdict_of (analyze_profile W self posts) =
    {| classification :=
         threshold_classification
           (weighted_average (post_labels W self posts)
              (map confidence (post_verdicts W self posts)));
       confidence :=
         py_min 0.95
           ((consistency_of W (post_labels W self posts)
             + sample_confidence_of posts) / 2);
       tag := profile_analysis;
       detail :=
         ProfileStats (List.length posts)
           (consistency_of W (post_labels W self posts))
           (share 2 (post_labels W self posts))
           (share 1 (post_labels W self posts))
           (share 0 (post_labels W self posts)) |}.
Proof.
  intro Hne. destruct posts as [| post posts]; [congruence |].
  unfold analyze_profile. rewrite verdict_of_bind, verdict_of_mapT.
  reflexivity.
Qed.

Lemma post_labels_class W self posts : Forall is_class (post_labels W self posts).
Proof.
  unfold post_labels, post_verdicts. rewrite map_map.
  apply List.Forall_forall. intros c Hin. apply in_map_iff in Hin.
  destruct Hin as (post & <- & _).
  apply (analyze_text_well_formed W self post).
Qed.

Lemma post_labels_nonempty W self posts :
  posts <> [] -> post_labels W self posts <> [].
Proof.
  intro Hne. destruct posts as [| post posts]; [congruence |].
  unfold post_labels, post_verdicts. simpl. discriminate.
Qed.

Lemma threshold_classification_class x : is_class (threshold_classification x).
Proof.
  unfold threshold_classification, is_class.
  destruct (Qltb 1.6 x); [auto |]. destruct (Qltb x 0.4); auto.
Qed.

(** The threshold gives a label back. *)
Lemma threshold_classification_label c x :
  is_class c -> x == inject_Z c -> threshold_classification x = c.
Proof.
  intros Hc Hx. unfold threshold_classification.
  destruct Hc as [-> | [-> | ->]].
  - assert (Qltb 1.6 x = false) as -> by (apply Qltb_false; rewrite Hx; vm_compute; discriminate).
    assert (Qltb x 0.4 = true) as -> by (apply Qltb_true; rewrite Hx; reflexivity).
    reflexivity.
  - assert (Qltb 1.6 x = false) as -> by (apply Qltb_false; rewrite Hx; vm_compute; discriminate).
    assert (Qltb x 0.4 = false) as -> by (apply Qltb_false; rewrite Hx; vm_compute; discriminate).
    reflexivity.
  - assert (Qltb 1.6 x = true) as -> by (apply Qltb_true; rewrite Hx; reflexivity).
    reflexivity.
Qed.

(** The weighted mean of one label is the label. *)
Lemma weighted_average_single c w :
  0 < w -> weighted_average [c] [w] == inject_Z c.
Proof.
  intro Hw. unfold weighted_average. cbn [combine map Qsum fold_right].
  assert (Qltb 0 (w + 0) = true) as -> by (apply Qltb_true; lra).
  field. lra.
Qed.

Lemma sample_confidence_bounds posts :
  posts <> [] -> 0.1 <= sample_confidence_of posts <= 1.
Proof.
  intro Hne. unfold sample_confidence_of.
  assert (1 <= Qnat (List.length posts)) as Hn.
  { change 1 with (Qnat 1). apply Qnat_le.
    destruct posts; [congruence | simpl; lia]. }
  split.
  - apply py_min_glb; [lra |].
    apply Qle_shift_div_l; [reflexivity | lra].
  - apply py_min_le_l.
Qed.

(** C8. For every list of one post, [analyze_profile] returns the
    classification that [analyze_text] gives that post, with consistency
    1, sample confidence 0.1 and confidence 0.55 (the square root of
    [np.std] being sound). *)
Theorem single_post_profile (W : World) (self : ContentAnalyzer) (post : string) :
  sqrt_sound W ->
  let v := verdict_of (analyze_text W self post) in
  let p := verdict_of (analyze_profile W self [post]) in
  classification p = classification v
  /\ reported_consistency p = Some (consistency_of W [classification v])
  /\ consistency_of W [classification v] == 1
  /\ sample_confidence_of [post] == 0.1
  /\ confidence p == 0.55.
Proof.
  intros Hsqrt v p.
  assert (consistency_of W [classification v] == 1) as Hcons
    by (apply consistency_single; exact Hsqrt).
  assert (sample_confidence_of [post] == 0.1) as Hsc by reflexivity.
  unfold p. rewrite analyze_profile_nonempty by discriminate.
  change (post_verdicts W self [post]) with [v].
  change (post_labels W self [post]) with [classification v].
  cbn [classification confidence reported_consistency detail map].
  repeat split; try assumption.
  - apply threshold_classification_label.
    + apply (analyze_text_well_formed W self post).
    + apply weighted_average_single.
      pose proof (analyze_text_confidence_pos W self post). fold v in H. lra.
  - rewrite py_min_Qmin, Hcons, Hsc. reflexivity.
Qed.

Lemma single_post_profile_witness :
  let v := verdict_of (analyze_text quiet_world analyzer_without_ollama "hello world") in
  let p := verdict_of (analyze_profile quiet_world analyzer_without_ollama ["hello world"%string]) in
  classification p = classification v
  /\ reported_consistency p = Some (consistency_of quiet_world [classification v])
  /\ consistency_of quiet_world [classification v] == 1
  /\ sample_confidence_of ["hello world"%string] == 0.1
  /\ confidence p == 0.55.
Proof.
  exact (single_post_profile quiet_world analyzer_without_ollama "hello world"
           sqrt_down_sound).
Defined.

(** C9, as amended. The consistency that [analyze_profile] reports is
    1 - stddev/2 of the labels of the analysed posts, with no clamp; as
    the labels are 0, 1 or 2 their standard deviation is at most 1, so
    the consistency lies between 0.5 and 1 and is never negative (the
    square root of [np.std] being sound). *)
Theorem consistency_at_least_half (W : World) (self : ContentAnalyzer) (posts : list string) :
  sqrt_sound W ->
  posts <> [] ->
  let labels := post_labels W self posts in
  reported_consistency (verdict_of (analyze_profile W self posts))
  = Some (1 - np_std W (map inject_Z labels) / 2)
  /\ 0 <= np_std W (map inject_Z labels) <= 1
  /\ (1 # 2) <= 1 - np_std W (map inject_Z labels) / 2 <= 1.
Proof.
  intros Hsqrt Hne labels.
  rewrite (analyze_profile_nonempty W self posts Hne).
  split; [reflexivity |].
  split.
  - apply (labels_std_bounds W Hsqrt); [now apply post_labels_nonempty | apply post_labels_class].
  - apply (consistency_bounds W Hsqrt); [now apply post_labels_nonempty | apply post_labels_class].
Qed.

Lemma consistency_at_least_half_witness :
  let posts := ["hello world"; "good morning"; "see you soon"]%string in
  let labels := post_labels quiet_world analyzer_without_ollama posts in
  reported_consistency (verdict_of (analyze_profile quiet_world analyzer_without_ollama posts))
  = Some (1 - np_std quiet_world (map inject_Z labels) / 2)
  /\ 0 <= np_std quiet_world (map inject_Z labels) <= 1
  /\ (1 # 2) <= 1 - np_std quiet_world (map inject_Z labels) / 2 <= 1.
Proof.
  apply (consistency_at_least_half quiet_world analyzer_without_ollama
           ["hello world"; "good morning"; "see you soon"]%string
           sqrt_down_sound).
  discriminate.
Defined.

(** C9, the claim as stated fails: no list of posts makes the reported
    consistency negative. *)
Lemma consistency_is_never_negative :
  ~ exists W self posts c,
      sqrt_sound W
      /\ reported_consistency (verdict_of (analyze_profile W self posts)) = Some c
      /\ c < 0.
Proof.
  intros (W & self & posts & c & Hsqrt & Hrep & Hneg).
  destruct posts as [| post posts]; [discriminate Hrep |].
  rewrite analyze_profile_nonempty in Hrep by discriminate.
  cbn [reported_consistency detail] in Hrep. injection Hrep as <-.
  pose proof (consistency_bounds W Hsqrt (post_labels W self (post :: posts))
                (post_labels_nonempty W self (post :: posts) ltac:(discriminate))
                (post_labels_class W self _)) as [Hlo _].
  lra.
Qed.

(* ===================================================================== *)
(** ** Well-formed verdicts *)
(* ===================================================================== *)

Lemma analyze_profile_well_formed W self posts :
  sqrt_sound W -> well_formed (verdict_of (analyze_profile W self posts)).
Proof.
  intro Hsqrt. destruct posts as [| post posts].
  - unfold well_formed, is_class. simpl. repeat split; auto; lra.
  - rewrite analyze_profile_nonempty by discriminate.
    set (ps := post :: posts).
    pose proof (consistency_bounds W Hsqrt (post_labels W self ps)
                  (post_labels_nonempty W self ps ltac:(discriminate))
                  (post_labels_class W self ps)) as [Hlo Hhi].
    pose proof (sample_confidence_bounds ps ltac:(discriminate)) as [Hslo Hshi].
    unfold well_formed. cbn [classification confidence tag].
    split; [apply threshold_classification_class |].
    split; [| discriminate].
    split.
    + apply py_min_glb; [lra |]. rewrite Qhalf. lra.
    + pose proof (py_min_le_l 0.95
                    ((consistency_of W (post_labels W self ps)
                      + sample_confidence_of ps) / 2)).
      lra.
Qed.

Lemma _check_known_domain_stance_well_formed domain v :
  _check_known_domain_stance domain = Some v ->
  well_formed v /\ confidence v = 0.85.
Proof.
  unfold _check_known_domain_stance.
  destruct (member domain known_transphobic_domains).
  - intro H. injection H as <-. unfold well_formed, is_class. simpl.
    repeat split; auto; try lra; try discriminate.
  - destruct (member domain known_transfriendly_domains); [| discriminate].
    intro H. injection H as <-. unfold well_formed, is_class. simpl.
    repeat split; auto; try lra; try discriminate.
Qed.

Lemma _analyze_domain_content_well_formed W domain :
  well_formed (_analyze_domain_content W domain).
Proof.
  unfold _analyze_domain_content.
  destruct (_check_known_domain_stance domain) as [v |] eqn:Hk.
  - now apply _check_known_domain_stance_well_formed in Hk.
  - destruct (_fetch_cc_records_for_domain W domain) as [| r rs].
    + unfold well_formed, is_class. simpl. repeat split; auto; lra.
    + destruct (collect_contents W (firstn 3 (r :: rs))) as [| c cs].
      * unfold well_formed, is_class. simpl. repeat split; auto; lra.
      * set (t := count_in_contents W transphobic_patterns (c :: cs)).
        set (f := count_in_contents W friendly_patterns (c :: cs)).
        destruct (domain_pattern_verdict_bounds t f) as (Hc & Hlo & Hhi).
        unfold well_formed. rewrite domain_pattern_verdict_tag.
        repeat split; auto; try lra; try discriminate.
Qed.

Lemma analyze_single_url_well_formed W url cache :
  cache_ok cache ->
  well_formed (fst (analyze_single_url W url cache))
  /\ cache_ok (snd (analyze_single_url W url cache)).
Proof.
  intro Hc. unfold analyze_single_url.
  destruct (cache !! cache_key (_get_domain_from_url W url)) as [v |] eqn:E.
  - split; [| exact Hc]. exact (map_Forall_lookup_1 _ _ _ _ Hc E).
  - split; [apply _analyze_domain_content_well_formed |].
    apply map_Forall_insert_2; [apply _analyze_domain_content_well_formed | exact Hc].
Qed.

(** One turn of the loop keeps the results and the cache well formed. *)
Lemma visit_domain_well_formed W state domain :
  Forall (fun r => well_formed (snd r)) (fst state) ->
  cache_ok (snd state) ->
  Forall (fun r => well_formed (snd r)) (fst (visit_domain W state domain))
  /\ cache_ok (snd (visit_domain W state domain)).
Proof.
  destruct state as [results cache]. cbn [fst snd]. intros Hr Hc.
  unfold visit_domain.
  destruct (_check_known_domain_stance domain) as [v |] eqn:Hk.
  - cbn [fst snd]. split; [| exact Hc].
    apply Forall_app. split; [exact Hr |].
    constructor; [| constructor].
    now apply _check_known_domain_stance_well_formed in Hk.
  - destruct (5 <=? List.length results)%nat; [split; assumption |].
    destruct (cache !! cache_key domain) as [v |] eqn:E; cbn [fst snd].
    + split; [| exact Hc].
      apply Forall_app. split; [exact Hr |].
      constructor; [| constructor].
      exact (map_Forall_lookup_1 _ _ _ _ Hc E).
    + split.
      * apply Forall_app. split; [exact Hr |].
        constructor; [| constructor].
        apply _analyze_domain_content_well_formed.
      * apply map_Forall_insert_2;
          [apply _analyze_domain_content_well_formed | exact Hc].
Qed.

Lemma visit_domains_well_formed W domains state :
  Forall (fun r => well_formed (snd r)) (fst state) ->
  cache_ok (snd state) ->
  Forall (fun r => well_formed (snd r)) (fst (visit_domains W domains state))
  /\ cache_ok (snd (visit_domains W domains state)).
Proof.
  revert state. induction domains as [| d ds IH]; intros state Hr Hc.
  - split; assumption.
  - cbn [visit_domains fold_left].
    destruct (visit_domain_well_formed W state d Hr Hc) as [Hr' Hc'].
    exact (IH _ Hr' Hc').
Qed.

(** The sum of numbers between 0 and 1 lies between 0 and their
    count. *)
Lemma Qsum_unit_bounds (xs : list Q) :
  Forall (fun x => 0 <= x <= 1) xs ->
  0 <= Qsum xs <= Qnat (List.length xs).
Proof.
  induction 1 as [| x xs [Hlo Hhi] _ IH].
  - change (0 <= 0 <= 0). lra.
  - cbn [List.length]. rewrite Qsum_cons, Qnat_S. lra.
Qed.

Lemma aggregate_results_well_formed results :
  Forall (fun r => well_formed (snd r)) results ->
  well_formed (aggregate_results results).
Proof.
  intro Hr. destruct results as [| r rs].
  - unfold well_formed, is_class. simpl. repeat split; auto; lra.
  - unfold aggregate_results.
    set (confidences := map (fun r => confidence (snd r)) (r :: rs)).
    assert (Forall (fun x => 0 <= x <= 1) confidences) as Hall.
    { unfold confidences. apply List.Forall_map.
      eapply List.Forall_impl; [| exact Hr]. intros a Ha. apply Ha. }
    destruct (Qsum_unit_bounds confidences Hall) as [Hlo Hhi].
    assert (0 < Qnat (List.length confidences)) as Hn
      by (apply Qnat_pos; unfold confidences; simpl; lia).
    unfold well_formed. cbn [classification confidence tag].
    split; [apply threshold_classification_class |].
    split; [| discriminate].
    split.
    + apply Qle_shift_div_l; [assumption | lra].
    + apply Qle_shift_div_r; [assumption | lra].
Qed.

Lemma analyze_links_well_formed W links cache :
  cache_ok cache ->
  well_formed (fst (analyze_links W links cache))
  /\ cache_ok (snd (analyze_links W links cache)).
Proof.
  intro Hc. unfold analyze_links.
  destruct links as [| l ls].
  { split; [| exact Hc]. unfold well_formed, is_class. simpl.
    repeat split; auto; lra. }
  destruct (link_domains W (l :: ls)) as [| d ds].
  { split; [| exact Hc]. unfold well_formed, is_class. simpl.
    repeat split; auto; lra. }
  destruct (visit_domains_well_formed W (set_order W (d :: ds)) ([], cache)
              ltac:(constructor) Hc) as [Hr' Hc'].
  destruct (visit_domains W (set_order W (d :: ds)) ([], cache)) as [results cache'].
  cbn [fst snd] in *. split; [| exact Hc'].
  now apply aggregate_results_well_formed.
Qed.

(** The adjustment keeps the class and the range of the confidence. *)
Lemma adjust_in_range name primary secondary :
  well_formed primary -> well_formed secondary ->
  is_class (classification (result (adjust name primary secondary)))
  /\ 0 <= confidence (result (adjust name primary secondary)) <= 1.
Proof.
  intros (Hpc & Hpq & _) (Hsc & Hsq & _). unfold adjust.
  destruct (Qltb (confidence primary) 0.6 && Qltb 0.7 (confidence secondary));
    cbn [result classification confidence]; [| split; assumption].
  split; [assumption |]. rewrite Qhalf. lra.
Qed.

(** C6, as amended. Every verdict of [analyze_text], [analyze_profile],
    [_analyze_domain_content], [analyze_single_url] and [analyze_links]
    has a classification among 0, 1, 2 and a confidence in [0, 1], and
    carries a confidence of at most 0.1 when its tag is a no-data tag
    (the cache holding only verdicts of the resolver, and the square
    root of [np.std] being sound). The adjustment, and with it the
    reconciliation of both handlers, keeps the classification among
    0, 1, 2 and the confidence in [0, 1], and returns the primary verdict
    as it is when it does not override. *)
Theorem verdicts_well_formed (W : World) (self : ContentAnalyzer) :
  sqrt_sound W ->
  (forall text, well_formed (verdict_of (analyze_text W self text)))
  /\ (forall posts, well_formed (verdict_of (analyze_profile W self posts)))
  /\ (forall domain, well_formed (_analyze_domain_content W domain))
  /\ cache_ok ∅
  /\ (forall url cache,
        cache_ok cache ->
        well_formed (fst (analyze_single_url W url cache))
        /\ cache_ok (snd (analyze_single_url W url cache)))
  /\ (forall links cache,
        cache_ok cache ->
        well_formed (fst (analyze_links W links cache))
        /\ cache_ok (snd (analyze_links W links cache)))
  /\ (forall name primary secondary,
        well_formed primary -> well_formed secondary ->
        let r := adjust name primary secondary in
        is_class (classification (result r))
        /\ 0 <= confidence (result r) <= 1
        /\ (classification_adjusted_by r = None -> result r = primary))
  /\ (forall primary links cache,
        well_formed primary -> cache_ok cache ->
        let r := fst (reconcile_profile W primary links cache) in
        is_class (classification (result r))
        /\ 0 <= confidence (result r) <= 1
        /\ (classification_adjusted_by r = None -> result r = primary))
  /\ (forall primary url cache,
        well_formed primary -> cache_ok cache ->
        let r := fst (reconcile_url W primary url cache) in
        is_class (classification (result r))
        /\ 0 <= confidence (result r) <= 1
        /\ (classification_adjusted_by r = None -> result r = primary)).
Proof.
  intro Hsqrt.
  split; [apply analyze_text_well_formed |].
  split; [intro posts; now apply analyze_profile_well_formed |].
  split; [apply _analyze_domain_content_well_formed |].
  split; [apply map_Forall_empty |].
  split; [apply analyze_single_url_well_formed |].
  split; [apply analyze_links_well_formed |].
  assert (forall name primary secondary,
            well_formed primary -> well_formed secondary ->
            let r := adjust name primary secondary in
            is_class (classification (result r))
            /\ 0 <= confidence (result r) <= 1
            /\ (classification_adjusted_by r = None -> result r = primary))
    as Hadjust.
  { intros name primary secondary Hp Hs r.
    destruct (adjust_in_range name primary secondary Hp Hs) as [Hc Hq].
    split; [exact Hc |]. split; [exact Hq |].
    unfold r, adjust.
    destruct (Qltb (confidence primary) 0.6 && Qltb 0.7 (confidence secondary));
      cbn [result classification_adjusted_by]; [discriminate | reflexivity]. }
  split; [exact Hadjust |].
  split.
  - intros primary links cache Hp Hc. unfold reconcile_profile.
    destruct links as [| l ls].
    { cbn [fst result classification_adjusted_by].
      destruct Hp as (Hpc & Hpq & _). auto. }
    destruct (analyze_links_well_formed W (l :: ls) cache Hc) as [Hs _].
    destruct (analyze_links W (l :: ls) cache) as [cc_results cache'].
    cbn [fst] in *. now apply Hadjust.
  - intros primary url cache Hp Hc. unfold reconcile_url.
    destruct (analyze_single_url_well_formed W url cache Hc) as [Hs _].
    destruct (analyze_single_url W url cache) as [cc_result cache'].
    cbn [fst] in *. now apply Hadjust.
Qed.

Lemma verdicts_well_formed_witness :
  well_formed
    (verdict_of (analyze_profile quiet_world analyzer_without_ollama
                   ["hello world"; "Hi"]%string))
  /\ well_formed
       (fst (analyze_links quiet_world
               ["https://glaad.org/about"; "example.org"]%string ∅)).
Proof.
  pose proof (verdicts_well_formed quiet_world analyzer_without_ollama
                sqrt_down_sound)
    as (_ & Hprofile & _ & Hempty & _ & Hlinks & _ & _ & _).
  split.
  - apply Hprofile.
  - apply Hlinks. exact Hempty.
Defined.

(** C6, the claim as stated fails for the adjustment: a text too short
    to analyse, on a page of a listed domain, leaves [analyze_url] with a
    verdict that still carries the tag insufficient_text and has
    confidence 0.475. *)
Lemma adjusted_verdict_keeps_no_data_tag :
  let primary := verdict_of (analyze_text quiet_world analyzer_without_ollama "Hi") in
  let r := fst (reconcile_url quiet_world primary "https://glaad.org/about" ∅) in
  tag primary = insufficient_text
  /\ tag (result r) = insufficient_text
  /\ no_data (tag (result r)) = true
  /\ classification_adjusted_by r = Some "common_crawl"%string
  /\ confidence (result r) == 0.475
  /\ ~ confidence (result r) <= 0.1.
Proof.
  vm_compute. repeat split; try reflexivity.
  intro H. apply H. reflexivity.
Qed.

(* ===================================================================== *)
(** ** Domain normalisation *)
(* ===================================================================== *)

Lemma plain_char_true c :
  plain_char c = true ->
  Urllib.unsafe c = false /\ Urllib.delimiter c = false
  /\ Ascii.eqb c "[" = false /\ Ascii.eqb c "]" = false
  /\ PyStr.lower_char c = c.
Proof.
  unfold plain_char. rewrite !andb_true_iff, !negb_true_iff.
  intros ((((H1 & H2) & H3) & H4) & H5).
  apply Ascii.eqb_eq in H5. auto.
Qed.

Section PlainStrings.

Context (d : string) (Hplain : Urllib.all_chars plain_char d = true).

Lemma remove_unsafe_plain : Urllib.remove_unsafe d = d.
Proof using Hplain.
  induction d as [| c s IH]; [reflexivity |].
  cbn [Urllib.all_chars] in Hplain. apply andb_true_iff in Hplain.
  destruct Hplain as [Hc Hs]. apply plain_char_true in Hc.
  destruct Hc as (Hu & _). cbn [Urllib.remove_unsafe]. rewrite Hu.
  f_equal. exact (IH Hs).
Qed.

Lemma until_delimiter_plain : Urllib.until_delimiter d = d.
Proof using Hplain.
  induction d as [| c s IH]; [reflexivity |].
  cbn [Urllib.all_chars] in Hplain. apply andb_true_iff in Hplain.
  destruct Hplain as [Hc Hs]. apply plain_char_true in Hc.
  destruct Hc as (_ & Hd & _). cbn [Urllib.until_delimiter]. rewrite Hd.
  f_equal. exact (IH Hs).
Qed.

Lemma no_brackets_plain :
  PyStr.contains "[" d = false /\ PyStr.contains "]" d = false.
Proof using Hplain.
  induction d as [| c s IH]; [split; reflexivity |].
  cbn [Urllib.all_chars] in Hplain. apply andb_true_iff in Hplain.
  destruct Hplain as [Hc Hs]. apply plain_char_true in Hc.
  destruct Hc as (_ & _ & Ho & Hcl & _). destruct (IH Hs) as [IH1 IH2].
  cbn [PyStr.contains].
  rewrite (Ascii.eqb_sym "[" c), (Ascii.eqb_sym "]" c), Ho, Hcl, IH1, IH2.
  split; reflexivity.
Qed.

Lemma lower_plain : PyStr.lower d = d.
Proof using Hplain.
  induction d as [| c s IH]; [reflexivity |].
  cbn [Urllib.all_chars] in Hplain. apply andb_true_iff in Hplain.
  destruct Hplain as [Hc Hs]. apply plain_char_true in Hc.
  destruct Hc as (_ & _ & _ & _ & Hl). cbn [PyStr.lower]. rewrite Hl.
  f_equal. exact (IH Hs).
Qed.

End PlainStrings.

(** The network location of [https://] followed by a string. *)
Lemma netloc_https ok (d : string) :
  Urllib.netloc ok ("https://" ++ d)%string =
    let loc := Urllib.until_delimiter (Urllib.remove_unsafe d) in
    if PyStr.contains "[" loc && negb (PyStr.contains "]" loc)
       || PyStr.contains "]" loc && negb (PyStr.contains "[" loc)
    then None
    else if PyStr.contains "[" loc && PyStr.contains "]" loc then
      if ok (Urllib.before_char "]" (Urllib.after_char "[" loc))
      then Some loc else None
    else Some loc.
Proof. reflexivity. Qed.

Lemma _get_domain_from_url_normal W d :
  normal_domain d = true -> _get_domain_from_url W d = d.
Proof.
  unfold normal_domain. rewrite !andb_true_iff, !negb_true_iff.
  intros ((Hplain & Hwww) & Hhttp).
  unfold _get_domain_from_url. rewrite Hhttp, netloc_https. cbv zeta.
  rewrite (remove_unsafe_plain d Hplain), (until_delimiter_plain d Hplain).
  destruct (no_brackets_plain d Hplain) as [-> ->].
  cbn [andb orb negb]. rewrite (lower_plain d Hplain), Hwww. reflexivity.
Qed.

(** C10, as amended. Normalising a string that is in normal form (lower
    case, no leading [www.], no leading [http], none of the characters
    that [urlparse] reads as structure) gives the string back;
    ["WWW.Example.com"] and ["example.com"] have the same normal form,
    hence the same entry in the reputation lists and in the cache. *)
Theorem domain_normalization (W : World) :
  (forall d, normal_domain d = true -> _get_domain_from_url W d = d)
  /\ normal_domain "example.com" = true
  /\ _get_domain_from_url W "WWW.Example.com" = "example.com"%string
  /\ _get_domain_from_url W "example.com" = "example.com"%string
  /\ _check_known_domain_stance (_get_domain_from_url W "WWW.Example.com")
     = _check_known_domain_stance (_get_domain_from_url W "example.com")
  /\ (forall cache,
        analyze_single_url W "WWW.Example.com" cache
        = analyze_single_url W "example.com" cache).
Proof.
  split; [apply _get_domain_from_url_normal |].
  repeat split.
Qed.

(** C10, the claim as stated fails: only one leading [www.] is removed,
    so the normal form of ["www.www.example.com"] is not a fixed point. *)
Lemma www_is_stripped_once :
  _get_domain_from_url quiet_world "www.www.example.com" = "www.example.com"%string
  /\ _get_domain_from_url quiet_world
       (_get_domain_from_url quiet_world "www.www.example.com")
     = "example.com"%string.
Proof. split; reflexivity. Qed.

(** A host name that begins with [http] is read as a URL without a
    network location. *)
Example http_prefix_is_a_scheme :
  _get_domain_from_url quiet_world "httpbin.org" = ""%string.
Proof. reflexivity. Qed.

(* ===================================================================== *)
(** ** The link aggregator *)
(* ===================================================================== *)

Lemma visit_domain_results W state domain :
  fst (visit_domain W state domain) = (fst state ++ appended W state domain)%list.
Proof.
  destruct state as [results cache]. unfold visit_domain, appended. cbn [fst snd].
  destruct (_check_known_domain_stance domain); [reflexivity |].
  destruct (5 <=? List.length results)%nat; [cbn [fst]; now rewrite app_nil_r |].
  destruct (cache !! cache_key domain); reflexivity.
Qed.

Lemma visit_domains_app W before after state :
  visit_domains W (before ++ after) state
  = visit_domains W after (visit_domains W before state).
Proof. unfold visit_domains. apply fold_left_app. Qed.

(** The loop only appends; what it appends are domains of the list,
    among them every listed domain. *)
Lemma visit_domains_grow W domains state :
  exists added,
    fst (visit_domains W domains state) = (fst state ++ added)%list
    /\ (forall r, In r added -> In (fst r) domains)
    /\ (forall d, In d domains -> is_known d = true -> In d (map fst added))
    /\ (List.length (List.filter is_known domains) <= List.length added)%nat.
Proof.
  revert state. induction domains as [| d ds IH]; intro state.
  - exists []. cbn [visit_domains fold_left]. rewrite app_nil_r.
    split; [reflexivity |]. split; [intros r [] |]. split; [intros d [] |].
    reflexivity.
  - cbn [visit_domains fold_left].
    destruct (IH (visit_domain W state d)) as (added & Hres & Hin & Hknown & Hlen).
    fold (visit_domains W ds (visit_domain W state d)) in Hres.
    rewrite visit_domain_results, <- app_assoc in Hres.
    exists (appended W state d ++ added)%list.
    split; [exact Hres |].
    assert (forall r, In r (appended W state d) -> fst r = d) as Hd.
    { intro r. unfold appended.
      destruct (_check_known_domain_stance d); [intros [<- | []]; reflexivity |].
      destruct (5 <=? List.length (fst state))%nat; [intros [] |].
      destruct (snd state !! cache_key d); intros [<- | []]; reflexivity. }
    split; [| split].
    + intros r Hr. apply in_app_or in Hr. destruct Hr as [Hr | Hr].
      * left. symmetry. exact (Hd r Hr).
      * right. exact (Hin r Hr).
    + intros x [<- | Hx] Hk; rewrite map_app; apply in_or_app.
      * left. unfold appended. unfold is_known in Hk.
        destruct (_check_known_domain_stance d); [left; reflexivity | discriminate].
      * right. exact (Hknown x Hx Hk).
    + rewrite length_app. cbn [List.filter].
      destruct (is_known d) eqn:Hk; [| lia].
      cbn [List.length]. unfold appended. unfold is_known in Hk.
      destruct (_check_known_domain_stance d); [cbn [List.length]; lia | discriminate].
Qed.

(** The domains that the aggregate lists are those of the results. *)
Lemma analyzed_domains_aggregate results :
  analyzed_domains (aggregate_results results) = map fst results.
Proof.
  destruct results as [| r rs]; [reflexivity |].
  unfold aggregate_results, analyzed_domains. cbn [detail].
  rewrite map_map. reflexivity.
Qed.

Lemma analyze_links_domains W links cache :
  link_domains W links <> [] ->
  analyzed_domains (fst (analyze_links W links cache))
  = map fst (fst (visit_domains W (set_order W (link_domains W links)) ([], cache))).
Proof.
  intro Hne. unfold analyze_links.
  destruct links as [| l ls]; [exfalso; apply Hne; reflexivity |].
  destruct (link_domains W (l :: ls)) as [| d ds]; [congruence |].
  destruct (visit_domains W (set_order W (d :: ds)) ([], cache)) as [results cache'].
  cbn [fst]. apply analyzed_domains_aggregate.
Qed.

(** An unlisted domain is in the results exactly when fewer than five
    results had been gathered at its turn. *)
Lemma unknown_domain_visited W before d after cache :
  List.NoDup (before ++ d :: after) ->
  is_known d = false ->
  In d (map fst (fst (visit_domains W (before ++ d :: after) ([], cache))))
  <-> (List.length (fst (visit_domains W before ([], cache))) < 5)%nat.
Proof.
  intros Hnd Hk.
  pose proof (List.NoDup_remove_2 _ _ _ Hnd) as Hnotin.
  rewrite visit_domains_app. cbn [visit_domains fold_left].
  fold (visit_domains W before ([], cache)).
  fold (visit_domains W after (visit_domain W (visit_domains W before ([], cache)) d)).
  destruct (visit_domains_grow W before ([], cache)) as (seen & Hseen & Hin1 & _).
  cbn [fst app] in Hseen.
  destruct (visit_domains_grow W after
              (visit_domain W (visit_domains W before ([], cache)) d))
    as (rest & Hrest & Hin2 & _).
  rewrite Hrest, visit_domain_results, Hseen, !map_app.
  set (state := visit_domains W before ([], cache)) in *.
  assert (~ In d (map fst seen)) as Hs.
  { intro H. apply in_map_iff in H. destruct H as (r & <- & Hr).
    apply Hnotin. apply in_or_app. left. exact (Hin1 r Hr). }
  assert (~ In d (map fst rest)) as Hr.
  { intro H. apply in_map_iff in H. destruct H as (r & <- & Hr).
    apply Hnotin. apply in_or_app. right. exact (Hin2 r Hr). }
  unfold appended. unfold is_known in Hk.
  destruct (_check_known_domain_stance d); [discriminate |].
  rewrite Hseen.
  destruct (5 <=? List.length seen)%nat eqn:E.
  - apply Nat.leb_le in E. split; [| lia].
    intro H. exfalso.
    apply in_app_or in H. destruct H as [H | H]; [| tauto].
    apply in_app_or in H. destruct H as [H | []]. tauto.
  - apply Nat.leb_gt in E. split; [intros _; exact E |].
    intros _. apply in_or_app. left. apply in_or_app. right.
    destruct (snd state !! cache_key d); left; reflexivity.
Qed.

(** C4, as amended. In [analyze_links], whatever the order in which the
    set of domains is iterated: every domain of the known lists is
    included in the aggregate however many results are already
    gathered; a domain outside the lists is resolved exactly when fewer
    than 5 results of either kind have been gathered at its turn; and
    the results gathered count every known-list hit met so far, so these
    hits do count against the cap. *)
Theorem link_cap_counts_known_hits (W : World) (links : list string)
    (cache : gmap string Verdict) :
  link_domains W links <> [] ->
  let domains := set_order W (link_domains W links) in
  List.NoDup domains ->
  let analyzed := analyzed_domains (fst (analyze_links W links cache)) in
  let gathered before := fst (visit_domains W before ([], cache)) in
  (forall d, In d domains -> is_known d = true -> In d analyzed)
  /\ (forall before d after,
        domains = (before ++ d :: after)%list -> is_known d = false ->
        (In d analyzed <-> (List.length (gathered before) < 5)%nat))
  /\ (forall before,
        (List.length (List.filter is_known before)
         <= List.length (gathered before))%nat).
Proof.
  intros Hne domains Hnd analyzed gathered.
  unfold analyzed. rewrite (analyze_links_domains W links cache Hne).
  fold domains.
  split; [| split].
  - intros d Hin Hk.
    destruct (visit_domains_grow W domains ([], cache))
      as (added & Hres & _ & Hknown & _).
    rewrite Hres. cbn [fst app]. exact (Hknown d Hin Hk).
  - intros before d after Hdom Hk. rewrite Hdom in Hnd |- *.
    exact (unknown_domain_visited W before d after cache Hnd Hk).
  - intros before. unfold gathered.
    destruct (visit_domains_grow W before ([], cache))
      as (added & Hres & _ & _ & Hlen).
    rewrite Hres. exact Hlen.
Qed.

(** In the quiet world a set is iterated without repetition. *)
Lemma quiet_world_set_order_NoDup (added : list string) :
  List.NoDup (set_order quiet_world added).
Proof.
  cbn [set_order quiet_world]. apply List.NoDup_rev. apply List.NoDup_nodup.
Qed.

Lemma link_cap_counts_known_hits_witness :
  let analyzed :=
    analyzed_domains (fst (analyze_links quiet_world five_listed_and_one ∅)) in
  In "glsen.org"%string analyzed
  /\ (In "example.org"%string analyzed
      <-> (List.length
             (fst (visit_domains quiet_world
                     ["glaad.org"; "pflag.org"; "tgeu.org"; "glsen.org"; "them.us"]%string
                     ([], ∅))) < 5)%nat).
Proof.
  pose proof (link_cap_counts_known_hits quiet_world five_listed_and_one ∅
                ltac:(vm_compute; discriminate)
                (quiet_world_set_order_NoDup _))
    as (Hknown & Hunknown & _).
  split.
  - apply Hknown; [vm_compute; tauto | reflexivity].
  - apply (Hunknown
             ["glaad.org"; "pflag.org"; "tgeu.org"; "glsen.org"; "them.us"]%string
             "example.org"%string []);
      reflexivity.
Defined.

(** C4, the claim as stated fails: after five known-list hits the
    unlisted domain is skipped, although no unlisted domain has been
    resolved before it. *)
Lemma known_hits_fill_the_cap :
  set_order quiet_world (link_domains quiet_world five_listed_and_one)
  = ["glaad.org"; "pflag.org"; "tgeu.org"; "glsen.org"; "them.us";
     "example.org"]%string
  /\ is_known "example.org" = false
  /\ List.filter (fun d => negb (is_known d))
       ["glaad.org"; "pflag.org"; "tgeu.org"; "glsen.org"; "them.us"]%string
     = []
  /\ analyzed_domains (fst (analyze_links quiet_world five_listed_and_one ∅))
     = ["glaad.org"; "pflag.org"; "tgeu.org"; "glsen.org"; "them.us"]%string.
Proof. repeat split; reflexivity. Qed.

(* ===================================================================== *)
(** ** The singled-out values on binary64 numbers *)
(* ===================================================================== *)

Module Binary64Checks.

Import Binary64.
#[local] Set Warnings "-inexact-float".
#[local] Open Scope float_scope.

(** A primary confidence of 0.6 is not below 0.6. *)
Example no_override_at_boundary : overrides 0.6 0.95 = false.
Proof. reflexivity. Qed.

Example override_mean :
  overrides 0.5 0.75 = true /\ (adjusted_confidence 0.5 0.75 =? 0.625) = true.
Proof. split; reflexivity. Qed.

(** The confidence of a profile of one post. *)
Example single_post_confidence : (profile_confidence 1.0 1 =? 0.55) = true.
Proof. reflexivity. Qed.

(** The ratios 7/10 and 3/10 are the numbers 0.7 and 0.3: gray area. *)
Example boundary_ratios :
  (text_confidence 7 10 =? 0.3) = true /\ (text_confidence 3 10 =? 0.3) = true
  /\ (domain_confidence 7 10 =? 0.3) = true
  /\ (domain_confidence 3 10 =? 0.3) = true.
Proof. repeat split; reflexivity. Qed.

(** The two shapings at ratio 1. *)
Example shapings_differ :
  (text_confidence 1 1 =? 0.95) = true /\ (domain_confidence 1 1 =? 0.8) = true.
Proof. split; reflexivity. Qed.

(** An overridden no-data verdict. *)
Example overridden_no_data :
  overrides 0.1 0.85 = true /\ (0.1 <? adjusted_confidence 0.1 0.85) = true.
Proof. split; reflexivity. Qed.

(** On a threshold of the weighted mean the rounding decides. One label
    2 among five of the same weight has the mean 2/5 in exact arithmetic,
    which is not below 0.4; for the weight 0.85 of the listed domains the
    binary64 mean is below it, for the weight 0.8 of the model it is
    not. The properties of the aggregates are stated away from the
    thresholds. *)
Example mean_of_one_in_five :
  (weighted_average [2; 0; 0; 0; 0] [0.85; 0.85; 0.85; 0.85; 0.85] <? 0.4) = true
  /\ (weighted_average [2; 0; 0; 0; 0] [0.8; 0.8; 0.8; 0.8; 0.8] <? 0.4) = false
  /\ (weighted_average [2; 2; 2; 2; 2] [0.85; 0.85; 0.85; 0.85; 0.85] =? 2) = true
  /\ (weighted_average [0; 0; 0; 0; 0] [0.85; 0.85; 0.85; 0.85; 0.85] =? 0) = true.
Proof. repeat split; reflexivity. Qed.

(** The same on the threshold 0.7 of the adjustment: for nine
    transphobic matches in ten the domain-level shaping gives 0.5 + 0.2
    in exact arithmetic and a number above 0.7 in binary64. *)
Example domain_confidence_of_nine_in_ten :
  (0.7 <? domain_confidence 9 10) = true
  /\ (domain_confidence 9 10 <? 0.71) = true.
Proof. split; reflexivity. Qed.

End Binary64Checks.

(* ===================================================================== *)
(** ** Further properties *)
(* ===================================================================== *)

(** X1. No domain is in both reputation lists. *)
Theorem known_lists_disjoint (d : string) :
  member d known_transphobic_domains && member d known_transfriendly_domains
  = false.
Proof.
  destruct (member d known_transphobic_domains) eqn:E; [| reflexivity].
  unfold member in E. apply existsb_exists in E.
  destruct E as (x & Hin & Heq). apply String.eqb_eq in Heq. subst x.
  cbn [known_transphobic_domains In] in Hin.
  repeat (destruct Hin as [<- | Hin]; [reflexivity |]).
  destruct Hin.
Qed.

(** X2. The resolver keeps what it found: a second resolution of a URL
    returns the verdict of the first and leaves the cache as it is. *)
Theorem resolution_is_memoized (W : World) (url : string)
    (cache : gmap string Verdict) :
  let first := analyze_single_url W url cache in
  analyze_single_url W url (snd first) = (fst first, snd first).
Proof.
  intro first. unfold first, analyze_single_url.
  destruct (cache !! cache_key (_get_domain_from_url W url)) as [v |] eqn:E;
    cbn [fst snd].
  - rewrite E. reflexivity.
  - rewrite lookup_insert_eq. reflexivity.
Qed.

(** X3. Only the first 20 posts of a profile are analysed. *)
Theorem profile_reads_twenty_posts (W : World) (self : ContentAnalyzer)
    (posts : list string) :
  calls (analyze_profile W self posts)
  = flat_map (fun post => calls (analyze_text W self post)) (firstn 20 posts).
Proof.
  destruct posts as [| post posts]; [reflexivity |].
  unfold analyze_profile. rewrite calls_bind, calls_mapT.
  cbn [ret calls snd]. apply app_nil_r.
Qed.

(* ===================================================================== *)
(** ** Further properties: the calls of the text classifier *)
(* ===================================================================== *)

Lemma take_length (n : N) (s : string) :
  (N.of_nat (String.length (PyStr.take n s)) <= n)%N.
Proof.
  revert n. induction s as [| c s IH]; intro n; cbn [PyStr.take].
  - cbn. lia.
  - destruct (n =? 0)%N eqn:E; [cbn; lia |].
    apply N.eqb_neq in E. cbn [String.length].
    specialize (IH (N.pred n)). lia.
Qed.

Lemma model_inputs_app cs1 cs2 :
  model_inputs (cs1 ++ cs2) = (model_inputs cs1 ++ model_inputs cs2)%list.
Proof. apply flat_map_app. Qed.

(** The calls of [analyze_text], by the way out it takes. *)
Lemma analyze_text_calls W self text :
  let processed := preprocess_text W self text in
  let input := PyStr.take 8000 processed in
  let r := analyze_text W self text in
  (calls r = [] /\ tag (verdict_of r) = insufficient_text)
  \/ (ollama_available self = true
      /\ calls r = [CallOllama input] /\ tag (verdict_of r) = ollama)
  \/ (ollama_available self = true
      /\ calls r = [CallOllama input; CallPatterns processed]
      /\ tag (verdict_of r) = pattern_matching)
  \/ (ollama_available self = false
      /\ calls r = [CallPatterns processed]
      /\ tag (verdict_of r) = pattern_matching).
Proof.
  intros processed input r. unfold r, analyze_text.
  destruct (negb (PyStr.truthy text) || _); [left; split; reflexivity |].
  right. fold processed. fold input.
  destruct (ollama_available self) eqn:Hav.
  - unfold bind, invoke, ret.
    destruct (analyze_with_ollama W self input) as [v |] eqn:E.
    + left. apply analyze_with_ollama_some in E. destruct E as (_ & _ & Ht).
      repeat split. exact Ht.
    + right. left. repeat split. apply pattern_verdict_tag.
  - right. right. repeat split. apply pattern_verdict_tag.
Qed.

(** The calls of one text: at most one of each kind, the model never
    when it is not available and with at most 8000 characters. *)
Lemma analyze_text_budget W self text :
  let r := analyze_text W self text in
  (List.length (model_inputs (calls r)) <= 1)%nat
  /\ (List.length (pattern_inputs (calls r)) <= 1)%nat
  /\ Forall (fun input => (N.of_nat (String.length input) <= 8000)%N)
            (model_inputs (calls r))
  /\ (ollama_available self = false -> model_inputs (calls r) = [])
  /\ (tag (verdict_of r) = pattern_matching
      <-> List.length (pattern_inputs (calls r)) = 1%nat).
Proof.
  intro r.
  destruct (analyze_text_calls W self text)
    as [[Hc Ht] | [(Hav & Hc & Ht) | [(Hav & Hc & Ht) | (Hav & Hc & Ht)]]];
    fold r in Hc, Ht; rewrite Hc, Ht; cbn [model_inputs pattern_inputs flat_map app List.length].
  - repeat split; try lia; try constructor; try discriminate.
  - repeat split; try lia; try discriminate; try congruence.
    constructor; [apply take_length | constructor].
  - repeat split; try lia; try congruence.
    constructor; [apply take_length | constructor].
  - repeat split; try lia; try constructor.
Qed.

(** The calls of a profile are those of its first 20 posts. *)
Lemma analyze_profile_calls W self posts :
  calls (analyze_profile W self posts)
  = flat_map (fun post => calls (analyze_text W self post)) (firstn 20 posts).
Proof.
  destruct posts as [| post posts]; [reflexivity |].
  unfold analyze_profile. rewrite calls_bind, calls_mapT.
  cbn [ret calls snd]. apply app_nil_r.
Qed.

(** X4. The model is called at most once for a text, never when it is not
    available, and with at most 8000 characters; the pattern matcher is
    called at most once, exactly when the verdict is its own. A profile
    costs at most 20 calls of the model, however many posts it has. *)
Theorem model_call_budget (W : World) (self : ContentAnalyzer) :
  (forall text,
      let r := analyze_text W self text in
      (List.length (model_inputs (calls r)) <= 1)%nat
      /\ (List.length (pattern_inputs (calls r)) <= 1)%nat
      /\ Forall (fun input => (N.of_nat (String.length input) <= 8000)%N)
                (model_inputs (calls r))
      /\ (ollama_available self = false -> model_inputs (calls r) = [])
      /\ (tag (verdict_of r) = pattern_matching
          <-> List.length (pattern_inputs (calls r)) = 1%nat))
  /\ (forall posts,
        let r := analyze_profile W self posts in
        (List.length (model_inputs (calls r)) <= 20)%nat
        /\ (List.length (model_inputs (calls r)) <= List.length posts)%nat
        /\ Forall (fun input => (N.of_nat (String.length input) <= 8000)%N)
                  (model_inputs (calls r))).
Proof.
  split; [apply analyze_text_budget |].
  intros posts r. unfold r. rewrite analyze_profile_calls.
  assert (forall l : list string,
            (List.length (model_inputs
               (flat_map (fun post => calls (analyze_text W self post)) l))
             <= List.length l)%nat
            /\ Forall (fun input => (N.of_nat (String.length input) <= 8000)%N)
                 (model_inputs
                    (flat_map (fun post => calls (analyze_text W self post)) l)))
    as Hall.
  { induction l as [| post l [IH1 IH2]]; [split; [cbn; lia | constructor] |].
    cbn [flat_map]. rewrite model_inputs_app, length_app.
    destruct (analyze_text_budget W self post) as (H1 & _ & H3 & _).
    split; [cbn [List.length]; lia |].
    apply Forall_app. split; assumption. }
  destruct (Hall (firstn 20 posts)) as [H1 H2].
  rewrite length_firstn in H1.
  split; [lia |]. split; [lia | exact H2].
Qed.

(* ===================================================================== *)
(** ** Further properties: the profile aggregator *)
(* ===================================================================== *)

(** The weighted mean of verdicts that share a label is the label. *)
Lemma weighted_average_unanimous (c : Z) (vs : list Verdict) :
  vs <> [] ->
  Forall (fun v => classification v = c /\ 0.1 <= confidence v) vs ->
  weighted_average (map classification vs) (map confidence vs) == inject_Z c.
Proof.
  intros Hne Hall. unfold weighted_average.
  assert (Qsum (map (fun '(c, conf) => inject_Z c * conf)
                    (combine (map classification vs) (map confidence vs)))
          == inject_Z c * Qsum (map confidence vs)
          /\ Qnat (List.length vs) * 0.1 <= Qsum (map confidence vs)) as [Hsum Hpos].
  { clear Hne. induction Hall as [| v vs [Hc Hq] _ [IH1 IH2]].
    - split; [cbn; ring | change (0 * 0.1 <= 0); lra].
    - cbn [map combine List.length]. rewrite !Qsum_cons, Qnat_S, IH1, Hc.
      split; [ring | lra]. }
  assert (0 < Qsum (map confidence vs)) as Htot.
  { assert (1 <= Qnat (List.length vs)).
    { change 1 with (Qnat 1). apply Qnat_le.
      destruct vs; [congruence | cbn; lia]. }
    lra. }
  apply Qltb_true in Htot as Hb. rewrite Hb, Hsum. field. lra.
Qed.

(** The standard deviation of equal numbers is zero. *)
Lemma np_std_constant W (c : Q) (xs : list Q) :
  sqrt_sound W -> xs <> [] -> Forall (fun x => x == c) xs ->
  np_std W xs == 0.
Proof.
  intros Hsqrt Hne Hall.
  assert (0 < Qnat (List.length xs)) as Hn
    by (apply Qnat_pos; destruct xs; [congruence | cbn; lia]).
  assert (Qsum xs == Qnat (List.length xs) * c) as Hsum.
  { clear Hne Hn. induction Hall as [| x xs Hx _ IH].
    - change (0 == 0 * c). ring.
    - cbn [List.length]. rewrite Qsum_cons, Qnat_S, IH, Hx. ring. }
  assert (np_mean xs == c) as Hmean.
  { unfold np_mean. rewrite Hsum. field. lra. }
  unfold np_std. revert Hmean. generalize (np_mean xs). intros m Hmean.
  assert (Qsum (map (fun x => (x - m) * (x - m)) xs) == 0) as Hdev.
  { clear Hne Hn Hsum. induction Hall as [| x xs Hx _ IH].
    - reflexivity.
    - cbn [map]. rewrite Qsum_cons, IH, Hx, Hmean. ring. }
  set (v := np_mean (map (fun x => (x - m) * (x - m)) xs)).
  assert (v == 0) as Hv.
  { unfold v, np_mean. rewrite Hdev, length_map. field. lra. }
  assert (0 <= v) as Hlo by lra.
  destruct (Hsqrt v Hlo) as (_ & H0 & _). exact (H0 Hv).
Qed.

(** [min(1.0, len(posts) / 10.0)] is 1 from 10 posts on. *)
Lemma sample_confidence_full posts :
  (10 <= List.length posts)%nat -> sample_confidence_of posts = 1.
Proof.
  intro H. unfold sample_confidence_of, py_min.
  assert (Qltb (Qnat (List.length posts) / 10) 1 = false) as ->; [| reflexivity].
  apply Qltb_false. apply Qle_shift_div_l; [reflexivity |].
  change (1 * 10) with (Qnat 10). now apply Qnat_le.
Qed.

(** X5. When every analysed post gets the same label, the profile gets that
    label with consistency 1; from 10 posts on its confidence is
    0.95. *)
Theorem unanimous_profile (W : World) (self : ContentAnalyzer)
    (posts : list string) (c : Z) :
  sqrt_sound W ->
  posts <> [] ->
  Forall (fun post => classification (verdict_of (analyze_text W self post)) = c)
         (firstn 20 posts) ->
  let p := verdict_of (analyze_profile W self posts) in
  classification p = c
  /\ (exists consistency,
        reported_consistency p = Some consistency /\ consistency == 1)
  /\ ((10 <= List.length posts)%nat -> confidence p == 0.95).
Proof.
  intros Hsqrt Hne Hall p. unfold p.
  rewrite (analyze_profile_nonempty W self posts Hne).
  cbn [classification confidence reported_consistency detail].
  assert (post_verdicts W self posts <> []) as Hvne.
  { unfold post_verdicts. destruct posts; [congruence | cbn; discriminate]. }
  assert (Forall (fun v => classification v = c /\ 0.1 <= confidence v)
                 (post_verdicts W self posts)) as Hvs.
  { unfold post_verdicts. apply List.Forall_map.
    eapply List.Forall_impl; [| exact Hall].
    intros post Hp. split; [exact Hp | apply analyze_text_confidence_pos]. }
  assert (is_class c) as Hc.
  { pose proof (post_labels_class W self posts) as Hcl.
    unfold post_labels in Hcl.
    destruct (post_verdicts W self posts) as [| v vs]; [congruence |].
    inversion Hvs as [| ? ? [Hv _] _]; subst.
    inversion Hcl; subst. assumption. }
  assert (consistency_of W (post_labels W self posts) == 1) as Hcons.
  { unfold consistency_of.
    rewrite (np_std_constant W (inject_Z c)); [field | exact Hsqrt | |].
    - unfold post_labels.
      destruct (post_verdicts W self posts); [congruence | cbn; discriminate].
    - unfold post_labels. rewrite map_map. apply List.Forall_map.
      eapply List.Forall_impl; [| exact Hvs].
      intros v [Hv _]. cbn. rewrite Hv. reflexivity. }
  split; [| split].
  - apply threshold_classification_label; [exact Hc |].
    unfold post_labels. now apply weighted_average_unanimous.
  - eexists. split; [reflexivity | exact Hcons].
  - intro Hlen. rewrite py_min_Qmin, Hcons, (sample_confidence_full posts Hlen).
    reflexivity.
Qed.

Lemma unanimous_profile_witness :
  let posts := ["hello world"; "good morning"; "see you soon"]%string in
  let p := verdict_of (analyze_profile quiet_world analyzer_without_ollama posts) in
  classification p = 1%Z
  /\ (exists consistency,
        reported_consistency p = Some consistency /\ consistency == 1)
  /\ ((10 <= List.length posts)%nat -> confidence p == 0.95).
Proof.
  apply (unanimous_profile quiet_world analyzer_without_ollama
           ["hello world"; "good morning"; "see you soon"]%string 1%Z
           sqrt_down_sound).
  - discriminate.
  - repeat constructor.
Defined.

Lemma Qnat_lt_inv n m : Qnat n < Qnat m -> (n < m)%nat.
Proof. unfold Qnat, Qlt. cbn. lia. Qed.

(** The confidence of a profile that has posts, from the consistency and
    the number of posts. *)
Lemma profile_confidence_facts W self posts :
  sqrt_sound W -> posts <> [] ->
  let c := confidence (verdict_of (analyze_profile W self posts)) in
  0.3 <= c <= 0.95
  /\ ((10 <= List.length posts)%nat -> 0.75 <= c)
  /\ (c < 0.6 -> (List.length posts < 7)%nat)
  /\ (0.8 < c -> (7 <= List.length posts)%nat).
Proof.
  intros Hsqrt Hne c. unfold c.
  rewrite (analyze_profile_nonempty W self posts Hne). cbn [confidence].
  pose proof (consistency_bounds W Hsqrt (post_labels W self posts)
                (post_labels_nonempty W self posts Hne)
                (post_labels_class W self posts)) as [Hlo Hhi].
  pose proof (sample_confidence_bounds posts Hne) as [Hslo Hshi].
  set (cons := consistency_of W (post_labels W self posts)) in *.
  assert (sample_confidence_of posts == Qmin 1 (Qnat (List.length posts) / 10)) as Hs
    by apply py_min_Qmin.
  set (sc := sample_confidence_of posts) in *.
  rewrite py_min_Qmin.
  assert ((cons + sc) / 2 == (cons + sc) * (1 # 2)) as Hhalf by apply Qhalf.
  set (x := (cons + sc) / 2) in *.
  repeat split.
  - apply Q.min_glb; lra.
  - apply Q.le_min_l.
  - intro Hlen. unfold sc in Hhalf. rewrite (sample_confidence_full posts Hlen) in Hhalf.
    apply Q.min_glb; lra.
  - intro Hc.
    assert (x < 0.6) as Hx.
    { destruct (Q.min_spec 0.95 x) as [[_ E] | [_ E]]; rewrite E in Hc; lra. }
    assert (Qnat (List.length posts) / 10 < 0.7) as Hn.
    { destruct (Q.min_spec 1 (Qnat (List.length posts) / 10)) as [[_ E] | [_ E]];
        rewrite E in Hs; lra. }
    apply Qnat_lt_inv.
    assert (Qnat (List.length posts) / 10 == Qnat (List.length posts) * (1 # 10)) as E
      by field.
    rewrite E in Hn. change (Qnat 7) with 7. lra.
  - intro Hc.
    assert (0.8 < x) as Hx.
    { pose proof (Q.le_min_r 0.95 x). lra. }
    assert (0.6 < Qnat (List.length posts) / 10) as Hn.
    { pose proof (Q.le_min_r 1 (Qnat (List.length posts) / 10)). lra. }
    assert (Qnat (List.length posts) / 10 == Qnat (List.length posts) * (1 # 10)) as E
      by field.
    rewrite E in Hn.
    assert (Qnat 6 < Qnat (List.length posts)) as H6 by (change (Qnat 6) with 6; lra).
    apply Qnat_lt_inv in H6. lia.
Qed.

(** X6. The confidence of a profile that has posts lies between 0.3 and
    0.95, and is at least 0.75 from 10 posts on; it is below 0.6 only
    with fewer than 7 posts and above 0.8 only with 7 or more. *)
Theorem profile_confidence_range (W : World) (self : ContentAnalyzer)
    (posts : list string) :
  sqrt_sound W ->
  posts <> [] ->
  let c := confidence (verdict_of (analyze_profile W self posts)) in
  0.3 <= c <= 0.95
  /\ ((10 <= List.length posts)%nat -> 0.75 <= c)
  /\ (c < 0.6 -> (List.length posts < 7)%nat)
  /\ (0.8 < c -> (7 <= List.length posts)%nat).
Proof. apply profile_confidence_facts. Qed.

Lemma profile_confidence_range_witness :
  let posts := ["hello world"; "good morning"; "see you soon"]%string in
  let c := confidence (verdict_of (analyze_profile quiet_world analyzer_without_ollama posts)) in
  0.3 <= c <= 0.95
  /\ ((10 <= List.length posts)%nat -> 0.75 <= c)
  /\ (c < 0.6 -> (List.length posts < 7)%nat)
  /\ (0.8 < c -> (7 <= List.length posts)%nat).
Proof.
  apply (profile_confidence_range quiet_world analyzer_without_ollama
           ["hello world"; "good morning"; "see you soon"]%string
           sqrt_down_sound).
  discriminate.
Defined.

(** X7. The linked sites can change the classification of a profile only
    when it has fewer than 7 posts. *)
Theorem override_needs_short_profile (W : World) (self : ContentAnalyzer)
    (posts links : list string) (cache : gmap string Verdict) :
  sqrt_sound W ->
  classification_adjusted_by
    (fst (reconcile_profile W (verdict_of (analyze_profile W self posts)) links cache))
  <> None ->
  (List.length posts < 7)%nat.
Proof.
  intros Hsqrt Hadj.
  destruct posts as [| post posts]; [cbn; lia |].
  set (ps := post :: posts) in *.
  destruct (profile_confidence_facts W self ps Hsqrt ltac:(discriminate))
    as (_ & _ & Hshort & _).
  apply Hshort.
  unfold reconcile_profile in Hadj.
  destruct links as [| l ls]; [cbn in Hadj; congruence |].
  destruct (analyze_links W (l :: ls) cache) as [cc cache']. cbn [fst] in Hadj.
  unfold adjust in Hadj.
  destruct (Qltb_cases (confidence (verdict_of (analyze_profile W self ps))) 0.6)
    as [[_ H] | [E _]]; [exact H |].
  rewrite E in Hadj. cbn in Hadj. congruence.
Qed.

Lemma override_needs_short_profile_witness :
  classification_adjusted_by
    (fst (reconcile_profile quiet_world
            (verdict_of (analyze_profile quiet_world analyzer_without_ollama ["Hi"%string]))
            ["https://glaad.org/about"%string] ∅))
  = Some "linked_sites"%string
  /\ (List.length ["Hi"%string] < 7)%nat.
Proof.
  split; [reflexivity |].
  apply (override_needs_short_profile quiet_world analyzer_without_ollama
           ["Hi"%string] ["https://glaad.org/about"%string] ∅ sqrt_down_sound).
  vm_compute. discriminate.
Defined.

(** X8. Posts after the twentieth change nothing but the sample size that is
    reported: classification, confidence, consistency and calls are
    those of the first 20 posts. *)
Theorem later_posts_are_ignored (W : World) (self : ContentAnalyzer)
    (posts : list string) :
  let p := analyze_profile W self posts in
  let q := analyze_profile W self (firstn 20 posts) in
  classification (verdict_of p) = classification (verdict_of q)
  /\ confidence (verdict_of p) = confidence (verdict_of q)
  /\ reported_consistency (verdict_of p) = reported_consistency (verdict_of q)
  /\ calls p = calls q.
Proof.
  intros p q. unfold p, q.
  destruct (le_lt_dec (List.length posts) 20) as [Hle | Hgt].
  { rewrite firstn_all2 by exact Hle. repeat split. }
  assert (posts <> []) as Hne by (destruct posts; [cbn in Hgt; lia | discriminate]).
  assert (firstn 20 posts <> []) as Hne'.
  { destruct posts; [congruence | cbn; discriminate]. }
  rewrite !analyze_profile_calls.
  rewrite (analyze_profile_nonempty W self posts Hne).
  rewrite (analyze_profile_nonempty W self (firstn 20 posts) Hne').
  unfold post_labels, post_verdicts.
  rewrite firstn_firstn. change (Init.Nat.min 20 20) with 20%nat.
  cbn [classification confidence reported_consistency detail].
  rewrite (sample_confidence_full posts) by lia.
  rewrite (sample_confidence_full (firstn 20 posts))
    by (rewrite length_firstn; lia).
  repeat split.
Qed.

(* ===================================================================== *)
(** ** Further properties: the link aggregator and its cache *)
(* ===================================================================== *)

Lemma cache_key_inj d d' : cache_key d = cache_key d' -> d = d'.
Proof. unfold cache_key. cbn. intro H. now injection H. Qed.

Lemma unlisted_results_app r1 r2 :
  unlisted_results (r1 ++ r2) = (unlisted_results r1 ++ unlisted_results r2)%list.
Proof. apply List.filter_app. Qed.

(** One turn of the loop: the cache only grows, by at most the entry of
    an unlisted domain that is appended to the results, and the results
    for unlisted domains never pass five. *)
Lemma visit_domain_frugal W state domain :
  (List.length (unlisted_results (fst state)) <= 5)%nat ->
  let state' := visit_domain W state domain in
  snd state ⊆ snd state'
  /\ (forall d, is_known d = true ->
        snd state' !! cache_key d = snd state !! cache_key d)
  /\ (List.length (unlisted_results (fst state')) <= 5)%nat
  /\ (size (snd state') + List.length (unlisted_results (fst state))
      <= size (snd state) + List.length (unlisted_results (fst state')))%nat.
Proof.
  destruct state as [results cache]. cbv zeta. cbn [fst snd]. intros Hfive.
  unfold visit_domain.
  pose proof (List.filter_length_le (fun r => negb (is_known (fst r))) results) as Hle.
  fold (unlisted_results results) in Hle.
  destruct (_check_known_domain_stance domain) as [v |] eqn:Hk.
  - cbn [fst snd]. rewrite unlisted_results_app, length_app.
    cbn [unlisted_results List.filter fst]. unfold is_known. rewrite Hk.
    cbn [negb List.length]. repeat split; try reflexivity; lia.
  - destruct (5 <=? List.length results)%nat eqn:E; cbn [fst snd].
    { repeat split; try reflexivity; lia. }
    apply Nat.leb_gt in E.
    assert (is_known domain = false) as Hk' by (unfold is_known; now rewrite Hk).
    destruct (cache !! cache_key domain) as [v |] eqn:Hc; cbn [fst snd];
      rewrite unlisted_results_app, length_app;
      cbn [unlisted_results List.filter fst]; rewrite Hk'; cbn [negb List.length].
    + repeat split; try reflexivity; lia.
    + split; [now apply insert_subseteq |].
      split.
      * intros d Hd. apply lookup_insert_ne. intro Heq.
        apply cache_key_inj in Heq. subst d. congruence.
      * rewrite map_size_insert_None by exact Hc. lia.
Qed.

Lemma visit_domains_frugal W domains state :
  (List.length (unlisted_results (fst state)) <= 5)%nat ->
  let state' := visit_domains W domains state in
  snd state ⊆ snd state'
  /\ (forall d, is_known d = true ->
        snd state' !! cache_key d = snd state !! cache_key d)
  /\ (List.length (unlisted_results (fst state')) <= 5)%nat
  /\ (size (snd state') + List.length (unlisted_results (fst state))
      <= size (snd state) + List.length (unlisted_results (fst state')))%nat.
Proof.
  revert state. induction domains as [| d ds IH]; intros state Hfive.
  - cbn. repeat split; try reflexivity; lia.
  - cbn [visit_domains fold_left].
    destruct (visit_domain_frugal W state d Hfive) as (H1 & H2 & H3 & H4).
    destruct (IH (visit_domain W state d) H3) as (I1 & I2 & I3 & I4).
    fold (visit_domains W ds (visit_domain W state d)).
    cbv zeta in I1, I2, I3, I4.
    split; [etransitivity; eassumption |].
    split; [intros x Hx; rewrite (I2 x Hx); exact (H2 x Hx) |].
    split; [exact I3 | lia].
Qed.

Lemma unlisted_results_names results :
  map fst (unlisted_results results)
  = List.filter (fun d => negb (is_known d)) (map fst results).
Proof.
  induction results as [| r rs IH]; [reflexivity |].
  cbn [unlisted_results List.filter map].
  destruct (negb (is_known (fst r))); cbn [map]; [f_equal |]; exact IH.
Qed.

(** X9. [analyze_links] resolves at most 5 domains outside the lists and
    adds at most 5 entries to the cache; it never changes or removes an
    entry, and never stores a listed domain. *)
Theorem link_resolution_is_frugal (W : World) (links : list string)
    (cache : gmap string Verdict) :
  let r := analyze_links W links cache in
  (List.length (List.filter (fun d => negb (is_known d)) (analyzed_domains (fst r)))
   <= 5)%nat
  /\ cache ⊆ snd r
  /\ (size (snd r) <= size cache + 5)%nat
  /\ (forall d, is_known d = true -> snd r !! cache_key d = cache !! cache_key d).
Proof.
  intro r. unfold r, analyze_links.
  destruct links as [| l ls].
  { cbn. repeat split; try reflexivity; lia. }
  destruct (link_domains W (l :: ls)) as [| d ds].
  { cbn. repeat split; try reflexivity; lia. }
  destruct (visit_domains_frugal W (set_order W (d :: ds)) ([], cache)
              ltac:(cbn; lia)) as (H1 & H2 & H3 & H4).
  destruct (visit_domains W (set_order W (d :: ds)) ([], cache)) as [results cache'].
  cbn [fst snd] in *. rewrite analyzed_domains_aggregate.
  rewrite <- unlisted_results_names, length_map.
  repeat split; try assumption. lia.
Qed.

(** X10. [analyze_single_url] never changes or removes an entry either. *)
Theorem resolver_cache_only_grows (W : World) (url : string)
    (cache : gmap string Verdict) :
  cache ⊆ snd (analyze_single_url W url cache)
  /\ (size (snd (analyze_single_url W url cache)) <= size cache + 1)%nat
  /\ snd (analyze_single_url W url cache) !! cache_key (_get_domain_from_url W url)
     = Some (fst (analyze_single_url W url cache)).
Proof.
  unfold analyze_single_url.
  destruct (cache !! cache_key (_get_domain_from_url W url)) as [v |] eqn:E;
    cbn [fst snd].
  - repeat split; [reflexivity | lia | exact E].
  - split; [now apply insert_subseteq |].
    split; [rewrite map_size_insert_None by exact E; lia |].
    apply lookup_insert_eq.
Qed.

Lemma is_known_verdict d :
  is_known d = true -> _check_known_domain_stance d = Some (listed_verdict d).
Proof.
  unfold is_known, _check_known_domain_stance, listed_verdict.
  destruct (member d known_transphobic_domains); [reflexivity |].
  destruct (member d known_transfriendly_domains); [reflexivity | discriminate].
Qed.

Lemma visit_domains_cons W d ds state :
  visit_domains W (d :: ds) state = visit_domains W ds (visit_domain W state d).
Proof. reflexivity. Qed.

Lemma visit_domain_listed W d results cache :
  is_known d = true ->
  visit_domain W (results, cache) d
  = ((results ++ [(d, listed_verdict d)])%list, cache).
Proof.
  intro Hd. unfold visit_domain. rewrite (is_known_verdict d Hd). reflexivity.
Qed.

(** Over listed domains the loop appends one result for each and leaves
    the cache alone. *)
Lemma visit_domains_listed W domains results cache :
  Forall (fun d => is_known d = true) domains ->
  exists added,
    visit_domains W domains (results, cache) = ((results ++ added)%list, cache)
    /\ List.length added = List.length domains
    /\ Qsum (map (fun r => confidence (snd r)) added)
       == 0.85 * Qnat (List.length domains)
    /\ Qsum (map (fun '(c, conf) => inject_Z c * conf)
                 (combine (map (fun r => classification (snd r)) added)
                          (map (fun r => confidence (snd r)) added)))
       == 0.85 * (2 * Qnat (List.length (listed_transphobic domains))).
Proof.
  intro Hall. revert results.
  induction Hall as [| d ds Hd _ IH]; intro results.
  - exists []. cbn [visit_domains fold_left]. rewrite app_nil_r.
    split; [reflexivity |]. split; [reflexivity |].
    split; [change (0 == 0.85 * 0) | change (0 == 0.85 * (2 * 0))]; ring.
  - rewrite visit_domains_cons, (visit_domain_listed W d results cache Hd).
    destruct (IH (results ++ [(d, listed_verdict d)])%list)
      as (added & Hv & Hlen & Hq & Hw).
    exists ((d, listed_verdict d) :: added). rewrite Hv, <- app_assoc. cbn [app].
    split; [reflexivity |].
    split; [cbn [List.length]; now rewrite Hlen |].
    cbn [map combine snd List.length listed_transphobic List.filter].
    rewrite !Qsum_cons, Hq, Hw, Qnat_S.
    fold (listed_transphobic ds). unfold listed_verdict.
    destruct (member d known_transphobic_domains);
      cbn [classification confidence List.length].
    + rewrite Qnat_S. split; ring.
    + split; ring.
Qed.

(** The aggregate of results that are not empty. *)
Lemma aggregate_results_nonempty results :
  results <> [] ->
  aggregate_results results =
    {| classification :=
         threshold_classification
           (weighted_average (map (fun r => classification (snd r)) results)
                             (map (fun r => confidence (snd r)) results));
       confidence :=
         Qsum (map (fun r => confidence (snd r)) results)
         / Qnat (List.length (map (fun r => confidence (snd r)) results));
       tag := links_aggregate;
       detail :=
         LinkStats
           (weighted_average (map (fun r => classification (snd r)) results)
                             (map (fun r => confidence (snd r)) results))
           (List.length results)
           (map (fun r => {| dr_domain := fst r;
                             dr_classification := classification (snd r);
                             dr_confidence := confidence (snd r) |})
                results) |}.
Proof. destruct results; [congruence | reflexivity]. Qed.

Lemma Qnat_scaled_lt (a b n m : nat) :
  (a * n < b * m)%nat <-> Qnat a * Qnat n < Qnat b * Qnat m.
Proof. unfold Qnat, Qlt. cbn. nia. Qed.

(** X11. When every domain of the links is listed, the aggregate leaves
    the cache alone and has the confidence of the listed verdicts, 0.85
    (stated within 0.01, which the rounding of the sum and of the
    quotient does not leave); it is transphobic when more than 80
    percent of the domains are on the transphobic list, friendly when
    fewer than 20 percent are, and gray area when strictly more than 20
    and strictly fewer than 80 percent are. Nothing is said of exactly 20
    and exactly 80 percent: there the weighted mean is on a threshold in
    exact arithmetic, and the rounding of the binary64 mean decides
    ([Binary64Checks.mean_of_one_in_five]). *)
Theorem all_listed_links (W : World) (links : list string)
    (cache : gmap string Verdict) :
  let domains := set_order W (link_domains W links) in
  link_domains W links <> [] ->
  domains <> [] ->
  Forall (fun d => is_known d = true) domains ->
  let n := List.length domains in
  let t := List.length (listed_transphobic domains) in
  let r := analyze_links W links cache in
  0.84 < confidence (fst r) < 0.86
  /\ ((8 * n < 10 * t)%nat -> classification (fst r) = 2%Z)
  /\ ((10 * t < 2 * n)%nat -> classification (fst r) = 0%Z)
  /\ ((2 * n < 10 * t)%nat -> (10 * t < 8 * n)%nat ->
      classification (fst r) = 1%Z)
  /\ snd r = cache.
Proof.
  intros domains Hne Hdne Hall n t r. unfold r, analyze_links.
  destruct links as [| l ls]; [exfalso; apply Hne; reflexivity |].
  destruct (link_domains W (l :: ls)) as [| d0 ds0] eqn:Hld; [congruence |].
  fold domains.
  destruct (visit_domains_listed W domains [] cache Hall)
    as (added & Hv & Hlen & Hq & Hw).
  rewrite Hv. cbn [app fst snd].
  assert (0 < Qnat n) as Hn.
  { apply Qnat_pos. unfold n. destruct domains; [congruence | cbn; lia]. }
  assert (added <> []) as Hane.
  { intro E. rewrite E in Hlen. cbn in Hlen. unfold n in Hn.
    rewrite <- Hlen in Hn. vm_compute in Hn. discriminate. }
  rewrite (aggregate_results_nonempty added Hane).
  cbn [classification confidence]. rewrite length_map, Hlen. fold n.
  fold n in Hq. fold t in Hw.
  assert (weighted_average (map (fun r => classification (snd r)) added)
                           (map (fun r => confidence (snd r)) added)
          == 2 * Qnat t / Qnat n) as Hwa.
  { unfold weighted_average.
    assert (Qltb 0 (Qsum (map (fun r => confidence (snd r)) added)) = true) as ->
      by (apply Qltb_true; rewrite Hq; lra).
    rewrite Hw, Hq. field. lra. }
  set (x := weighted_average _ _) in *.
  assert (x * Qnat n == 2 * Qnat t) as Hx by (rewrite Hwa; field; lra).
  pose proof (Qnat_scaled_lt 8 10 n t) as H2.
  pose proof (Qnat_scaled_lt 10 2 t n) as H0.
  pose proof (Qnat_scaled_lt 2 10 n t) as H1lo.
  pose proof (Qnat_scaled_lt 10 8 t n) as H1hi.
  change (Qnat 8) with 8 in H2, H1hi. change (Qnat 10) with 10 in H2, H0, H1lo, H1hi.
  change (Qnat 2) with 2 in H0, H1lo.
  split.
  { assert (Qsum (map (fun r => confidence (snd r)) added) / Qnat n == 0.85)
      as -> by (rewrite Hq; field; lra).
    split; reflexivity. }
  unfold threshold_classification.
  split; [| split; [| split; [| reflexivity]]].
  - intro H. apply H2 in H.
    assert (Qltb 1.6 x = true) as -> by (apply Qltb_true; nra). reflexivity.
  - intro H. apply H0 in H.
    assert (Qltb 1.6 x = false) as -> by (apply Qltb_false; nra).
    assert (Qltb x 0.4 = true) as -> by (apply Qltb_true; nra). reflexivity.
  - intros Hlo Hhi. apply H1lo in Hlo. apply H1hi in Hhi.
    assert (Qltb 1.6 x = false) as -> by (apply Qltb_false; nra).
    assert (Qltb x 0.4 = false) as -> by (apply Qltb_false; nra). reflexivity.
Qed.

Lemma all_listed_links_witness :
  let r := analyze_links quiet_world
             ["https://glaad.org/about"; "https://www.heritage.org/"]%string ∅ in
  0.84 < confidence (fst r) < 0.86
  /\ ((8 * 2 < 10 * 1)%nat -> classification (fst r) = 2%Z)
  /\ ((10 * 1 < 2 * 2)%nat -> classification (fst r) = 0%Z)
  /\ ((2 * 2 < 10 * 1)%nat -> (10 * 1 < 8 * 2)%nat ->
      classification (fst r) = 1%Z)
  /\ snd r = ∅.
Proof.
  apply (all_listed_links quiet_world
           ["https://glaad.org/about"; "https://www.heritage.org/"]%string ∅).
  - vm_compute. discriminate.
  - vm_compute. discriminate.
  - vm_compute. repeat constructor.
Defined.

(* ===================================================================== *)
(** ** Further properties: the site resolver *)
(* ===================================================================== *)



(** X13. As the code stands, a domain outside the lists is never judged
    by its content: [_fetch_warc_record] returns no page, so the domain
    gets gray area with confidence 0.1 for want of data (no_cc_data when
    the index has no record for it, no_content_extracted otherwise).
    Such a verdict changes no other verdict through the adjustment, and
    the URL handler leaves the verdict of the text as it is for a site
    outside the lists that is not yet in the cache. *)
Theorem unlisted_sites_are_never_judged (W : World) (domain : string) :
  _check_known_domain_stance domain = None ->
  let v := _analyze_domain_content W domain in
  (v = no_cc_data_verdict \/ v = no_content_extracted_verdict)
  /\ (v = no_cc_data_verdict <-> _fetch_cc_records_for_domain W domain = [])
  /\ classification v = 1%Z
  /\ confidence v = 0.1
  /\ no_data (tag v) = true
  /\ (forall name primary,
         adjust name primary v
         = {| result := primary; second_analysis := Some v;
              classification_adjusted_by := None |})
  /\ (forall primary url cache,
         _get_domain_from_url W url = domain ->
         cache !! cache_key domain = None ->
         fst (reconcile_url W primary url cache)
         = {| result := primary; second_analysis := Some v;
              classification_adjusted_by := None |}).
Proof.
  intros Hk v.
  pose proof (_analyze_domain_content_unlisted W domain Hk) as Hv. fold v in Hv.
  assert (forall name primary,
             confidence v = 0.1 ->
             adjust name primary v
             = {| result := primary; second_analysis := Some v;
                  classification_adjusted_by := None |}) as Hadjust.
  { intros name primary Hq. unfold adjust. rewrite Hq.
    assert (Qltb 0.7 0.1 = false) as -> by reflexivity.
    rewrite andb_false_r. reflexivity. }
  assert (confidence v = 0.1) as Hq.
  { rewrite Hv. destruct (_fetch_cc_records_for_domain W domain); reflexivity. }
  split; [rewrite Hv; destruct (_fetch_cc_records_for_domain W domain); auto |].
  split.
  { rewrite Hv. destruct (_fetch_cc_records_for_domain W domain);
      split; intro H; try reflexivity; discriminate H. }
  split; [rewrite Hv; destruct (_fetch_cc_records_for_domain W domain); reflexivity |].
  split; [exact Hq |].
  split; [rewrite Hv; destruct (_fetch_cc_records_for_domain W domain); reflexivity |].
  split; [intros name primary; exact (Hadjust name primary Hq) |].
  intros primary url cache Hdomain Hmiss.
  unfold reconcile_url, analyze_single_url. rewrite Hdomain, Hmiss.
  cbn [fst]. fold v. exact (Hadjust _ primary Hq).
Qed.

Lemma unlisted_sites_are_never_judged_witness :
  _analyze_domain_content quiet_world "example.org" = no_cc_data_verdict
  /\ _analyze_domain_content (archive_world 9 1) "example.org"
     = no_content_extracted_verdict.
Proof.
  destruct (unlisted_sites_are_never_judged quiet_world "example.org" eq_refl)
    as (_ & [_ Hnone] & _).
  destruct (unlisted_sites_are_never_judged (archive_world 9 1) "example.org"
              eq_refl) as ([Habsurd | Hsome] & _).
  - discriminate Habsurd.
  - split; [apply Hnone; reflexivity | exact Hsome].
Defined.

(* ===================================================================== *)
(** ** Further properties: the rate limiter *)
(* ===================================================================== *)

(** A call inside the window of a client counts one more. *)
Lemma rate_limit_inside request uuid4 now cache t0 k :
  cache !! App.client_key request uuid4
  = Some {| App.timestamp := t0; App.count := k |} ->
  now - t0 <= App.RATE_LIMIT_WINDOW ->
  App.rate_limit request uuid4 now cache
  = (if (App.RATE_LIMIT_MAX <? k + 1)%Z
     then App.RateLimitExceeded (App.py_int (App.RATE_LIMIT_WINDOW - (now - t0)))
     else App.Passed,
     <[App.client_key request uuid4
       := {| App.timestamp := t0; App.count := k + 1 |}]> cache).
Proof.
  intros Hc Hin. unfold App.rate_limit. rewrite Hc. cbn [App.timestamp App.count].
  apply Qltb_false in Hin. rewrite Hin.
  destruct (App.RATE_LIMIT_MAX <? k + 1)%Z; reflexivity.
Qed.

(** Calls of [rate_limit] in a row, inside the window of the client:
    all pass and are counted when the count stays within the maximum;
    otherwise one is refused, with a count above the maximum. *)
Lemma preprocess_inside (l : list string) request readings ip t0 :
  (forall i, App.client_key request (fst (readings i)) = ip
             /\ snd (readings i) - t0 <= App.RATE_LIMIT_WINDOW) ->
  forall i k cache,
    cache !! ip = Some {| App.timestamp := t0; App.count := k |} ->
    exists admission cache' k',
      App.preprocess_request (map (fun _ => App.rate_limit) l) request readings i cache
      = (admission, cache')
      /\ cache' !! ip = Some {| App.timestamp := t0; App.count := k' |}
      /\ ((k + Z.of_nat (List.length l) <= App.RATE_LIMIT_MAX)%Z ->
          admission = App.Passed /\ k' = (k + Z.of_nat (List.length l))%Z)
      /\ ((App.RATE_LIMIT_MAX < k + Z.of_nat (List.length l))%Z -> l <> [] ->
          admission <> App.Passed /\ (App.RATE_LIMIT_MAX < k')%Z).
Proof.
  intro Hr. induction l as [| e l IH]; intros i k cache Hc.
  - exists App.Passed, cache, k. cbn. rewrite Hc.
    repeat split; try lia; congruence.
  - cbn [map App.preprocess_request].
    destruct (Hr i) as [Hkey Hin].
    rewrite <- Hkey in Hc.
    rewrite (rate_limit_inside request (fst (readings i)) (snd (readings i))
               cache t0 k Hc Hin).
    rewrite Hkey.
    destruct (App.RATE_LIMIT_MAX <? k + 1)%Z eqn:E.
    + apply Z.ltb_lt in E.
      eexists. eexists. exists (k + 1)%Z.
      split; [reflexivity |]. rewrite lookup_insert_eq.
      split; [reflexivity |]. cbn [List.length].
      split; [intro; lia | intros _ _; split; [discriminate | exact E]].
    + apply Z.ltb_ge in E.
      destruct (IH (S i) (k + 1)%Z
                  (<[ip := {| App.timestamp := t0; App.count := k + 1 |}]> cache)
                  (lookup_insert_eq _ _ _))
        as (a & c' & k' & Hrun & Hc' & Hok & Hko).
      exists a, c', k'. split; [exact Hrun |]. split; [exact Hc' |].
      cbn [List.length]. split; intro H.
      * destruct (Hok ltac:(lia)) as [-> ->]. split; [reflexivity | lia].
      * intros _. apply Hko; [lia |]. intros ->. cbn [List.length] in H. lia.
Qed.

Lemma preprocess_cons f fs request readings i cache :
  App.preprocess_request (f :: fs) request readings i cache
  = match f request (fst (readings i)) (snd (readings i)) cache with
    | (App.Passed, cache') =>
        App.preprocess_request fs request readings (S i) cache'
    | refused => refused
    end.
Proof. reflexivity. Qed.

(** The first request of a client: the first call opens the window, the
    others count. *)
Lemma preprocess_first request readings ip cache :
  cache !! ip = None ->
  (forall i, App.client_key request (fst (readings i)) = ip
             /\ snd (readings i) - snd (readings 0%nat) <= App.RATE_LIMIT_WINDOW) ->
  exists cache',
    App.preprocess_request App.before_request_funcs request readings 0 cache
    = (App.Passed, cache')
    /\ cache' !! ip = Some {| App.timestamp := snd (readings 0%nat); App.count := 4 |}.
Proof.
  intros Hc Hr. unfold App.before_request_funcs, App.rate_limited_endpoints.
  cbn [map]. rewrite preprocess_cons.
  destruct (Hr 0%nat) as [Hkey _].
  assert (App.rate_limit request (fst (readings 0%nat)) (snd (readings 0%nat)) cache
          = (App.Passed,
             <[ip := {| App.timestamp := snd (readings 0%nat); App.count := 1 |}]> cache))
    as ->.
  { unfold App.rate_limit. rewrite Hkey, Hc. reflexivity. }
  cbv beta iota.
  destruct (preprocess_inside ["a"; "b"; "c"]%string request readings ip
              (snd (readings 0%nat)) Hr 1%nat 1%Z
              (<[ip := {| App.timestamp := snd (readings 0%nat); App.count := 1 |}]> cache)
              (lookup_insert_eq _ _ _))
    as (a & c' & k' & Hrun & Hc' & Hok & _).
  cbn [map] in Hrun. rewrite Hrun.
  destruct (Hok ltac:(cbn; unfold App.RATE_LIMIT_MAX; lia)) as [-> ->].
  exists c'. split; [reflexivity | exact Hc'].
Qed.

(** Requests of one client inside its window, from a count of [k]: the
    request of index [j] passes exactly when [k + 4 (j + 1)] is within
    the maximum. *)
Lemma serve_inside ip t0 requests :
  (forall request readings, In (request, readings) requests ->
     forall i, App.client_key request (fst (readings i)) = ip
               /\ snd (readings i) - t0 <= App.RATE_LIMIT_WINDOW) ->
  forall k cache,
    cache !! ip = Some {| App.timestamp := t0; App.count := k |} ->
    forall j admission,
      nth_error (fst (App.serve requests cache)) j = Some admission ->
      (admission = App.Passed
       <-> (k + 4 * (Z.of_nat j + 1) <= App.RATE_LIMIT_MAX)%Z).
Proof.
  induction requests as [| [request readings] rest IH]; intros Hr k cache Hc j a Hj.
  - destruct j; discriminate.
  - cbn [App.serve] in Hj.
    destruct (preprocess_inside App.rate_limited_endpoints request readings ip t0
                (Hr request readings (or_introl eq_refl)) 0%nat k cache Hc)
      as (a0 & c' & k' & Hrun & Hc' & Hok & Hko).
    fold App.before_request_funcs in Hrun. rewrite Hrun in Hj.
    assert (forall request readings, In (request, readings) rest ->
              forall i, App.client_key request (fst (readings i)) = ip
                        /\ snd (readings i) - t0 <= App.RATE_LIMIT_WINDOW) as Hr'
      by (intros rq rd Hin; apply Hr; right; exact Hin).
    specialize (IH Hr' k' c' Hc').
    destruct (App.serve rest c') as [admissions c''] eqn:Hs. cbn [fst] in *.
    change (Z.of_nat (List.length App.rate_limited_endpoints)) with 4%Z in Hok, Hko.
    destruct j as [| j].
    + cbn in Hj. injection Hj as <-.
      destruct (Z_le_gt_dec (k + 4) App.RATE_LIMIT_MAX) as [H | H].
      * destruct (Hok H) as [-> _]. split; [intros _; cbn; lia | reflexivity].
      * destruct (Hko ltac:(lia) ltac:(discriminate)) as [Hne _].
        split; [congruence | cbn; lia].
    + cbn [nth_error] in Hj. specialize (IH j a Hj). rewrite IH.
      destruct (Z_le_gt_dec (k + 4) App.RATE_LIMIT_MAX) as [H | H].
      * destruct (Hok H) as [_ ->]. lia.
      * destruct (Hko ltac:(lia) ltac:(discriminate)) as [_ Hk']. lia.
Qed.

(** X14. [rate_limit] is registered four times for the whole
    application, so every request counts four times: of the requests
    that a client who is not yet in the cache sends within 60 seconds of
    its first, the first 15 pass and every later one is refused. *)
Theorem fifteen_requests_per_window (ip : string)
    (first : App.Request * (nat -> string * Q))
    (later : list (App.Request * (nat -> string * Q)))
    (cache : gmap string App.Window) :
  cache !! ip = None ->
  (forall request readings, In (request, readings) (first :: later) ->
     forall i, App.client_key request (fst (readings i)) = ip
               /\ snd (readings i) - snd (snd first 0%nat) <= App.RATE_LIMIT_WINDOW) ->
  List.length App.before_request_funcs = 4%nat
  /\ forall j admission,
       nth_error (fst (App.serve (first :: later) cache)) j = Some admission ->
       (admission = App.Passed <-> (j < 15)%nat).
Proof.
  intros Hc Hr. split; [reflexivity |].
  intros j a Hj. destruct first as [request readings]. cbn [snd] in Hr.
  cbn [App.serve] in Hj.
  destruct (preprocess_first request readings ip cache Hc
              (Hr request readings (or_introl eq_refl))) as (c' & Hrun & Hc').
  rewrite Hrun in Hj.
  assert (forall request' readings', In (request', readings') later ->
            forall i, App.client_key request' (fst (readings' i)) = ip
                      /\ snd (readings' i) - snd (readings 0%nat)
                         <= App.RATE_LIMIT_WINDOW) as Hr'
    by (intros rq rd Hin; apply Hr; right; exact Hin).
  pose proof (serve_inside ip (snd (readings 0%nat)) later Hr' 4%Z c' Hc') as Hs.
  destruct (App.serve later c') as [admissions c''] eqn:E. cbn [fst] in *.
  destruct j as [| j].
  - cbn in Hj. injection Hj as <-. split; [intros _; lia | reflexivity].
  - cbn [nth_error] in Hj. rewrite (Hs j a Hj). unfold App.RATE_LIMIT_MAX. lia.
Qed.

Lemma fifteen_requests_per_window_witness :
  let request :=
    ({| App.remote_addr := Some "203.0.113.7"%string; App.x_client_id := None |},
     fun _ : nat => ("uuid"%string, 1000)) in
  List.length App.before_request_funcs = 4%nat
  /\ forall j admission,
       nth_error (fst (App.serve (request :: repeat request 16) ∅)) j = Some admission ->
       (admission = App.Passed <-> (j < 15)%nat).
Proof.
  apply (fifteen_requests_per_window "203.0.113.7"
           ({| App.remote_addr := Some "203.0.113.7"%string; App.x_client_id := None |},
            fun _ : nat => ("uuid"%string, 1000))).
  - reflexivity.
  - intros request readings Hin i.
    assert ((request, readings)
            = ({| App.remote_addr := Some "203.0.113.7"%string;
                  App.x_client_id := None |},
               fun _ : nat => ("uuid"%string, 1000))) as E.
    { destruct Hin as [<- | Hin]; [reflexivity |].
      apply repeat_spec in Hin. exact Hin. }
    injection E as -> ->. split; [reflexivity | vm_compute; discriminate].
Defined.

Lemma py_int_bounds (x : Q) :
  0 <= x <= 60 -> (0 <= App.py_int x <= 60)%Z.
Proof.
  destruct x as [n d]. unfold Qle, App.py_int. cbn [Qnum Qden]. intros [Hlo Hhi].
  split.
  - apply Z.quot_pos; lia.
  - apply Z.quot_le_upper_bound; lia.
Qed.

(** X15. A refused call is counted all the same and leaves the start of the
    window where it was; the client had used up its 60 calls; the delay
    it is told to wait lies between 0 and 60 seconds when the clock has
    not gone back. *)
Theorem refused_calls_are_counted (request : App.Request) (uuid4 : string)
    (now : Q) (cache : gmap string App.Window) (retry_after : Z) :
  fst (App.rate_limit request uuid4 now cache) = App.RateLimitExceeded retry_after ->
  exists window,
    cache !! App.client_key request uuid4 = Some window
    /\ snd (App.rate_limit request uuid4 now cache) !! App.client_key request uuid4
       = Some {| App.timestamp := App.timestamp window;
                 App.count := App.count window + 1 |}
    /\ (App.RATE_LIMIT_MAX <= App.count window)%Z
    /\ now - App.timestamp window <= App.RATE_LIMIT_WINDOW
    /\ (App.timestamp window <= now -> (0 <= retry_after <= 60)%Z).
Proof.
  unfold App.rate_limit.
  destruct (cache !! App.client_key request uuid4) as [window |] eqn:Hc;
    [| discriminate].
  destruct (Qltb_cases App.RATE_LIMIT_WINDOW (now - App.timestamp window))
    as [[-> _] | [-> Hin]]; [discriminate |].
  cbn [App.count App.timestamp].
  destruct (App.RATE_LIMIT_MAX <? App.count window + 1)%Z eqn:E; [| discriminate].
  cbn [fst snd]. intro H. injection H as <-.
  apply Z.ltb_lt in E.
  exists window. split; [reflexivity |].
  split; [apply lookup_insert_eq |].
  split; [lia |]. split; [exact Hin |].
  intro Hmono. apply py_int_bounds. unfold App.RATE_LIMIT_WINDOW in *. lra.
Qed.

Lemma refused_calls_are_counted_witness :
  let request :=
    {| App.remote_addr := Some "203.0.113.7"%string; App.x_client_id := None |} in
  let cache : gmap string App.Window :=
    {[ "203.0.113.7"%string := {| App.timestamp := 1000; App.count := 60 |} ]} in
  exists window,
    cache !! App.client_key request "uuid" = Some window
    /\ snd (App.rate_limit request "uuid" 1012.5 cache)
         !! App.client_key request "uuid"
       = Some {| App.timestamp := App.timestamp window;
                 App.count := App.count window + 1 |}
    /\ (App.RATE_LIMIT_MAX <= App.count window)%Z
    /\ 1012.5 - App.timestamp window <= App.RATE_LIMIT_WINDOW
    /\ (App.timestamp window <= 1012.5 -> (0 <= 47 <= 60)%Z).
Proof.
  apply (refused_calls_are_counted
           {| App.remote_addr := Some "203.0.113.7"%string; App.x_client_id := None |}
           "uuid" 1012.5
           {[ "203.0.113.7"%string := {| App.timestamp := 1000; App.count := 60 |} ]}
           47).
  reflexivity.
Defined.

(** X16. The sweep of [clear_expired_rate_limits] keeps the windows that are
    not over and changes nothing for the clients: a later call is
    let through or refused, and counted, as it would be without the
    sweep. *)
Theorem rate_limit_sweep_is_transparent (request : App.Request) (uuid4 : string)
    (swept_at now : Q) (cache : gmap string App.Window) :
  swept_at <= now ->
  let swept := App.clear_expired_rate_limits swept_at cache in
  let key := App.client_key request uuid4 in
  (forall ip window,
      swept !! ip = Some window
      <-> cache !! ip = Some window
          /\ swept_at - App.timestamp window <= App.RATE_LIMIT_WINDOW)
  /\ fst (App.rate_limit request uuid4 now swept)
     = fst (App.rate_limit request uuid4 now cache)
  /\ snd (App.rate_limit request uuid4 now swept) !! key
     = snd (App.rate_limit request uuid4 now cache) !! key.
Proof.
  intros Hle swept key.
  assert (forall ip window,
             swept !! ip = Some window
             <-> cache !! ip = Some window
                 /\ swept_at - App.timestamp window <= App.RATE_LIMIT_WINDOW) as Hsw.
  { intros ip window. unfold swept, App.clear_expired_rate_limits.
    rewrite map_lookup_filter_Some. cbn [snd].
    rewrite <- Qltb_false.
    destruct (Qltb App.RATE_LIMIT_WINDOW (swept_at - App.timestamp window));
      cbn; intuition congruence. }
  split; [exact Hsw |].
  unfold App.rate_limit. fold key.
  destruct (cache !! key) as [window |] eqn:Hc.
  - destruct (Qltb_cases App.RATE_LIMIT_WINDOW (swept_at - App.timestamp window))
      as [[_ Hout] | [_ Hin]].
    + assert (swept !! key = None) as ->.
      { destruct (swept !! key) as [w |] eqn:E; [| reflexivity].
        apply Hsw in E. destruct E as [E1 E2].
        assert (w = window) by congruence. subst w. exfalso. lra. }
      assert (Qltb App.RATE_LIMIT_WINDOW (now - App.timestamp window) = true) as ->
        by (apply Qltb_true; lra).
      cbn [fst snd]. rewrite !lookup_insert_eq. split; reflexivity.
    + assert (swept !! key = Some window) as -> by (apply Hsw; split; assumption).
      destruct (Qltb App.RATE_LIMIT_WINDOW (now - App.timestamp window)).
      * cbn [fst snd]. rewrite !lookup_insert_eq. split; reflexivity.
      * destruct (App.RATE_LIMIT_MAX <? _)%Z; cbn [fst snd];
          rewrite !lookup_insert_eq; split; reflexivity.
  - assert (swept !! key = None) as ->.
    { destruct (swept !! key) as [w |] eqn:E; [| reflexivity].
      apply Hsw in E. destruct E as [E1 _]. congruence. }
    cbn [fst snd]. rewrite !lookup_insert_eq. split; reflexivity.
Qed.

Lemma rate_limit_sweep_is_transparent_witness :
  let request :=
    {| App.remote_addr := Some "203.0.113.7"%string; App.x_client_id := None |} in
  let cache : gmap string App.Window :=
    {[ "203.0.113.7"%string := {| App.timestamp := 1000; App.count := 60 |} ]} in
  fst (App.rate_limit request "uuid" 1100 (App.clear_expired_rate_limits 1090 cache))
  = fst (App.rate_limit request "uuid" 1100 cache).
Proof.
  apply (rate_limit_sweep_is_transparent
           {| App.remote_addr := Some "203.0.113.7"%string; App.x_client_id := None |}
           "uuid" 1090 1100
           {[ "203.0.113.7"%string := {| App.timestamp := 1000; App.count := 60 |} ]}).
  vm_compute. discriminate.
Defined.

(* ===================================================================== *)
(** ** The handlers and the analysis cache *)
(* ===================================================================== *)

Lemma reconcile_profile_in_range W primary links cache :
  well_formed primary -> cache_ok cache ->
  response_in_range (fst (reconcile_profile W primary links cache))
  /\ cache_ok (snd (reconcile_profile W primary links cache)).
Proof.
  intros Hp Hc. unfold reconcile_profile.
  destruct links as [| l ls].
  - cbn [fst snd]. split; [| exact Hc].
    destruct Hp as (H1 & H2 & _). split; assumption.
  - destruct (analyze_links_well_formed W (l :: ls) cache Hc) as [Hv Hc'].
    destruct (analyze_links W (l :: ls) cache) as [v cache'].
    cbn [fst snd] in *. split; [| exact Hc'].
    apply adjust_in_range; assumption.
Qed.

Lemma reconcile_url_in_range W primary url cache :
  well_formed primary -> cache_ok cache ->
  response_in_range (fst (reconcile_url W primary url cache))
  /\ cache_ok (snd (reconcile_url W primary url cache)).
Proof.
  intros Hp Hc. unfold reconcile_url.
  destruct (analyze_single_url_well_formed W url cache Hc) as [Hv Hc'].
  destruct (analyze_single_url W url cache) as [v cache'].
  cbn [fst snd] in *. split; [| exact Hc'].
  apply adjust_in_range; assumption.
Qed.

Lemma fixed_reply_in_range : is_class 1 /\ 0 <= 0.1 <= 1.
Proof. split; [right; left; reflexivity | split; discriminate]. Qed.

(** X17. Every reply of the three analysis handlers that carries a
    classification has it among 0, 1, 2, with a confidence in [0, 1],
    whether it is computed, read from the cache or one of the fixed
    replies; and the two caches keep holding such results (they hold
    such results before the request, and the square root of [np.std] is
    sound). *)
Theorem replies_stay_in_range (W : World) (B : Web) (self : ContentAnalyzer)
    (cache : gmap string App.Cached) (links : gmap string Verdict) :
  sqrt_sound W -> analysis_cache_ok cache -> cache_ok links ->
  (forall text,
      reply_in_range (fst (App.analyze_text W B self text cache))
      /\ analysis_cache_ok (snd (App.analyze_text W B self text cache)))
  /\ (forall identifier platform checked_at stamped_at,
         let r := App.analyze_profile W B self identifier platform
                                      checked_at stamped_at cache links in
         reply_in_range (fst (fst r)) /\ analysis_cache_ok (snd (fst r))
         /\ cache_ok (snd r))
  /\ (forall url,
         let r := App.analyze_url W B self url cache links in
         reply_in_range (fst (fst r)) /\ analysis_cache_ok (snd (fst r))
         /\ cache_ok (snd r)).
Proof.
  intros Hsqrt Hcache Hlinks. split; [| split].
  - intros [text |]; [| split; [exact I | exact Hcache]].
    unfold App.analyze_text.
    destruct (cache !! _) as [cached |] eqn:E; cbn [fst snd].
    + split; [| exact Hcache].
      exact (map_Forall_lookup_1 _ _ _ _ Hcache E).
    + assert (response_in_range
                {| result := fst (ml_analyze_text W self text);
                   second_analysis := None;
                   classification_adjusted_by := None |}) as Hr.
      { destruct (analyze_text_well_formed W self text) as (H1 & H2 & _).
        split; assumption. }
      split; [exact Hr |].
      apply map_Forall_insert_2; assumption.
  - intros identifier platform checked_at stamped_at. cbv zeta.
    unfold App.analyze_profile.
    destruct identifier as [identifier |];
      [| cbn [fst snd]; split; [exact I | split; assumption]].
    destruct platform as [platform |];
      [| cbn [fst snd]; split; [exact I | split; assumption]].
    destruct (cache !! _) as [cached |] eqn:E.
    + destruct (Qltb (checked_at - App.CACHE_EXPIRY) (App.timestamp_or_0 cached)).
      * cbn [fst snd]. split; [| split; assumption].
        exact (map_Forall_lookup_1 _ _ _ _ Hcache E).
      * destruct (fetch_profile_data B identifier platform) as [m | data];
          [cbn [fst snd]; split; [exact fixed_reply_in_range | split; assumption] |].
        destruct (pd_posts data) as [| post posts];
          [cbn [fst snd]; split; [exact fixed_reply_in_range | split; assumption] |].
        destruct (reconcile_profile_in_range W
                    (fst (ml_analyze_profile W self (post :: posts)))
                    (pd_links data) links
                    (analyze_profile_well_formed W self _ Hsqrt) Hlinks)
          as [Hr Hl].
        destruct (reconcile_profile W _ (pd_links data) links) as [response links'].
        cbn [fst snd] in *. split; [exact Hr |]. split; [| exact Hl].
        apply map_Forall_insert_2; assumption.
    + destruct (fetch_profile_data B identifier platform) as [m | data];
        [cbn [fst snd]; split; [exact fixed_reply_in_range | split; assumption] |].
      destruct (pd_posts data) as [| post posts];
        [cbn [fst snd]; split; [exact fixed_reply_in_range | split; assumption] |].
      destruct (reconcile_profile_in_range W
                  (fst (ml_analyze_profile W self (post :: posts)))
                  (pd_links data) links
                  (analyze_profile_well_formed W self _ Hsqrt) Hlinks)
        as [Hr Hl].
      destruct (reconcile_profile W _ (pd_links data) links) as [response links'].
      cbn [fst snd] in *. split; [exact Hr |]. split; [| exact Hl].
      apply map_Forall_insert_2; assumption.
  - intros url. cbv zeta. unfold App.analyze_url.
    destruct url as [url |];
      [| cbn [fst snd]; split; [exact I | split; assumption]].
    destruct (cache !! _) as [cached |] eqn:E.
    + cbn [fst snd]. split; [| split; assumption].
      exact (map_Forall_lookup_1 _ _ _ _ Hcache E).
    + destruct (fetch_url_content B url) as [m | page];
        [cbn [fst snd]; split; [exact fixed_reply_in_range | split; assumption] |].
      destruct page as [[| c rest] |];
        [cbn [fst snd]; split; [exact fixed_reply_in_range | split; assumption]
        | | cbn [fst snd]; split; [exact fixed_reply_in_range | split; assumption]].
      destruct (reconcile_url_in_range W
                  (fst (ml_analyze_text W self (String c rest))) url links
                  (analyze_text_well_formed W self _) Hlinks) as [Hr Hl].
      destruct (reconcile_url W _ url links) as [response links'].
      cbn [fst snd] in *. split; [exact Hr |]. split; [| exact Hl].
      apply map_Forall_insert_2; assumption.
Qed.

Lemma replies_stay_in_range_witness :
  reply_in_range
    (fst (App.analyze_text quiet_world (canned_web [] [] None)
                           analyzer_without_ollama
                           (Some "trans rights are human rights"%string) ∅)).
Proof.
  apply (replies_stay_in_range quiet_world (canned_web [] [] None)
           analyzer_without_ollama ∅ ∅
           sqrt_down_sound (map_Forall_empty _) (map_Forall_empty _)).
Defined.

Lemma sweep_lookup (now : Q) (cache : gmap string App.Cached) (key : string) :
  App.clear_expired_cache now cache !! key
  = match cache !! key with
    | Some cached =>
        if Qltb (App.timestamp_or_0 cached) (now - App.CACHE_EXPIRY) then None
        else Some cached
    | None => None
    end.
Proof.
  unfold App.clear_expired_cache.
  destruct (cache !! key) as [cached |] eqn:E.
  - destruct (Qltb (App.timestamp_or_0 cached) (now - App.CACHE_EXPIRY)) eqn:Hq.
    + apply map_lookup_filter_None. right. intros x Hx.
      rewrite E in Hx. injection Hx as <-. cbn [snd]. rewrite Hq. cbn. tauto.
    + apply map_lookup_filter_Some. split; [exact E |].
      cbn [snd]. rewrite Hq. exact I.
  - apply map_lookup_filter_None. left. exact E.
Qed.

Lemma profile_lookup_hit W B self identifier platform checked_at stamped_at
    cache links cached :
  cache !! profile_key platform identifier = Some cached ->
  checked_at - App.CACHE_EXPIRY < App.timestamp_or_0 cached ->
  App.analyze_profile W B self (Some identifier) (Some platform)
                      checked_at stamped_at cache links
  = (App.Analysis (App.cached_response cached) (App.cached_timestamp cached),
     cache, links).
Proof.
  intros E Hfresh. unfold App.analyze_profile, profile_key in *.
  rewrite E. apply Qltb_true in Hfresh. rewrite Hfresh. reflexivity.
Qed.

Lemma profile_lookup_stale W B self identifier platform checked_at stamped_at
    cache links cached :
  cache !! profile_key platform identifier = Some cached ->
  App.timestamp_or_0 cached <= checked_at - App.CACHE_EXPIRY ->
  let with_entry :=
    App.analyze_profile W B self (Some identifier) (Some platform)
                        checked_at stamped_at cache links in
  let without_entry :=
    App.analyze_profile W B self (Some identifier) (Some platform)
                        checked_at stamped_at
                        (delete (profile_key platform identifier) cache) links in
  fst (fst with_entry) = fst (fst without_entry)
  /\ snd with_entry = snd without_entry.
Proof.
  intros E Hstale. cbv zeta. unfold App.analyze_profile, profile_key in *.
  rewrite E, lookup_delete_eq. apply Qltb_false in Hstale. rewrite Hstale.
  destruct (fetch_profile_data B identifier platform) as [m | data];
    [split; reflexivity |].
  destruct (pd_posts data) as [| post posts]; [split; reflexivity |].
  destruct (reconcile_profile W _ (pd_links data) links) as [response links'].
  split; reflexivity.
Qed.

(** X18. A reply of the profile handler that carries an analysis is in the
    cache under the key of the profile, stamped with the time of its
    analysis. It is served again, whatever the profile has become, as
    long as the clock is less than 24 hours after the stamp; from then on
    the handler answers as if the entry were not there. The sweep keeps
    the entry up to 24 hours after the stamp, that moment included, and
    removes it afterwards. *)
Theorem profile_reply_is_reused_for_a_day (W : World) (B : Web)
    (self : ContentAnalyzer) (identifier platform : string)
    (checked_at stamped_at : Q)
    (cache : gmap string App.Cached) (links : gmap string Verdict)
    (response : Response) (ts : option Q)
    (cache' : gmap string App.Cached) (links' : gmap string Verdict) :
  App.analyze_profile W B self (Some identifier) (Some platform)
                      checked_at stamped_at cache links
  = (App.Analysis response ts, cache', links') ->
  let key := profile_key platform identifier in
  let entry := {| App.cached_response := response; App.cached_timestamp := ts |} in
  cache' !! key = Some entry
  /\ (cache !! key = None -> ts = Some stamped_at)
  /\ (forall W' B' self' later stamp links2,
         later - App.CACHE_EXPIRY < App.timestamp_or_0 entry ->
         App.analyze_profile W' B' self' (Some identifier) (Some platform)
                             later stamp cache' links2
         = (App.Analysis response ts, cache', links2))
  /\ (forall W' B' self' later stamp links2,
         App.timestamp_or_0 entry <= later - App.CACHE_EXPIRY ->
         let with_entry :=
           App.analyze_profile W' B' self' (Some identifier) (Some platform)
                               later stamp cache' links2 in
         let without_entry :=
           App.analyze_profile W' B' self' (Some identifier) (Some platform)
                               later stamp (delete key cache') links2 in
         fst (fst with_entry) = fst (fst without_entry)
         /\ snd with_entry = snd without_entry)
  /\ (forall now,
         (now - App.CACHE_EXPIRY <= App.timestamp_or_0 entry ->
          App.clear_expired_cache now cache' !! key = Some entry)
         /\ (App.timestamp_or_0 entry < now - App.CACHE_EXPIRY ->
             App.clear_expired_cache now cache' !! key = None)).
Proof.
  intros H key entry.
  assert (cache' !! key = Some entry
          /\ (cache !! key = None -> ts = Some stamped_at)) as [Hentry Hnew].
  { unfold App.analyze_profile in H. unfold key, entry, profile_key.
    destruct (cache !! _) as [cached |] eqn:E.
    - destruct (Qltb (checked_at - App.CACHE_EXPIRY) (App.timestamp_or_0 cached)).
      + injection H as <- <- <- _. split; [| discriminate].
        rewrite E. destruct cached; reflexivity.
      + split; [| discriminate].
        destruct (fetch_profile_data B identifier platform) as [m | data];
          [discriminate |].
        destruct (pd_posts data) as [| post posts]; [discriminate |].
        destruct (reconcile_profile W _ (pd_links data) links)
          as [response0 links0].
        injection H as <- <- <- _. apply lookup_insert_eq.
    - destruct (fetch_profile_data B identifier platform) as [m | data];
        [discriminate |].
      destruct (pd_posts data) as [| post posts]; [discriminate |].
      destruct (reconcile_profile W _ (pd_links data) links)
        as [response0 links0].
      injection H as <- <- <- _. split; [apply lookup_insert_eq | reflexivity]. }
  split; [exact Hentry |]. split; [exact Hnew |].
  split; [| split].
  - intros W' B' self' later stamp links2 Hfresh.
    exact (profile_lookup_hit W' B' self' identifier platform later stamp
             cache' links2 entry Hentry Hfresh).
  - intros W' B' self' later stamp links2 Hstale.
    exact (profile_lookup_stale W' B' self' identifier platform later stamp
             cache' links2 entry Hentry Hstale).
  - intros now. rewrite sweep_lookup, Hentry. split; intro Hnow.
    + apply Qltb_false in Hnow. rewrite Hnow. reflexivity.
    + apply Qltb_true in Hnow. rewrite Hnow. reflexivity.
Qed.

Lemma profile_reply_is_reused_for_a_day_witness :
  let B := canned_web ["trans rights are human rights"%string] [] None in
  let reply :=
    App.analyze_profile quiet_world B analyzer_without_ollama
      (Some "example.org/someone"%string) (Some "unknown"%string)
      1700000000 1700000001 ∅ ∅ in
  exists response,
    fst (fst reply) = App.Analysis response (Some 1700000001)
    /\ snd (fst reply) !! profile_key "unknown" "example.org/someone"
       = Some {| App.cached_response := response;
                 App.cached_timestamp := Some 1700000001 |}.
Proof.
  intros B reply.
  destruct reply as [[answer cache'] links'] eqn:E.
  unfold reply in E.
  assert (exists response, answer = App.Analysis response (Some 1700000001))
    as [response ->].
  { apply (f_equal (fun r => fst (fst r))) in E. cbn [fst] in E.
    rewrite <- E. eexists. reflexivity. }
  exists response. split; [reflexivity |].
  apply (profile_reply_is_reused_for_a_day quiet_world B analyzer_without_ollama
           "example.org/someone" "unknown" 1700000000 1700000001 ∅ ∅
           response (Some 1700000001) cache' links' E).
Defined.

(** X19. The results of the text and URL handlers are cached without a
    timestamp. Until a sweep they are served to every later request for
    the same key (for a text: to every text with the same hash), whatever
    the time and whatever the page has become; and the sweep, which reads
    a missing timestamp as 0, removes them at its next pass however
    recent they are, as soon as the clock is past 86400 seconds. *)
Theorem results_without_timestamp (W : World) (B : Web) (self : ContentAnalyzer)
    (cache : gmap string App.Cached) (links : gmap string Verdict) (now : Q) :
  App.CACHE_EXPIRY < now ->
  (forall text reply cache',
      App.analyze_text W B self (Some text) cache = (reply, cache') ->
      (forall W' self' text',
          hash_text B text' = hash_text B text ->
          App.analyze_text W' B self' (Some text') cache' = (reply, cache'))
      /\ (cache !! text_key B text = None ->
          App.clear_expired_cache now cache' !! text_key B text = None))
  /\ (forall url response ts cache' links',
         App.analyze_url W B self (Some url) cache links
         = (App.Analysis response ts, cache', links') ->
         (forall W' B' self' links2,
             App.analyze_url W' B' self' (Some url) cache' links2
             = (App.Analysis response ts, cache', links2))
         /\ (cache !! url_key url = None ->
             ts = None
             /\ App.clear_expired_cache now cache' !! url_key url = None)).
Proof.
  intros Hnow.
  assert (Qltb 0 (now - App.CACHE_EXPIRY) = true) as Hzero
    by (apply Qltb_true; lra).
  split.
  - intros text reply cache' H. unfold App.analyze_text, text_key in *.
    destruct (cache !! _) as [cached |] eqn:E.
    + injection H as <- <-. split; [| discriminate].
      intros W' self' text' ->. rewrite E. reflexivity.
    + injection H as <- <-. split.
      * intros W' self' text' ->. rewrite lookup_insert_eq. reflexivity.
      * intros _. rewrite sweep_lookup, lookup_insert_eq.
        unfold App.timestamp_or_0. cbn [App.cached_timestamp].
        rewrite Hzero. reflexivity.
  - intros url response ts cache' links' H.
    unfold App.analyze_url, url_key in *.
    destruct (cache !! _) as [cached |] eqn:E.
    + injection H as <- <- <- _. split; [| discriminate].
      intros W' B' self' links2. rewrite E. reflexivity.
    + destruct (fetch_url_content B url) as [m | page]; [discriminate |].
      destruct page as [[| c rest] |]; [discriminate | | discriminate].
      destruct (reconcile_url W _ url links) as [response0 links0].
      injection H as <- <- <- _. split.
      * intros W' B' self' links2. rewrite lookup_insert_eq. reflexivity.
      * intros _. split; [reflexivity |].
        rewrite sweep_lookup, lookup_insert_eq.
        unfold App.timestamp_or_0. cbn [App.cached_timestamp].
        rewrite Hzero. reflexivity.
Qed.

Lemma results_without_timestamp_witness :
  let B := canned_web [] [] None in
  let text := "trans rights are human rights"%string in
  let stored :=
    snd (App.analyze_text quiet_world B analyzer_without_ollama (Some text) ∅) in
  stored !! text_key B text <> None
  /\ App.clear_expired_cache 1700000000 stored !! text_key B text = None.
Proof.
  intros B text stored. split; [vm_compute; discriminate |].
  destruct (App.analyze_text quiet_world B analyzer_without_ollama (Some text) ∅)
    as [reply cache'] eqn:E.
  apply (results_without_timestamp quiet_world B analyzer_without_ollama ∅ ∅
           1700000000 ltac:(reflexivity)) with (reply := reply).
  - unfold stored. rewrite E. reflexivity.
  - reflexivity.
Defined.

Lemma cached_as_hit response ts key cache :
  cache !! key = Some {| App.cached_response := response;
                         App.cached_timestamp := ts |} ->
  cached_as (App.Analysis response ts) key cache cache.
Proof. intro E. split; [exact E | reflexivity]. Qed.

Lemma cached_as_stored response ts key cache :
  cached_as (App.Analysis response ts) key cache
            (<[key := {| App.cached_response := response;
                         App.cached_timestamp := ts |}]> cache).
Proof.
  split; [apply lookup_insert_eq |].
  intros other Hne. apply lookup_insert_ne. congruence.
Qed.

(** X20. A request changes at most its own entry of the analysis cache, and
    only to store the analysis it answers with. A reply without an
    analysis (a bad request, too little data, a failure) is not cached:
    it leaves the analysis cache and the cache of the site resolver as
    they were. *)
Theorem requests_touch_only_their_entry (W : World) (B : Web)
    (self : ContentAnalyzer)
    (cache : gmap string App.Cached) (links : gmap string Verdict) :
  (forall text,
      let r := App.analyze_text W B self (Some text) cache in
      cached_as (fst r) (text_key B text) cache (snd r)
      /\ is_analysis (fst r) = true)
  /\ (forall identifier platform checked_at stamped_at,
         let r := App.analyze_profile W B self (Some identifier) (Some platform)
                                      checked_at stamped_at cache links in
         cached_as (fst (fst r)) (profile_key platform identifier) cache
                   (snd (fst r))
         /\ (is_analysis (fst (fst r)) = false -> snd r = links))
  /\ (forall url,
         let r := App.analyze_url W B self (Some url) cache links in
         cached_as (fst (fst r)) (url_key url) cache (snd (fst r))
         /\ (is_analysis (fst (fst r)) = false -> snd r = links))
  /\ (App.analyze_text W B self None cache
      = (App.BadRequest "No text provided", cache))
  /\ (forall identifier platform checked_at stamped_at,
         identifier = None \/ platform = None ->
         App.analyze_profile W B self identifier platform
                             checked_at stamped_at cache links
         = (App.BadRequest "Missing identifier or platform", cache, links))
  /\ (App.analyze_url W B self None cache links
      = (App.BadRequest "No URL provided", cache, links)).
Proof.
  split; [| split; [| split; [| split; [| split]]]].
  - intros text. cbv zeta. unfold App.analyze_text, text_key.
    destruct (cache !! _) as [cached |] eqn:E; cbn [fst snd].
    + split; [| reflexivity]. apply cached_as_hit. destruct cached; exact E.
    + split; [| reflexivity]. apply cached_as_stored.
  - intros identifier platform checked_at stamped_at. cbv zeta.
    unfold App.analyze_profile, profile_key.
    assert (forall reply : App.Reply * gmap string App.Cached * gmap string Verdict,
               reply = match fetch_profile_data B identifier platform with
                       | Raised message =>
                           (App.AnalysisFailed ("Analysis failed: " ++ message),
                            cache, links)
                       | Returned profile_data =>
                           match pd_posts profile_data with
                           | [] =>
                               (App.InsufficientData
                                  "Could not fetch sufficient data from profile",
                                cache, links)
                           | post :: posts =>
                               let '(response, link_analysis_cache) :=
                                 reconcile_profile W
                                   (fst (ml_analyze_profile W self (post :: posts)))
                                   (pd_links profile_data) links in
                               (App.Analysis response (Some stamped_at),
                                <[("profile:" ++ platform ++ ":" ++ identifier)%string
                                  := {| App.cached_response := response;
                                        App.cached_timestamp := Some stamped_at |}]>
                                  cache,
                                link_analysis_cache)
                           end
                       end ->
               cached_as (fst (fst reply))
                         ("profile:" ++ platform ++ ":" ++ identifier)%string
                         cache (snd (fst reply))
               /\ (is_analysis (fst (fst reply)) = false -> snd reply = links))
      as Hmiss.
    { intros reply ->.
      destruct (fetch_profile_data B identifier platform) as [m | data];
        [split; reflexivity |].
      destruct (pd_posts data) as [| post posts]; [split; reflexivity |].
      destruct (reconcile_profile W _ (pd_links data) links) as [response links'].
      cbn [fst snd]. split; [apply cached_as_stored | discriminate]. }
    destruct (cache !! _) as [cached |] eqn:E.
    + destruct (Qltb (checked_at - App.CACHE_EXPIRY) (App.timestamp_or_0 cached)).
      * cbn [fst snd]. split; [| discriminate].
        apply cached_as_hit. destruct cached; exact E.
      * apply Hmiss. reflexivity.
    + apply Hmiss. reflexivity.
  - intros url. cbv zeta. unfold App.analyze_url, url_key.
    destruct (cache !! _) as [cached |] eqn:E.
    + cbn [fst snd]. split; [| discriminate].
      apply cached_as_hit. destruct cached; exact E.
    + destruct (fetch_url_content B url) as [m | page]; [split; reflexivity |].
      destruct page as [[| c rest] |];
        [split; reflexivity | | split; reflexivity].
      destruct (reconcile_url W _ url links) as [response links'].
      cbn [fst snd]. split; [apply cached_as_stored | discriminate].
  - reflexivity.
  - intros identifier platform checked_at stamped_at [-> | ->].
    + reflexivity.
    + destruct identifier; reflexivity.
  - reflexivity.
Qed.

(* ===================================================================== *)
(** ** The verification of a submission *)
(* ===================================================================== *)

Lemma label_map_labels (c : Z) : In (App.label_map c) labels.
Proof.
  unfold labels.
  destruct c as [| [p | [p | p |] |] | p]; cbn; auto.
Qed.

(** X21. What [verify_submission] recommends. Without an analysis it
    recommends to reject only for a bad identifier. With one, the label
    it recommends is one of the three labels, so that a proposal outside
    them is never verified; a verified proposal is accepted; a rejection
    needs a contradiction with a confidence above 0.8, which takes at
    least 7 posts; and from 10 posts on a contradicted proposal is never
    accepted. *)
Theorem verification_recommendations (W : World) (B : Web) (self : ContentAnalyzer)
    (identifier proposed_label : string) (platform : option string) :
  sqrt_sound W ->
  let outcome :=
    App.verify_submission W B self (Some identifier) (Some proposed_label)
                          platform in
  (forall reason,
      outcome = App.VerifyRefused reason "reject" ->
      is_bad_identifier B identifier = Some true)
  /\ (forall verified c label recommendation,
         outcome = App.Verified verified c label recommendation ->
         exists data,
           fetch_profile_data B identifier
             (match platform with Some p => p | None => "unknown"%string end)
           = Returned data
           /\ pd_posts data <> []
           /\ is_bad_identifier B identifier = Some false
           /\ In label labels
           /\ (verified = true <-> label = proposed_label)
           /\ (~ In proposed_label labels -> verified = false)
           /\ 0.3 <= c <= 0.95
           /\ In recommendation ["accept"; "gray_area"; "reject"]%string
           /\ (verified = true -> recommendation = "accept"%string)
           /\ (recommendation = "reject"%string ->
               verified = false /\ 0.8 < c
               /\ (7 <= List.length (pd_posts data))%nat)
           /\ (verified = false -> (10 <= List.length (pd_posts data))%nat ->
               recommendation <> "accept"%string)).
Proof.
  intros Hsqrt outcome. unfold outcome, App.verify_submission.
  destruct (is_bad_identifier B identifier) as [[|] |] eqn:Hbad.
  - split; [reflexivity | discriminate].
  - set (p := match platform with Some p => p | None => "unknown"%string end).
    destruct (fetch_profile_data B identifier p) as [m | data] eqn:Hdata;
      [split; discriminate |].
    destruct (pd_posts data) as [| post posts] eqn:Hposts;
      [split; discriminate |].
    destruct (profile_confidence_facts W self (post :: posts) Hsqrt
                ltac:(discriminate)) as (Hrange & Hten & _ & Hseven).
    unfold ml_analyze_profile, verdict_of in *.
    set (v := fst (analyze_profile W self (post :: posts))) in *.
    clearbody v.
    split; [discriminate |].
    intros verified c label recommendation H.
    injection H as <- <- <- <-.
    exists data. split; [reflexivity |]. rewrite Hposts.
    split; [discriminate |]. split; [reflexivity |].
    pose proof (label_map_labels (classification v)) as Hlabel.
    split; [exact Hlabel |].
    split; [apply String.eqb_eq |].
    split.
    { intros Hout. destruct (String.eqb _ proposed_label) eqn:E; [| reflexivity].
      apply String.eqb_eq in E. rewrite <- E in Hout. contradiction. }
    split; [exact Hrange |].
    destruct (String.eqb (App.label_map (classification v)) proposed_label);
      cbn [negb andb].
    + split; [cbn; auto |]. split; [reflexivity |].
      split; [discriminate |]. discriminate.
    + destruct (Qltb_cases 0.8 (confidence v)) as [[-> Hc] | [-> Hc]].
      * split; [cbn; auto |]. split; [discriminate |].
        split; [| discriminate].
        intros _. split; [reflexivity |]. split; [exact Hc | exact (Hseven Hc)].
      * destruct (Qltb_cases 0.5 (confidence v)) as [[-> Hm] | [-> Hm]].
        -- split; [cbn; auto |]. split; [discriminate |].
           split; discriminate.
        -- split; [cbn; auto |]. split; [discriminate |].
           split; [discriminate |].
           intros _ Hlen. specialize (Hten Hlen). exfalso. lra.
  - split; discriminate.
Qed.

Lemma verification_recommendations_witness :
  let B := canned_web ["trans rights are human rights"%string] [] None in
  exists c,
    App.verify_submission quiet_world B analyzer_without_ollama
      (Some "example.org/someone"%string) (Some "transphobic"%string) None
    = App.Verified false c "gray-area" "gray_area"
    /\ 0.3 <= c <= 0.95.
Proof.
  intros B. eexists. split; [reflexivity |].
  destruct (verification_recommendations quiet_world B analyzer_without_ollama
              "example.org/someone" "transphobic" None sqrt_down_sound)
    as [_ Hverified].
  destruct (Hverified _ _ _ _ eq_refl)
    as (data & _ & _ & _ & _ & _ & _ & Hrange & _).
  exact Hrange.
Defined.

(* ===================================================================== *)
(** ** WebAnalyzer *)
(* ===================================================================== *)

Lemma append_String (c : ascii) (s t : string) :
  (String c s ++ t)%string = String c (s ++ t).
Proof. reflexivity. Qed.

Lemma host_of_plain (d rest : string) :
  Urllib.all_chars plain_char d = true ->
  Urllib.until_delimiter (Urllib.remove_unsafe (d ++ String "/" rest)) = d.
Proof.
  induction d as [| c s IH]; intro Hplain.
  - reflexivity.
  - cbn [Urllib.all_chars] in Hplain. apply andb_true_iff in Hplain.
    destruct Hplain as [Hc Hs]. apply plain_char_true in Hc.
    destruct Hc as (Hu & Hd & _).
    rewrite append_String. cbn [Urllib.remove_unsafe]. rewrite Hu.
    cbn [Urllib.until_delimiter]. rewrite Hd. f_equal. exact (IH Hs).
Qed.

Lemma contains_slash_app (d rest : string) :
  PyStr.contains "/" (d ++ String "/" rest) = true.
Proof.
  induction d as [| c s IH]; [reflexivity |].
  rewrite append_String. cbn [PyStr.contains]. rewrite IH. apply orb_true_r.
Qed.

Lemma contains_slash_plain (d : string) :
  Urllib.all_chars plain_char d = true -> PyStr.contains "/" d = false.
Proof.
  induction d as [| c s IH]; intro Hplain; [reflexivity |].
  cbn [Urllib.all_chars] in Hplain. apply andb_true_iff in Hplain.
  destruct Hplain as [Hc Hs]. apply plain_char_true in Hc.
  destruct Hc as (_ & Hd & _). cbn [PyStr.contains]. rewrite (IH Hs).
  unfold Urllib.delimiter in Hd. apply orb_false_iff in Hd.
  destruct Hd as [Hd _]. apply orb_false_iff in Hd. destruct Hd as [Hd _].
  rewrite Ascii.eqb_sym, Hd. reflexivity.
Qed.

Lemma startswith_app (p s : string) : PyStr.startswith p (p ++ s) = true.
Proof.
  induction p as [| c p IH]; [reflexivity |].
  rewrite append_String. cbn [PyStr.startswith].
  rewrite Ascii.eqb_refl. exact IH.
Qed.

(** The host of an identifier that is a plain domain followed by a
    path. *)
Lemma bad_identifier_of_host N bad (d rest : string) :
  Urllib.all_chars plain_char d = true ->
  PyStr.startswith "http" d = false ->
  WebAnalyzer.is_bad_identifier N bad (d ++ String "/" rest)
  = Some (bool_decide
            ((if PyStr.startswith "www." d then PyStr.drop 4 d else d) ∈ bad)).
Proof.
  intros Hplain Hhttp. unfold WebAnalyzer.is_bad_identifier.
  rewrite contains_slash_app.
  assert (PyStr.startswith "http" (d ++ String "/" rest) = false) as ->.
  { revert Hhttp.
    destruct d as [| c1 [| c2 [| c3 [| c4 d']]]];
      rewrite ?append_String; cbn [PyStr.startswith];
      repeat match goal with
             | |- context [Ascii.eqb ?a ?b] =>
                 is_var b; destruct (Ascii.eqb a b)
             end;
      cbn; intros; try reflexivity; try discriminate; try assumption. }
  rewrite netloc_https. cbv zeta. rewrite (host_of_plain d rest Hplain).
  destruct (no_brackets_plain d Hplain) as [-> ->].
  cbn [andb orb negb]. reflexivity.
Qed.

(** X22. [is_bad_identifier] reduces an identifier with a slash to its host
    without one leading [www.], and takes an identifier without a slash
    as it is: a listed domain is recognised when it is followed by a
    path, with or without [www.] and [https://], but [www.] is not
    removed from an identifier that has no slash. *)
Theorem bad_identifier_forms (N : WebAnalyzer.Net) (bad : gset string)
    (d path : string) :
  normal_domain d = true ->
  let listed := bool_decide (d ∈ bad) in
  WebAnalyzer.is_bad_identifier N bad d = Some listed
  /\ WebAnalyzer.is_bad_identifier N bad (d ++ "/" ++ path) = Some listed
  /\ WebAnalyzer.is_bad_identifier N bad ("www." ++ d ++ "/" ++ path) = Some listed
  /\ WebAnalyzer.is_bad_identifier N bad ("https://www." ++ d ++ "/" ++ path)
     = Some listed
  /\ WebAnalyzer.is_bad_identifier N bad ("www." ++ d)
     = Some (bool_decide (("www." ++ d)%string ∈ bad)).
Proof.
  intros Hnormal listed. unfold listed. clear listed. revert Hnormal.
  unfold normal_domain. rewrite !andb_true_iff, !negb_true_iff.
  intros ((Hplain & Hwww) & Hhttp).
  assert (Urllib.all_chars plain_char ("www." ++ d) = true) as Hplain'
    by exact Hplain.
  split; [| split; [| split; [| split]]].
  - unfold WebAnalyzer.is_bad_identifier.
    rewrite (contains_slash_plain d Hplain). reflexivity.
  - change (d ++ "/" ++ path)%string with (d ++ String "/" path)%string.
    rewrite (bad_identifier_of_host N bad d path Hplain Hhttp), Hwww.
    reflexivity.
  - change ("www." ++ d ++ "/" ++ path)%string
      with (("www." ++ d) ++ String "/" path)%string.
    rewrite (bad_identifier_of_host N bad ("www." ++ d) path Hplain' eq_refl).
    reflexivity.
  - unfold WebAnalyzer.is_bad_identifier.
    change ("https://www." ++ d ++ "/" ++ path)%string
      with ("https://" ++ (("www." ++ d) ++ String "/" path))%string.
    assert (PyStr.contains "/" ("https://" ++ (("www." ++ d) ++ String "/" path))
            = true) as -> by reflexivity.
    assert (PyStr.startswith "http"
              ("https://" ++ (("www." ++ d) ++ String "/" path)) = true) as ->
      by reflexivity.
    rewrite netloc_https. cbv zeta.
    rewrite (host_of_plain ("www." ++ d) path Hplain').
    destruct (no_brackets_plain ("www." ++ d) Hplain') as [-> ->].
    cbn [andb orb negb]. reflexivity.
  - unfold WebAnalyzer.is_bad_identifier.
    rewrite (contains_slash_plain ("www." ++ d) Hplain'). reflexivity.
Qed.

Lemma bad_identifier_forms_witness :
  let bad : gset string := {[ "facebook.com"%string; "twitter.com"%string ]} in
  WebAnalyzer.is_bad_identifier no_net bad "www.facebook.com/some.page"
  = Some true
  /\ WebAnalyzer.is_bad_identifier no_net bad "www.facebook.com" = Some false.
Proof.
  intros bad.
  destruct (bad_identifier_forms no_net bad "facebook.com" "some.page" eq_refl)
    as (_ & _ & Hpath & _ & Hbare).
  split; [exact Hpath | exact Hbare].
Defined.

(** X23. An identifier with a slash whose host opens a bracket that it does
    not close makes [urlparse] raise; [is_bad_identifier] lets the error
    through, and [verify_submission], which calls it before its [try],
    does not answer. *)
Theorem unmatched_bracket_is_unhandled (W : World) (B : Web)
    (self : ContentAnalyzer) (N : WebAnalyzer.Net) (bad : gset string)
    (d path label : string) (platform : option string) :
  is_bad_identifier B = WebAnalyzer.is_bad_identifier N bad ->
  Urllib.all_chars plain_char d = true ->
  WebAnalyzer.is_bad_identifier N bad ("[" ++ d ++ "/" ++ path) = None
  /\ App.verify_submission W B self (Some ("[" ++ d ++ "/" ++ path)%string)
                           (Some label) platform
     = App.Unhandled.
Proof.
  intros HB Hplain.
  assert (WebAnalyzer.is_bad_identifier N bad ("[" ++ d ++ "/" ++ path) = None)
    as Hraise.
  { unfold WebAnalyzer.is_bad_identifier.
    change ("[" ++ d ++ "/" ++ path)%string
      with (String "[" (d ++ String "/" path)).
    cbn [PyStr.contains]. rewrite contains_slash_app, orb_true_r.
    assert (PyStr.startswith "http" (String "[" (d ++ String "/" path)) = false)
      as -> by reflexivity.
    rewrite netloc_https. cbv zeta.
    assert (Urllib.until_delimiter
              (Urllib.remove_unsafe (String "[" (d ++ String "/" path)))
            = String "[" d) as ->.
    { change (Urllib.remove_unsafe (String "[" (d ++ String "/" path)))
        with (String "[" (Urllib.remove_unsafe (d ++ String "/" path))).
      change (Urllib.until_delimiter
                (String "[" (Urllib.remove_unsafe (d ++ String "/" path))))
        with (String "[" (Urllib.until_delimiter
                            (Urllib.remove_unsafe (d ++ String "/" path)))).
      rewrite (host_of_plain d path Hplain). reflexivity. }
    destruct (no_brackets_plain d Hplain) as [_ Hclose].
    cbn [PyStr.contains]. rewrite Hclose.
    rewrite Ascii.eqb_refl. reflexivity. }
  split; [exact Hraise |].
  unfold App.verify_submission. rewrite HB, Hraise. reflexivity.
Qed.

Lemma unmatched_bracket_is_unhandled_witness :
  App.verify_submission quiet_world
    (web_with no_net ∅ ["trans rights are human rights"%string] [] None)
    analyzer_without_ollama
    (Some "[example.org/someone"%string) (Some "t-friendly"%string) None
  = App.Unhandled.
Proof.
  apply (unmatched_bracket_is_unhandled quiet_world
           (web_with no_net ∅ ["trans rights are human rights"%string] [] None)
           analyzer_without_ollama no_net ∅ "example.org" "someone"
           "t-friendly" None eq_refl eq_refl).
Defined.

(** X24. [_cached_request] caches what it returns and nothing else. A failed
    request leaves the cache as it was; no other entry is ever touched;
    a cache of responses of status 200 stays one and only such responses
    are returned. A response that is returned is in the cache with a time
    less than an hour old, and until an hour after that time the same
    response is returned for the URL, whatever the headers, without a
    request. *)
Theorem cached_request_discipline (N : WebAnalyzer.Net) (url : string)
    (headers : option (list (string * string))) (now : Q)
    (cache : gmap string (Q * WebAnalyzer.HttpResponse)) :
  let r := WebAnalyzer._cached_request N url headers now cache in
  (fst r = None -> snd r = cache)
  /\ (forall other, other <> url -> snd r !! other = cache !! other)
  /\ (request_cache_ok cache -> request_cache_ok (snd r))
  /\ (forall response,
         fst r = Some response ->
         (request_cache_ok cache -> WebAnalyzer.status_code response = 200%Z)
         /\ exists cache_time,
             snd r !! url = Some (cache_time, response)
             /\ now - cache_time < WebAnalyzer.cache_expiry
             /\ forall N' headers' later,
                 later - cache_time < WebAnalyzer.cache_expiry ->
                 WebAnalyzer._cached_request N' url headers' later (snd r)
                 = (Some response, snd r)).
Proof.
  cbv zeta. unfold WebAnalyzer._cached_request.
  assert (forall (m : gmap string (Q * WebAnalyzer.HttpResponse)) t response later,
             m !! url = Some (t, response) ->
             later - t < WebAnalyzer.cache_expiry ->
             forall N' headers',
               WebAnalyzer._cached_request N' url headers' later m
               = (Some response, m)) as Hhit.
  { intros m t response later E Hfresh N' headers'.
    unfold WebAnalyzer._cached_request. rewrite E.
    apply Qltb_true in Hfresh. rewrite Hfresh. reflexivity. }
  set (fetched :=
         match WebAnalyzer.requests_get N url
                 match headers with
                 | Some (header :: others) => header :: others
                 | _ => [("User-Agent"%string, WebAnalyzer.user_agent)]
                 end with
         | Raised _ => (None, cache)
         | Returned response =>
             if (WebAnalyzer.status_code response =? 200)%Z
             then (Some response, <[url := (now, response)]> cache)
             else (None, cache)
         end).
  assert ((fst fetched = None -> snd fetched = cache)
          /\ (forall other, other <> url -> snd fetched !! other = cache !! other)
          /\ (request_cache_ok cache -> request_cache_ok (snd fetched))
          /\ (forall response,
                 fst fetched = Some response ->
                 (request_cache_ok cache ->
                  WebAnalyzer.status_code response = 200%Z)
                 /\ exists cache_time,
                     snd fetched !! url = Some (cache_time, response)
                     /\ now - cache_time < WebAnalyzer.cache_expiry
                     /\ forall N' headers' later,
                         later - cache_time < WebAnalyzer.cache_expiry ->
                         WebAnalyzer._cached_request N' url headers' later
                                                     (snd fetched)
                         = (Some response, snd fetched))) as Hmiss.
  { unfold fetched.
    destruct (WebAnalyzer.requests_get N url _) as [m | response].
    - cbn [fst snd]. repeat split; auto; discriminate.
    - destruct (WebAnalyzer.status_code response =? 200)%Z eqn:Hstatus.
      + apply Z.eqb_eq in Hstatus. cbn [fst snd].
        split; [discriminate |].
        split; [intros other Hne; apply lookup_insert_ne; congruence |].
        split; [intro Hok; apply map_Forall_insert_2; [exact Hstatus | exact Hok] |].
        intros response' H. injection H as <-.
        split; [intros _; exact Hstatus |].
        exists now. split; [apply lookup_insert_eq |].
        split; [unfold WebAnalyzer.cache_expiry; lra |].
        intros N' headers' later Hfresh.
        apply (Hhit _ now response later); [apply lookup_insert_eq | exact Hfresh].
      + cbn [fst snd]. repeat split; auto; discriminate. }
  destruct (cache !! url) as [[cache_time cached] |] eqn:E; [| exact Hmiss].
  destruct (Qltb_cases (now - cache_time) WebAnalyzer.cache_expiry)
    as [[-> Hfresh] | [-> _]]; [| exact Hmiss].
  cbn [fst snd]. split; [discriminate |]. split; [reflexivity |].
  split; [auto |].
  intros response H. injection H as <-.
  split; [intro Hok; exact (map_Forall_lookup_1 _ _ _ _ Hok E) |].
  exists cache_time. split; [exact E |]. split; [exact Hfresh |].
  intros N' headers' later Hlater.
  exact (Hhit cache cache_time cached later E Hlater N' headers').
Qed.

(** *** The cleaning of the text of a page *)

Lemma append_Empty (t : string) : (EmptyString ++ t)%string = t.
Proof. reflexivity. Qed.

Lemma all_chars_app p (a b : string) :
  Urllib.all_chars p (a ++ b) = Urllib.all_chars p a && Urllib.all_chars p b.
Proof.
  induction a as [| c a IH]; [reflexivity |].
  rewrite append_String. cbn [Urllib.all_chars]. rewrite IH.
  apply andb_assoc.
Qed.

Lemma rstrip_cons (c : ascii) (s : string) :
  PyStr.rstrip (String c s)
  = match PyStr.rstrip s with
    | EmptyString =>
        if PyStr.isspace c then EmptyString else String c EmptyString
    | r => String c r
    end.
Proof. reflexivity. Qed.

Lemma rstrip_head (s : string) (c : ascii) (r : string) :
  PyStr.rstrip s = String c r -> exists t, s = String c t.
Proof.
  destruct s as [| a t]; [discriminate |].
  rewrite rstrip_cons.
  destruct (PyStr.rstrip t); [destruct (PyStr.isspace a) |];
    intro H; inversion H; subst; eexists; reflexivity.
Qed.

Lemma lstrip_all_chars p (s : string) :
  Urllib.all_chars p s = true -> Urllib.all_chars p (PyStr.lstrip s) = true.
Proof.
  induction s as [| c s IH]; [reflexivity |].
  intro H. cbn [PyStr.lstrip]. destruct (PyStr.isspace c); [| exact H].
  cbn [Urllib.all_chars] in H. apply andb_true_iff in H. apply IH, H.
Qed.

Lemma rstrip_all_chars p (s : string) :
  Urllib.all_chars p s = true -> Urllib.all_chars p (PyStr.rstrip s) = true.
Proof.
  induction s as [| c s IH]; [reflexivity |].
  intro H. cbn [Urllib.all_chars] in H. apply andb_true_iff in H.
  destruct H as [Hc Hs]. specialize (IH Hs). rewrite rstrip_cons.
  destruct (PyStr.rstrip s) as [| a r].
  - destruct (PyStr.isspace c); [reflexivity |].
    cbn [Urllib.all_chars]. rewrite Hc. reflexivity.
  - cbn [Urllib.all_chars] in *. rewrite Hc. exact IH.
Qed.

Lemma strip_all_chars p (s : string) :
  Urllib.all_chars p s = true -> Urllib.all_chars p (PyStr.strip s) = true.
Proof. intro H. apply rstrip_all_chars, lstrip_all_chars, H. Qed.

Lemma no_double_space_cons (c c' : ascii) (s : string) :
  no_double_space (String c (String c' s))
  = negb (Ascii.eqb c " " && Ascii.eqb c' " ") && no_double_space (String c' s).
Proof. reflexivity. Qed.

Lemma no_double_space_tail (c : ascii) (s : string) :
  no_double_space (String c s) = true -> no_double_space s = true.
Proof.
  destruct s as [| c' s]; [reflexivity |].
  rewrite no_double_space_cons. intro H. apply andb_true_iff in H. apply H.
Qed.

Lemma lstrip_no_double_space (s : string) :
  no_double_space s = true -> no_double_space (PyStr.lstrip s) = true.
Proof.
  induction s as [| c s IH]; [reflexivity |].
  intro H. cbn [PyStr.lstrip]. destruct (PyStr.isspace c); [| exact H].
  apply IH. exact (no_double_space_tail c s H).
Qed.

Lemma rstrip_no_double_space (s : string) :
  no_double_space s = true -> no_double_space (PyStr.rstrip s) = true.
Proof.
  induction s as [| c s IH]; [reflexivity |].
  intro H. specialize (IH (no_double_space_tail c s H)). rewrite rstrip_cons.
  destruct (PyStr.rstrip s) as [| a r] eqn:E.
  - destruct (PyStr.isspace c); reflexivity.
  - destruct (rstrip_head s a r E) as [t ->].
    rewrite no_double_space_cons in *. apply andb_true_iff in H.
    destruct H as [H _]. rewrite H. exact IH.
Qed.

Lemma strip_no_double_space (s : string) :
  no_double_space s = true -> no_double_space (PyStr.strip s) = true.
Proof. intro H. apply rstrip_no_double_space, lstrip_no_double_space, H. Qed.

Lemma starts_clean_lstrip (s : string) : starts_clean (PyStr.lstrip s) = true.
Proof.
  induction s as [| c s IH]; [reflexivity |].
  cbn [PyStr.lstrip]. destruct (PyStr.isspace c) eqn:E; [exact IH |].
  cbn [starts_clean]. rewrite E. reflexivity.
Qed.

Lemma starts_clean_rstrip (s : string) :
  starts_clean s = true -> starts_clean (PyStr.rstrip s) = true.
Proof.
  destruct s as [| c s]; [reflexivity |].
  cbn [starts_clean]. intro H. rewrite rstrip_cons.
  destruct (PyStr.rstrip s).
  - apply negb_true_iff in H. rewrite H. cbn [starts_clean]. rewrite H.
    reflexivity.
  - exact H.
Qed.

Lemma ends_clean_cons (c c' : ascii) (s : string) :
  ends_clean (String c (String c' s)) = ends_clean (String c' s).
Proof. reflexivity. Qed.

Lemma ends_clean_rstrip (s : string) : ends_clean (PyStr.rstrip s) = true.
Proof.
  induction s as [| c s IH]; [reflexivity |].
  rewrite rstrip_cons. destruct (PyStr.rstrip s) as [| a r].
  - destruct (PyStr.isspace c) eqn:E; [reflexivity |].
    cbn [ends_clean]. rewrite E. reflexivity.
  - rewrite ends_clean_cons. exact IH.
Qed.

Lemma lstrip_id (s : string) : starts_clean s = true -> PyStr.lstrip s = s.
Proof.
  destruct s as [| c s]; [reflexivity |].
  cbn [starts_clean PyStr.lstrip]. intro H. apply negb_true_iff in H.
  rewrite H. reflexivity.
Qed.

Lemma rstrip_id (s : string) : ends_clean s = true -> PyStr.rstrip s = s.
Proof.
  induction s as [| c s IH]; [reflexivity |].
  destruct s as [| c' s].
  - cbn [ends_clean]. intro H. apply negb_true_iff in H.
    rewrite rstrip_cons. cbn [PyStr.rstrip]. rewrite H. reflexivity.
  - rewrite ends_clean_cons. intro H. rewrite rstrip_cons, (IH H).
    reflexivity.
Qed.

Lemma strip_id (s : string) :
  starts_clean s = true -> ends_clean s = true -> PyStr.strip s = s.
Proof.
  intros Hs He. unfold PyStr.strip. rewrite (lstrip_id s Hs). exact (rstrip_id s He).
Qed.

Lemma strip_clean (s : string) :
  starts_clean (PyStr.strip s) = true /\ ends_clean (PyStr.strip s) = true.
Proof.
  unfold PyStr.strip. split.
  - apply starts_clean_rstrip, starts_clean_lstrip.
  - apply ends_clean_rstrip.
Qed.

Lemma space_is_space (c : ascii) :
  PyStr.isspace c = false -> Ascii.eqb c " " = false.
Proof.
  intro H. destruct (Ascii.eqb_spec c " "%char) as [-> |]; [| reflexivity].
  vm_compute in H. discriminate H.
Qed.

(** The lines of [splitlines] have no line boundary. *)
Lemma read_lines_no_linebreak (n : nat) (s : string) :
  (String.length s <= n)%nat ->
  no_linebreak (fst (PyText.read_lines s)) = true
  /\ List.Forall (fun line => no_linebreak line = true)
                 (snd (PyText.read_lines s)).
Proof.
  revert s. induction n as [| n IH]; intros s Hlen.
  - destruct s; [split; [reflexivity | constructor] | cbn in Hlen; lia].
  - destruct s as [| c s']; [split; [reflexivity | constructor] |].
    cbn [String.length] in Hlen.
    cbn [PyText.read_lines].
    destruct (PyText.linebreak c) eqn:Hc.
    + cbn [fst snd]. split; [reflexivity |].
      destruct s' as [| c' s'']; [constructor |].
      destruct (PyText.is_cr c && PyText.is_lf c').
      * destruct s'' as [| c'' s''']; [constructor |].
        destruct (IH (String c'' s''') ltac:(cbn [String.length] in *; lia))
          as [H1 H2].
        constructor; assumption.
      * destruct (IH (String c' s'') ltac:(lia)) as [H1 H2].
        constructor; assumption.
    + destruct (IH s' ltac:(lia)) as [H1 H2].
      cbv zeta. cbn [fst snd]. split; [| exact H2].
      unfold no_linebreak in *. cbn [Urllib.all_chars]. rewrite Hc, H1.
      reflexivity.
Qed.

Lemma splitlines_no_linebreak (s : string) :
  List.Forall (fun line => no_linebreak line = true) (PyText.splitlines s).
Proof.
  unfold PyText.splitlines. destruct s as [| c s]; [constructor |].
  destruct (read_lines_no_linebreak _ (String c s) (le_n _)) as [H1 H2].
  cbv zeta. constructor; assumption.
Qed.

Lemma read_lines_id (s : string) :
  no_linebreak s = true -> PyText.read_lines s = (s, []).
Proof.
  induction s as [| c s IH]; [reflexivity |].
  unfold no_linebreak. cbn [Urllib.all_chars]. intro H.
  apply andb_true_iff in H. destruct H as [Hc Hs].
  apply negb_true_iff in Hc. cbn [PyText.read_lines]. rewrite Hc.
  cbv zeta. rewrite (IH Hs). reflexivity.
Qed.

Lemma pieces2_cons (a b c c' : ascii) (s : string) :
  PyText.pieces2 a b (String c (String c' s))
  = if Ascii.eqb c a && Ascii.eqb c' b then
      (EmptyString,
       fst (PyText.pieces2 a b s) :: snd (PyText.pieces2 a b s))
    else
      (String c (fst (PyText.pieces2 a b (String c' s))),
       snd (PyText.pieces2 a b (String c' s))).
Proof. reflexivity. Qed.

Lemma pieces2_head (a b c : ascii) (s : string) :
  fst (PyText.pieces2 a b (String c s)) = EmptyString
  \/ exists t, fst (PyText.pieces2 a b (String c s)) = String c t.
Proof.
  destruct s as [| c' s]; [right; eexists; reflexivity |].
  rewrite pieces2_cons. destruct (Ascii.eqb c a && Ascii.eqb c' b).
  - left. reflexivity.
  - right. eexists. reflexivity.
Qed.

(** The pieces of [split] are made of characters of the string, and hold
    no separator. *)
Lemma pieces2_chars p (a b : ascii) (n : nat) (s : string) :
  (String.length s <= n)%nat ->
  Urllib.all_chars p s = true ->
  Urllib.all_chars p (fst (PyText.pieces2 a b s)) = true
  /\ List.Forall (fun piece => Urllib.all_chars p piece = true)
                 (snd (PyText.pieces2 a b s)).
Proof.
  revert s. induction n as [| n IH]; intros s Hlen Hs.
  - destruct s; [split; [reflexivity | constructor] | cbn in Hlen; lia].
  - destruct s as [| c [| c' s]]; [split; [reflexivity | constructor] | |].
    + split; [exact Hs | constructor].
    + cbn [String.length] in Hlen. rewrite pieces2_cons.
      cbn [Urllib.all_chars] in Hs. apply andb_true_iff in Hs.
      destruct Hs as [Hc Hs].
      destruct (Ascii.eqb c a && Ascii.eqb c' b); cbn [fst snd].
      * apply andb_true_iff in Hs. destruct Hs as [_ Hs].
        destruct (IH s ltac:(lia) Hs) as [H1 H2].
        split; [reflexivity | constructor; assumption].
      * destruct (IH (String c' s) ltac:(cbn [String.length]; lia) Hs)
          as [H1 H2].
        split; [| exact H2]. cbn [Urllib.all_chars]. rewrite Hc. exact H1.
Qed.

Lemma pieces2_no_double_space (n : nat) (s : string) :
  (String.length s <= n)%nat ->
  no_double_space (fst (PyText.pieces2 " " " " s)) = true
  /\ List.Forall (fun piece => no_double_space piece = true)
                 (snd (PyText.pieces2 " " " " s)).
Proof.
  revert s. induction n as [| n IH]; intros s Hlen.
  - destruct s; [split; [reflexivity | constructor] | cbn in Hlen; lia].
  - destruct s as [| c [| c' s]];
      [split; [reflexivity | constructor] | split; [reflexivity | constructor] |].
    cbn [String.length] in Hlen. rewrite pieces2_cons.
    destruct (Ascii.eqb c " " && Ascii.eqb c' " ") eqn:Hsep; cbn [fst snd].
    + destruct (IH s ltac:(lia)) as [H1 H2].
      split; [reflexivity | constructor; assumption].
    + destruct (IH (String c' s) ltac:(cbn [String.length]; lia)) as [H1 H2].
      split; [| exact H2].
      destruct (pieces2_head " " " " c' s) as [-> | [t Ht]]; [reflexivity |].
      rewrite Ht in *. rewrite no_double_space_cons, Hsep. exact H1.
Qed.

Lemma pieces2_id (s : string) :
  no_double_space s = true -> PyText.pieces2 " " " " s = (s, []).
Proof.
  induction s as [| c s IH]; [reflexivity |].
  destruct s as [| c' s]; [reflexivity |].
  rewrite no_double_space_cons, pieces2_cons. intro H.
  apply andb_true_iff in H. destruct H as [Hsep Hs].
  apply negb_true_iff in Hsep. rewrite Hsep, (IH Hs). reflexivity.
Qed.

Lemma ends_clean_app (x y : string) (c : ascii) :
  ends_clean (x ++ String c y) = ends_clean (String c y).
Proof.
  induction x as [| a x IH]; [reflexivity |].
  rewrite append_String.
  destruct x as [| a' x].
  - rewrite append_Empty. apply ends_clean_cons.
  - rewrite append_String in *. rewrite ends_clean_cons. exact IH.
Qed.

Lemma no_double_space_join (x y : string) (c : ascii) :
  no_double_space x = true -> ends_clean x = true -> x <> EmptyString ->
  PyStr.isspace c = false -> no_double_space (String c y) = true ->
  no_double_space (x ++ String " " (String c y)) = true.
Proof.
  intros Hx He Hne Hc Hy.
  induction x as [| a x IH]; [congruence |].
  rewrite append_String. destruct x as [| a' x].
  - rewrite append_Empty. cbn [ends_clean] in He. apply negb_true_iff in He.
    rewrite !no_double_space_cons.
    rewrite (space_is_space a He), (space_is_space c Hc), andb_false_r.
    cbn [andb negb]. rewrite Hy. reflexivity.
  - rewrite append_String in *. rewrite no_double_space_cons in *.
    apply andb_true_iff in Hx. destruct Hx as [Hsep Hx].
    rewrite Hsep. cbn [andb]. apply IH; [exact Hx | | discriminate].
    rewrite ends_clean_cons in He. exact He.
Qed.

(** A chunk that the cleaning keeps. *)
Lemma join_cleaned (chunks : list string) :
  List.Forall (fun chunk => PyStr.truthy chunk = true /\ cleaned chunk = true)
              chunks ->
  cleaned (PyStr.join " " chunks) = true
  /\ (chunks <> [] -> PyStr.truthy (PyStr.join " " chunks) = true).
Proof.
  induction chunks as [| x rest IH]; intro H.
  - split; [reflexivity | congruence].
  - inversion H as [| ? ? [Hx Hcx] Hrest]; subst.
    specialize (IH Hrest). destruct IH as [IHc IHt].
    destruct rest as [| y rest'].
    + cbn [PyStr.join]. split; [exact Hcx | intros _; exact Hx].
    + specialize (IHt ltac:(discriminate)).
      set (tail := PyStr.join " " (y :: rest')) in *.
      assert (PyStr.join " " (x :: y :: rest') = (x ++ String " " tail)%string)
        as -> by reflexivity.
      destruct x as [| a x']; [discriminate |].
      destruct tail as [| c t]; [discriminate |].
      unfold cleaned in *.
      rewrite !andb_true_iff in Hcx, IHc.
      destruct Hcx as (((Hxs & Hxe) & Hxd) & Hxl).
      destruct IHc as (((Hts & Hte) & Htd) & Htl).
      split; [| reflexivity].
      rewrite !andb_true_iff. repeat split.
      * exact Hxs.
      * rewrite ends_clean_app, ends_clean_cons. exact Hte.
      * cbn [starts_clean] in Hts. apply negb_true_iff in Hts.
        apply no_double_space_join; try assumption. discriminate.
      * unfold no_linebreak in *. rewrite all_chars_app, Hxl.
        cbn [andb]. cbn [Urllib.all_chars] in *. rewrite Htl. reflexivity.
Qed.

Lemma clean_text_chunks (text chunk : string) :
  In chunk
     (List.filter PyStr.truthy
        (flat_map (fun line => map PyStr.strip (PyText.split2 " " " " line))
                  (map PyStr.strip (PyText.splitlines text)))) ->
  PyStr.truthy chunk = true /\ cleaned chunk = true.
Proof.
  intro H. apply filter_In in H. destruct H as [H Htruthy].
  split; [exact Htruthy |].
  apply in_flat_map in H. destruct H as (line & Hline & H).
  apply in_map_iff in H. destruct H as (piece & <- & Hpiece).
  apply in_map_iff in Hline. destruct Hline as (raw & <- & Hraw).
  pose proof (splitlines_no_linebreak text) as Hlines.
  rewrite List.Forall_forall in Hlines. specialize (Hlines raw Hraw).
  assert (no_linebreak (PyStr.strip raw) = true) as Hstripped
    by (apply strip_all_chars; exact Hlines).
  unfold PyText.split2 in Hpiece. cbv zeta in Hpiece.
  destruct (pieces2_chars (fun c => negb (PyText.linebreak c)) " " " " _
              (PyStr.strip raw) (le_n _) Hstripped) as [Hc1 Hc2].
  destruct (pieces2_no_double_space _ (PyStr.strip raw) (le_n _)) as [Hd1 Hd2].
  rewrite List.Forall_forall in Hc2, Hd2.
  assert (no_linebreak piece = true /\ no_double_space piece = true)
    as [Hpl Hpd].
  { destruct Hpiece as [<- | Hpiece]; [split; assumption |].
    split; [apply Hc2 | apply Hd2]; exact Hpiece. }
  destruct (strip_clean piece) as [Hs He].
  unfold cleaned. rewrite Hs, He. cbn [andb].
  rewrite (strip_no_double_space piece Hpd). cbn [andb].
  apply strip_all_chars. exact Hpl.
Qed.

Lemma clean_text_cleaned (text : string) :
  cleaned (WebAnalyzer.clean_text text) = true.
Proof.
  unfold WebAnalyzer.clean_text. cbv zeta.
  apply join_cleaned. apply List.Forall_forall.
  intros chunk. apply clean_text_chunks.
Qed.

Lemma clean_text_fixed (text : string) :
  cleaned text = true -> WebAnalyzer.clean_text text = text.
Proof.
  intros H. unfold cleaned in H. rewrite !andb_true_iff in H.
  destruct H as (((Hs & He) & Hd) & Hl).
  destruct text as [| c s]; [reflexivity |].
  unfold WebAnalyzer.clean_text, PyText.splitlines, PyText.split2. cbv zeta.
  rewrite (read_lines_id _ Hl). cbn [fst snd map flat_map].
  rewrite (strip_id _ Hs He), (pieces2_id _ Hd). cbn [fst snd map app].
  rewrite (strip_id _ Hs He). reflexivity.
Qed.

Lemma cleaned_ends (s : string) :
  cleaned s = true ->
  starts_clean s = true /\ ends_clean s = true
  /\ PyStr.contains (ascii_of_nat 10) s = false.
Proof.
  unfold cleaned. rewrite !andb_true_iff. intros (((Hs & He) & _) & Hl).
  split; [exact Hs |]. split; [exact He |].
  revert Hl. unfold no_linebreak. clear Hs He.
  induction s as [| c s IH]; [reflexivity |].
  cbn [Urllib.all_chars PyStr.contains]. intro H.
  apply andb_true_iff in H. destruct H as [Hc H]. rewrite (IH H), orb_false_r.
  destruct (Ascii.eqb_spec (ascii_of_nat 10) c) as [<- |]; [| reflexivity].
  vm_compute in Hc. discriminate Hc.
Qed.

(** X25. The cleaning gives a text in one line, without white space at its
    ends and without two spaces in a row, and leaves such a text as it
    is: cleaning twice is cleaning once. *)
Theorem cleaning_normal_form :
  (forall text, cleaned (WebAnalyzer.clean_text text) = true)
  /\ (forall text, cleaned text = true -> WebAnalyzer.clean_text text = text)
  /\ (forall text,
         WebAnalyzer.clean_text (WebAnalyzer.clean_text text)
         = WebAnalyzer.clean_text text)
  /\ (forall text,
         PyStr.strip (WebAnalyzer.clean_text text) = WebAnalyzer.clean_text text
         /\ PyStr.contains (ascii_of_nat 10) (WebAnalyzer.clean_text text)
            = false).
Proof.
  split; [exact clean_text_cleaned |]. split; [exact clean_text_fixed |].
  split; [intro text; apply clean_text_fixed, clean_text_cleaned |].
  intro text. destruct (cleaned_ends (WebAnalyzer.clean_text text)
                          (clean_text_cleaned text)) as (Hs & He & Hnl).
  split; [exact (strip_id _ Hs He) | exact Hnl].
Qed.

(** *** The posts of a page of an unknown platform *)

Lemma pieces1_id (a : ascii) (s : string) :
  PyStr.contains a s = false -> PyText.pieces1 a s = (s, []).
Proof.
  induction s as [| c s IH]; [reflexivity |].
  cbn [PyStr.contains]. intro H. apply orb_false_iff in H.
  destruct H as [Hc Hs]. cbn [PyText.pieces1]. rewrite (IH Hs). cbv zeta.
  rewrite Ascii.eqb_sym, Hc. reflexivity.
Qed.

Lemma rstrip_app_space (x : string) :
  PyStr.rstrip (x ++ " ") = PyStr.rstrip x.
Proof.
  induction x as [| c x IH]; [reflexivity |].
  rewrite append_String, !rstrip_cons, IH. reflexivity.
Qed.

Lemma strip_app_space (x : string) :
  starts_clean x = true -> ends_clean x = true ->
  PyStr.strip (x ++ " ") = x.
Proof.
  intros Hs He. unfold PyStr.strip.
  destruct x as [| c x]; [reflexivity |].
  rewrite append_String. cbn [starts_clean] in Hs. apply negb_true_iff in Hs.
  cbn [PyStr.lstrip]. rewrite Hs. rewrite <- append_String, rstrip_app_space.
  exact (rstrip_id _ He).
Qed.

Lemma truthy_app_space (x : string) : PyStr.truthy (x ++ " ") = true.
Proof. destruct x; reflexivity. Qed.

(** A cleaned text makes one chunk, whatever its length. *)
Lemma chunks_of_cleaned (text : string) :
  starts_clean text = true -> ends_clean text = true ->
  PyStr.contains (ascii_of_nat 10) text = false ->
  WebAnalyzer.chunks_of text = [text].
Proof.
  intros Hs He Hnl. unfold WebAnalyzer.chunks_of, PyText.split1.
  rewrite (pieces1_id _ _ Hnl). cbv zeta. cbn [fst snd fold_left].
  unfold WebAnalyzer.add_paragraph.
  destruct (String.length EmptyString + String.length text <? 2000)%nat.
  - rewrite append_Empty, truthy_app_space, (strip_app_space _ Hs He).
    reflexivity.
  - cbn [PyStr.truthy]. rewrite truthy_app_space, (strip_app_space _ Hs He).
    reflexivity.
Qed.

(** X26. [_fetch_generic_data] never cuts a page into posts: the cleaned text
    has no line feed, so that the loop over its paragraphs makes one turn,
    and a page that is fetched and parsed gives exactly one post, its
    whole cleaned text, whatever the length. The list of posts is then
    not empty even when the page has no text. *)
Theorem generic_profile_is_one_post (N : WebAnalyzer.Net) (identifier : string)
    (now : Q) (cache : gmap string (Q * WebAnalyzer.HttpResponse))
    (response : WebAnalyzer.HttpResponse) (page : string) :
  let target :=
    if PyStr.startswith "http" identifier then identifier
    else ("https://" ++ identifier)%string in
  fst (WebAnalyzer._cached_request N target None now cache) = Some response ->
  WebAnalyzer.soup_text N (WebAnalyzer.content response) = Returned page ->
  fst (WebAnalyzer._fetch_generic_data N identifier now cache)
  = Returned
      {| pd_posts := [WebAnalyzer.clean_text page];
         pd_links :=
           WebAnalyzer._extract_links_from_html N (WebAnalyzer.text response) |}.
Proof.
  intros target Hresponse Hpage. unfold WebAnalyzer._fetch_generic_data.
  fold target.
  destruct (WebAnalyzer._cached_request N target None now cache)
    as [fetched cache'].
  cbn [fst] in Hresponse. subst fetched. rewrite Hpage. cbn [fst].
  destruct (cleaned_ends (WebAnalyzer.clean_text page)
              (clean_text_cleaned page)) as (Hs & He & Hnl).
  rewrite (chunks_of_cleaned _ Hs He Hnl). reflexivity.
Qed.

Lemma generic_profile_is_one_post_witness :
  fst (WebAnalyzer._fetch_generic_data
         (canned_net 200 "  Trans rights
   are   human rights  ")
         "example.org/someone" 1700000000 ∅)
  = Returned {| pd_posts := ["Trans rights are human rights"%string];
                pd_links := [] |}.
Proof.
  apply (generic_profile_is_one_post
           (canned_net 200 "  Trans rights
   are   human rights  ")
           "example.org/someone" 1700000000
           (∅ : gmap string (Q * WebAnalyzer.HttpResponse))
           {| WebAnalyzer.status_code := 200;
              WebAnalyzer.content := "  Trans rights
   are   human rights  ";
              WebAnalyzer.text := "  Trans rights
   are   human rights  " |}
           "  Trans rights
   are   human rights  ");
    [vm_compute; reflexivity | reflexivity].
Defined.

(** *** The detection of the platform *)

Lemma lower_app (a b : string) :
  PyStr.lower (a ++ b) = (PyStr.lower a ++ PyStr.lower b)%string.
Proof.
  induction a as [| c a IH]; [reflexivity |].
  rewrite append_String. cbn [PyStr.lower]. rewrite IH. reflexivity.
Qed.

Lemma lower_char_idempotent (c : ascii) :
  PyStr.lower_char (PyStr.lower_char c) = PyStr.lower_char c.
Proof.
  destruct c as [[] [] [] [] [] [] [] []]; vm_compute; reflexivity.
Qed.

Lemma lower_idempotent (s : string) :
  PyStr.lower (PyStr.lower s) = PyStr.lower s.
Proof.
  induction s as [| c s IH]; [reflexivity |].
  cbn [PyStr.lower]. rewrite lower_char_idempotent, IH. reflexivity.
Qed.

Lemma infix_unfold (needle s : string) :
  PyText.infix needle s
  = PyStr.startswith needle s
    || match s with
       | EmptyString => false
       | String _ s' => PyText.infix needle s'
       end.
Proof. destruct s; reflexivity. Qed.

Lemma infix_app (needle a b : string) :
  PyText.infix needle (a ++ needle ++ b) = true.
Proof.
  induction a as [| c a IH].
  - rewrite append_Empty, infix_unfold, startswith_app. reflexivity.
  - rewrite append_String, infix_unfold, IH. apply orb_true_r.
Qed.

(** X27. [_detect_platform] looks for the names of the platforms anywhere in
    the identifier, without regard to case, and for Twitter first: an
    identifier in which [x.com] or [twitter.com] occurs, be it in the
    name of another site or in a path, is taken for a Twitter profile. *)
Theorem detection_is_by_substring (before after : string) :
  WebAnalyzer._detect_platform (before ++ "x.com" ++ after) = "twitter"%string
  /\ WebAnalyzer._detect_platform (before ++ "X.com" ++ after) = "twitter"%string
  /\ WebAnalyzer._detect_platform (before ++ "twitter.com" ++ after)
     = "twitter"%string
  /\ forall identifier,
       WebAnalyzer._detect_platform (PyStr.lower identifier)
       = WebAnalyzer._detect_platform identifier.
Proof.
  split; [| split; [| split]].
  - unfold WebAnalyzer._detect_platform. cbv zeta.
    rewrite !lower_app.
    change (PyStr.lower "x.com") with "x.com"%string.
    rewrite (infix_app "x.com"), orb_true_r. reflexivity.
  - unfold WebAnalyzer._detect_platform. cbv zeta.
    rewrite !lower_app.
    change (PyStr.lower "X.com") with "x.com"%string.
    rewrite (infix_app "x.com"), orb_true_r. reflexivity.
  - unfold WebAnalyzer._detect_platform. cbv zeta.
    rewrite !lower_app.
    change (PyStr.lower "twitter.com") with "twitter.com"%string.
    rewrite (infix_app "twitter.com"). reflexivity.
  - intro identifier. unfold WebAnalyzer._detect_platform.
    rewrite lower_idempotent. reflexivity.
Qed.

(** *** A page without text *)

Lemma single_post_verdict W self post :
  sqrt_sound W ->
  classification (verdict_of (analyze_profile W self [post]))
  = classification (verdict_of (analyze_text W self post))
  /\ confidence (verdict_of (analyze_profile W self [post])) == 0.55.
Proof.
  intro Hsqrt.
  set (v := verdict_of (analyze_text W self post)).
  assert (consistency_of W [classification v] == 1) as Hcons
    by (apply consistency_single; exact Hsqrt).
  assert (sample_confidence_of [post] == 0.1) as Hsc by reflexivity.
  rewrite analyze_profile_nonempty by discriminate.
  change (post_verdicts W self [post]) with [v].
  change (post_labels W self [post]) with [classification v].
  cbn [classification confidence map]. split.
  - apply threshold_classification_label.
    + apply (analyze_text_well_formed W self post).
    + apply weighted_average_single.
      pose proof (analyze_text_confidence_pos W self post) as H. fold v in H. lra.
  - rewrite py_min_Qmin, Hcons, Hsc. reflexivity.
Qed.

(** X28. A page that is fetched but has no text (its cleaned text is empty)
    is no content for the URL handler, which answers that it could not
    fetch content and caches nothing; but as the profile of an unknown
    platform it is one empty post, which the profile handler takes for
    data: it answers with an analysis, gray area with confidence 0.55
    when the page has no link (the square root of [np.std] being
    sound). *)
Theorem page_without_text (W : World) (B : Web) (self : ContentAnalyzer)
    (N : WebAnalyzer.Net) (url platform : string) (now checked_at stamped_at : Q)
    (request_cache : gmap string (Q * WebAnalyzer.HttpResponse))
    (cache : gmap string App.Cached) (links : gmap string Verdict)
    (response : WebAnalyzer.HttpResponse) (page : string) :
  sqrt_sound W ->
  PyStr.startswith "http" url = true ->
  fst (WebAnalyzer._cached_request N url None now request_cache) = Some response ->
  WebAnalyzer.soup_text N (WebAnalyzer.content response) = Returned page ->
  WebAnalyzer.clean_text page = EmptyString ->
  fetch_url_content B url
  = Returned (fst (WebAnalyzer.fetch_url_content N url now request_cache)) ->
  fetch_profile_data B url platform
  = fst (WebAnalyzer._fetch_generic_data N url now request_cache) ->
  cache !! url_key url = None ->
  cache !! profile_key platform url = None ->
  App.analyze_url W B self (Some url) cache links
  = (App.InsufficientData "Could not fetch content from URL", cache, links)
  /\ exists answer,
      fst (fst (App.analyze_profile W B self (Some url) (Some platform)
                                    checked_at stamped_at cache links))
      = App.Analysis answer (Some stamped_at)
      /\ (WebAnalyzer._extract_links_from_html N (WebAnalyzer.text response) = [] ->
          classification (result answer) = 1%Z
          /\ confidence (result answer) == 0.55
          /\ tag (result answer) = profile_analysis).
Proof.
  intros Hsqrt Hhttp Hresponse Hpage Hblank Hcontent Hprofile Hmiss1 Hmiss2.
  split.
  - unfold App.analyze_url. unfold url_key in Hmiss1. rewrite Hmiss1, Hcontent.
    unfold WebAnalyzer.fetch_url_content.
    destruct (WebAnalyzer._cached_request N url None now request_cache)
      as [fetched request_cache'].
    cbn [fst] in Hresponse. subst fetched. rewrite Hpage, Hblank. reflexivity.
  - unfold App.analyze_profile. unfold profile_key in Hmiss2.
    rewrite Hmiss2, Hprofile.
    unfold WebAnalyzer._fetch_generic_data. rewrite Hhttp.
    destruct (WebAnalyzer._cached_request N url None now request_cache)
      as [fetched request_cache'].
    cbn [fst] in Hresponse. subst fetched. rewrite Hpage, Hblank.
    change (WebAnalyzer.chunks_of EmptyString) with [EmptyString].
    cbn [fst firstn pd_posts pd_links].
    destruct (single_post_verdict W self EmptyString Hsqrt) as [Hclass Hconf].
    assert (tag (verdict_of (analyze_profile W self [EmptyString]))
            = profile_analysis) as Htag.
    { rewrite analyze_profile_nonempty by discriminate. reflexivity. }
    unfold verdict_of in *.
    change (classification (fst (analyze_text W self EmptyString))) with 1%Z
      in Hclass.
    unfold ml_analyze_profile.
    set (v := fst (analyze_profile W self [EmptyString])) in *.
    clearbody v.
    destruct (reconcile_profile W v
                (WebAnalyzer._extract_links_from_html N (WebAnalyzer.text response))
                links) as [answer links'] eqn:E.
    cbn [fst]. exists answer. split; [reflexivity |].
    intro Hnolinks. rewrite Hnolinks in E. cbn [reconcile_profile] in E.
    injection E as <- _. cbn [result]. auto.
Qed.

Lemma page_without_text_witness :
  let N := canned_net 200 "  
  " in
  let B := generic_web N 1700000000 in
  App.analyze_url quiet_world B analyzer_without_ollama
                  (Some "https://example.org/blank"%string) ∅ ∅
  = (App.InsufficientData "Could not fetch content from URL", ∅, ∅)
  /\ exists answer,
      fst (fst (App.analyze_profile quiet_world B analyzer_without_ollama
                  (Some "https://example.org/blank"%string)
                  (Some "unknown"%string) 1700000000 1700000001 ∅ ∅))
      = App.Analysis answer (Some 1700000001)
      /\ (WebAnalyzer._extract_links_from_html N "  
  " = [] ->
          classification (result answer) = 1%Z
          /\ confidence (result answer) == 0.55
          /\ tag (result answer) = profile_analysis).
Proof.
  intros N B.
  apply (page_without_text quiet_world B analyzer_without_ollama N
           "https://example.org/blank" "unknown" 1700000000
           1700000000 1700000001
           (∅ : gmap string (Q * WebAnalyzer.HttpResponse)) ∅ ∅
           {| WebAnalyzer.status_code := 200;
              WebAnalyzer.content := "  
  ";
              WebAnalyzer.text := "  
  " |}
           "  
  " sqrt_down_sound);
    try reflexivity; vm_compute; reflexivity.
Defined.
